(** * ISO 15765-2 proxy of j2534-tools: a shallow embedding of
    [ISO15765Proxy/iso15765.cpp] and the properties of its transfer engine.

    Conventions of the embedding.
    - Machine integers are [Z] with the wrap-around written out where the
      source can wrap: [unsigned long] is 64 bits wide ([ulong], the LP64 data
      model), [uint32_t] is [uint32], [unsigned char] is [uint8].
    - [mOffset] has type [off_t]; it is kept as an unbounded [Z] and the casts
      of the source ([(size_t)mOffset], [DataSize - mOffset]) are written out.
    - [PASSTHRU_MSG::Data] is a fixed array of bytes indexed by offset; it is
      a total function [Z -> Z]. An access outside the array is undefined in
      C++; the properties below only look at offsets the source touches.
    - The wrapped CAN channel, the steady clock and the configuration store
      are the environment: a [World] of oracles indexed by call number.  Every
      function returns the events it produced on the wrapped channel. *)

From Stdlib Require Import ZArith List Bool Lia.
Import ListNotations.
Local Open Scope Z_scope.

(** ** Machine integers *)

Definition ulong (z : Z) : Z := z mod 2 ^ 64.
Definition uint32 (z : Z) : Z := z mod 2 ^ 32.
Definition uint8 (z : Z) : Z := z mod 2 ^ 8.

(** [(size_t)x] for a signed [x]. *)
Definition size_t (z : Z) : Z := z mod 2 ^ 64.

(** [(int)x] for an [unsigned long] [x]: the low 32 bits as a signed number. *)
Definition to_int (z : Z) : Z := (z + 2 ^ 31) mod 2 ^ 32 - 2 ^ 31.

(** ** Constants of the pass-through API

    The header declaring the protocol ids, the flag bits and the configuration
    keys is not part of the sources; the development is parametric in them. *)

Class J2534 := {
  CAN : Z;
  ISO15765 : Z;
  ISO15765_FRAME_PAD : Z;
  ISO15765_ADDR_TYPE : Z;
  ISO15765_BS : Z;
  ISO15765_STMIN : Z
}.

(** The numbering of SAE J2534-1, used for the concrete runs. *)
Definition sae_j2534 : J2534 := {|
  CAN := 5;
  ISO15765 := 6;
  ISO15765_FRAME_PAD := 0x40;
  ISO15765_ADDR_TYPE := 0x80;
  ISO15765_BS := 0x1E;
  ISO15765_STMIN := 0x1F
|}.

Inductive J2534Error := ERR_INVALID_MSG | ERR_NULLPARAMETER.

(** ** Pass-through messages *)

Definition buffer := Z -> Z.

(** Modelled from the spec: the structure is declared in the header of the
    pass-through API, which is not among the sources; its fields are the
    protocol tag, the receive status, the transmit flags, the timestamp, the
    data length, the extra-data index and the data buffer, whose first four
    bytes are the CAN identifier. *)
Record PASSTHRU_MSG := mkMsg {
  ProtocolID : Z;
  RxStatus : Z;
  TxFlags : Z;
  Timestamp : Z;
  DataSize : Z;
  ExtraDataIndex : Z;
  Data : buffer
}.

(** [d[i] = v] on an array of [unsigned char]. *)
Definition store (d : buffer) (i v : Z) : buffer :=
  fun j => if j =? i then uint8 v else d j.

(** [memcpy(&dst[doff], &src[soff], n)]. *)
Definition memcpy (dst : buffer) (doff : Z) (src : buffer) (soff n : Z) : buffer :=
  fun j => if (doff <=? j) && (j <? doff + n) then src (soff + (j - doff)) else dst j.

Definition set_DataSize (m : PASSTHRU_MSG) (n : Z) : PASSTHRU_MSG :=
  mkMsg (ProtocolID m) (RxStatus m) (TxFlags m) (Timestamp m) n (ExtraDataIndex m) (Data m).

Definition set_Data (m : PASSTHRU_MSG) (d : buffer) : PASSTHRU_MSG :=
  mkMsg (ProtocolID m) (RxStatus m) (TxFlags m) (Timestamp m) (DataSize m) (ExtraDataIndex m) d.

(** The first [n] bytes of a buffer, for reading frames off. *)
Definition bytes (d : buffer) (n : Z) : list Z :=
  map (fun k => d (Z.of_nat k)) (seq 0 (Z.to_nat n)).

Definition frame_bytes (m : PASSTHRU_MSG) : list Z := bytes (Data m) (DataSize m).

(** ** Frame codec *)

Definition J2534_DATA_OFFSET : Z := 4.
Definition CAN_DATA_SIZE : Z := 8.
Definition J2534_PCI_SIZE : Z := 1.
Definition J2534_LENGTH_SIZE : Z := 1.
Definition J2534_BS_SIZE : Z := 1.
Definition J2534_STMIN_SIZE : Z := 1.

Definition data2pid (data : buffer) : Z :=
  let pid := 0 in
  let pid := Z.lor pid (Z.shiftl (Z.land 0x1F (data 0)) 24) in
  let pid := Z.lor pid (Z.shiftl (Z.land 0xFF (data 1)) 16) in
  let pid := Z.lor pid (Z.shiftl (Z.land 0xFF (data 2)) 8) in
  let pid := Z.lor pid (Z.shiftl (Z.land 0xFF (data 3)) 0) in
  pid.

Definition pid2Data (pid : Z) (data : buffer) : buffer :=
  let data := store data 0 (Z.land 0x1F (Z.shiftr pid 24)) in
  let data := store data 1 (Z.land 0xFF (Z.shiftr pid 16)) in
  let data := store data 2 (Z.land 0xFF (Z.shiftr pid 8)) in
  let data := store data 3 (Z.land 0xFF (Z.shiftr pid 0)) in
  data.

Inductive PCIFrameName :=
  SingleFrame | FirstFrame | ConsecutiveFrame | FlowControl | UnknownFrame.

Definition PCIFrameName_eqb (a b : PCIFrameName) : bool :=
  match a, b with
  | SingleFrame, SingleFrame | FirstFrame, FirstFrame
  | ConsecutiveFrame, ConsecutiveFrame | FlowControl, FlowControl
  | UnknownFrame, UnknownFrame => true
  | _, _ => false
  end.

Definition IS_SF (d : Z) : bool := Z.shiftr (Z.land d 0xF0) 4 =? 0.
Definition IS_FF (d : Z) : bool := Z.shiftr (Z.land d 0xF0) 4 =? 1.
Definition IS_CF (d : Z) : bool := Z.shiftr (Z.land d 0xF0) 4 =? 2.
Definition IS_FC (d : Z) : bool := Z.shiftr (Z.land d 0xF0) 4 =? 3.

Definition getFrameName (pci : Z) : PCIFrameName :=
  if IS_SF pci then SingleFrame
  else if IS_FF pci then FirstFrame
  else if IS_CF pci then ConsecutiveFrame
  else if IS_FC pci then FlowControl
  else UnknownFrame.

Definition getPci (frameName : PCIFrameName) : Z :=
  match frameName with
  | SingleFrame => Z.shiftl 0x0 4
  | FirstFrame => Z.shiftl 0x1 4
  | ConsecutiveFrame => Z.shiftl 0x2 4
  | FlowControl => Z.shiftl 0x3 4
  | UnknownFrame => Z.shiftl 0xf 4
  end.

Definition getRemainingSize (msg : PASSTHRU_MSG) (offset : Z) : Z :=
  let ret := ulong (DataSize msg - offset) in
  if ret >? 7 then 7 else ret.

(** [int i = smsg.DataSize]: the loop index is an [int], so it starts at the
    low 32 bits of the size read as a signed number.  When that number is
    negative the source stores below the array; the buffer of the model then
    shows zeroes at negative offsets. *)
Definition paddingMessage (smsg : PASSTHRU_MSG) : PASSTHRU_MSG :=
  let i := to_int (DataSize smsg) in
  let d := fun j =>
    if (i <=? j) && (j <? CAN_DATA_SIZE + J2534_DATA_OFFSET)
    then 0 else Data smsg j in
  mkMsg (ProtocolID smsg) (RxStatus smsg) (TxFlags smsg) (Timestamp smsg)
        (CAN_DATA_SIZE + J2534_DATA_OFFSET) (ExtraDataIndex smsg) d.

(** ** The device proxy *)

(** What [DeviceISO15765::connect] hands back: the channel of the wrapped
    device as it is, or that channel inside a [ChannelISO15765]. *)
Inductive ChannelPtr (A : Type) :=
  | RawChannel (c : A)
  | WrappedISO15765 (c : A).
Arguments RawChannel {A} c.
Arguments WrappedISO15765 {A} c.

Section Device.
Context {K : J2534}.
Context {A : Type}.

(** [mDevice->connect], the wrapped device. *)
Variable mDevice_connect : Z -> Z -> Z -> A.

Definition connect (ProtocolID Flags BaudRate : Z) : ChannelPtr A :=
  let ProtocolID :=
    if Z.land ProtocolID 0x1FFF =? ISO15765
    then ulong (ProtocolID - 1)
    else ProtocolID in
  let ret := mDevice_connect ProtocolID Flags BaudRate in
  if Z.land ProtocolID 0x1FFF =? ISO15765
  then WrappedISO15765 ret
  else RawChannel ret.

(** The protocol id that reaches the wrapped device. *)
Definition connect_delegated_id (ProtocolID : Z) : Z :=
  if Z.land ProtocolID 0x1FFF =? ISO15765
  then ulong (ProtocolID - 1)
  else ProtocolID.
End Device.

(** ** The environment: wrapped CAN channel, steady clock, configuration

    [clock k] is the value of the [k]-th evaluation of
    [duration_cast<milliseconds>(deadline - steady_clock::now()).count()],
    a signed tick count.  [rx k] is what the [k]-th [readMsgs] of the wrapped
    channel leaves in the count and in the message buffer, [tx k] the count
    the [k]-th [writeMsgs] of the wrapped channel leaves.  The timeouts of the
    source only travel to these oracles and are not represented. *)

Definition Configuration := Z -> option Z.

Record World := mkWorld {
  clock : nat -> Z;
  ticks : nat;
  rx : nat -> Z * PASSTHRU_MSG;
  reads : nat;
  tx : nat -> Z;
  writes : nat;
  mChannelConfiguration : Configuration
}.

Inductive Event :=
  | EvWrite (m : PASSTHRU_MSG) (count : Z)
  | EvRead (count : Z) (m : PASSTHRU_MSG)
  | EvSleep (ms : Z).

(** [Timeout = (...).count()] with [Timeout] an [unsigned long]. *)
Definition steady_remaining (w : World) : Z * World :=
  (ulong (clock w (ticks w)),
   mkWorld (clock w) (S (ticks w)) (rx w) (reads w) (tx w) (writes w)
           (mChannelConfiguration w)).

(** [count = 1; mChannel.writeMsgs(&m, &count, Timeout)]. *)
Definition chan_writeMsgs (m : PASSTHRU_MSG) (w : World) : Z * World * list Event :=
  let count := tx w (writes w) in
  (count,
   mkWorld (clock w) (ticks w) (rx w) (reads w) (tx w) (S (writes w))
           (mChannelConfiguration w),
   [EvWrite m count]).

(** [count = 1; mChannel.readMsgs(&m, &count, Timeout)]. *)
Definition chan_readMsgs (w : World) : Z * PASSTHRU_MSG * World * list Event :=
  let '(count, m) := rx w (reads w) in
  (count, m,
   mkWorld (clock w) (ticks w) (rx w) (S (reads w)) (tx w) (writes w)
           (mChannelConfiguration w),
   [EvRead count m]).

(** Modelled from the spec: [Configuration::getValue] is declared outside the
    sources; the store is read by key and the out-parameter keeps its value
    when the key is absent. *)
Definition getValue (c : Configuration) (key : Z) (cur : Z) : Z :=
  match c key with
  | Some v => ulong v
  | None => cur
  end.

(** The value of the [unsigned char] at [d[i]]. *)
Definition load (d : buffer) (i : Z) : Z := uint8 (d i).

(** ** The transfer state machine *)

(** Modelled from the spec: the enumeration of the transfer states is declared
    in the header; the states are [Start], [FlowControl] and [Block]. *)
Inductive TransferState := START_STATE | FLOW_CONTROL_STATE | BLOCK_STATE.

Definition TransferState_eqb (a b : TransferState) : bool :=
  match a, b with
  | START_STATE, START_STATE
  | FLOW_CONTROL_STATE, FLOW_CONTROL_STATE
  | BLOCK_STATE, BLOCK_STATE => true
  | _, _ => false
  end.

(** Modelled from the spec: the class is declared in [iso15765.h], which is not
    among the sources; the members are those the source file uses.
    [mSequence] is taken to be an [unsigned int], [mBs] and [mStmin] to be
    [unsigned long] (they are the out-parameters of [getValue]). *)
Record ISO15765Transfer := mkTransfer {
  mMaskPid : Z;
  mPatternPid : Z;
  mFlowControlPid : Z;
  mState : TransferState;
  mMessage : PASSTHRU_MSG;
  mOffset : Z;
  mSequence : Z;
  mBs : Z;
  mStmin : Z
}.

Definition set_mState (t : ISO15765Transfer) (s : TransferState) :=
  mkTransfer (mMaskPid t) (mPatternPid t) (mFlowControlPid t) s (mMessage t)
             (mOffset t) (mSequence t) (mBs t) (mStmin t).
Definition set_mMessage (t : ISO15765Transfer) (m : PASSTHRU_MSG) :=
  mkTransfer (mMaskPid t) (mPatternPid t) (mFlowControlPid t) (mState t) m
             (mOffset t) (mSequence t) (mBs t) (mStmin t).
Definition set_mOffset (t : ISO15765Transfer) (o : Z) :=
  mkTransfer (mMaskPid t) (mPatternPid t) (mFlowControlPid t) (mState t) (mMessage t)
             o (mSequence t) (mBs t) (mStmin t).
Definition set_mSequence (t : ISO15765Transfer) (n : Z) :=
  mkTransfer (mMaskPid t) (mPatternPid t) (mFlowControlPid t) (mState t) (mMessage t)
             (mOffset t) n (mBs t) (mStmin t).
Definition set_mBs (t : ISO15765Transfer) (n : Z) :=
  mkTransfer (mMaskPid t) (mPatternPid t) (mFlowControlPid t) (mState t) (mMessage t)
             (mOffset t) (mSequence t) n (mStmin t).
Definition set_mStmin (t : ISO15765Transfer) (n : Z) :=
  mkTransfer (mMaskPid t) (mPatternPid t) (mFlowControlPid t) (mState t) (mMessage t)
             (mOffset t) (mSequence t) (mBs t) n.

Definition clear (t : ISO15765Transfer) : ISO15765Transfer :=
  let t := set_mState t START_STATE in
  let t := set_mOffset t 0 in
  let t := set_mSequence t 0 in
  let t := set_mBs t 0 in
  let t := set_mStmin t 0 in
  t.

(** The constructor; [buf] is the content of the uninitialised [mMessage]. *)
Definition new_ISO15765Transfer (buf pMaskMsg pPatternMsg pFlowControlMsg : PASSTHRU_MSG)
  : ISO15765Transfer :=
  clear (mkTransfer (data2pid (Data pMaskMsg)) (data2pid (Data pPatternMsg))
                    (data2pid (Data pFlowControlMsg)) START_STATE buf 0 0 0 0).

(** What a call does: it returns a [bool] or throws. *)
Inductive Outcome := Returned (b : bool) | Threw (e : J2534Error).

Section Transfer.
Context {K : J2534}.

Definition prepareSentMessageHeaders (out_msg in_msg : PASSTHRU_MSG) : PASSTHRU_MSG :=
  mkMsg CAN 0
        (Z.land (TxFlags in_msg) (Z.lnot (Z.lor ISO15765_FRAME_PAD ISO15765_ADDR_TYPE)))
        0 0 0
        (memcpy (Data out_msg) 0 (Data in_msg) 0 J2534_DATA_OFFSET).

Definition prepareReceivedMessageHeaders (out_msg in_msg : PASSTHRU_MSG) : PASSTHRU_MSG :=
  mkMsg ISO15765 (RxStatus in_msg) 0 0 0 0
        (memcpy (Data out_msg) 0 (Data in_msg) 0 J2534_DATA_OFFSET).

(** [if (msg.TxFlags & ISO15765_FRAME_PAD) paddingMessage(tmp_msg)]. *)
Definition pad_if_requested (msg tmp_msg : PASSTHRU_MSG) : PASSTHRU_MSG :=
  if Z.land (TxFlags msg) ISO15765_FRAME_PAD =? 0 then tmp_msg
  else paddingMessage tmp_msg.

(** One turn of the loop of [writeMsg] in [START_STATE].  The [bool] is
    [false] when the source jumps to [fail]. *)
Definition writeMsg_start (msg : PASSTHRU_MSG) (t : ISO15765Transfer) (w : World)
  : bool * ISO15765Transfer * World * list Event :=
  let t := set_mOffset t J2534_DATA_OFFSET in
  let tmp_msg := prepareSentMessageHeaders (mMessage t) msg in
  let size := getRemainingSize msg (mOffset t) in
  let frameName :=
    if size <? ulong (DataSize msg - mOffset t) then FirstFrame else SingleFrame in
  let '(tmp_msg, size, t) :=
    if PCIFrameName_eqb frameName FirstFrame then
      let fullsize := ulong (DataSize msg - mOffset t) in
      let d := store (Data tmp_msg) J2534_DATA_OFFSET
                 (Z.lor (Z.land (getPci frameName) 0xF0)
                        (Z.land (Z.shiftr fullsize 8) 0x0F)) in
      let d := store d (J2534_DATA_OFFSET + J2534_PCI_SIZE) (Z.land fullsize 0xFF) in
      let size := CAN_DATA_SIZE - J2534_PCI_SIZE - J2534_LENGTH_SIZE in
      let t := set_mSequence t (uint32 (mSequence t + 1)) in
      let tmp_msg :=
        mkMsg (ProtocolID tmp_msg) (RxStatus tmp_msg) (TxFlags tmp_msg)
              (Timestamp tmp_msg)
              (J2534_DATA_OFFSET + J2534_PCI_SIZE + J2534_LENGTH_SIZE + size)
              (ExtraDataIndex tmp_msg)
              (memcpy d (J2534_DATA_OFFSET + J2534_PCI_SIZE + J2534_LENGTH_SIZE)
                      (Data msg) (mOffset t) size) in
      (tmp_msg, size, t)
    else
      let d := store (Data tmp_msg) J2534_DATA_OFFSET
                 (Z.lor (Z.land (getPci frameName) 0xF0) (Z.land size 0x0F)) in
      let tmp_msg :=
        mkMsg (ProtocolID tmp_msg) (RxStatus tmp_msg) (TxFlags tmp_msg)
              (Timestamp tmp_msg)
              (J2534_DATA_OFFSET + J2534_PCI_SIZE + size)
              (ExtraDataIndex tmp_msg)
              (memcpy d (J2534_DATA_OFFSET + J2534_PCI_SIZE)
                      (Data msg) (mOffset t) size) in
      (tmp_msg, size, t) in
  let t := set_mOffset t (mOffset t + size) in
  let tmp_msg := pad_if_requested msg tmp_msg in
  let t := set_mMessage t tmp_msg in
  let '(count, w, evs) := chan_writeMsgs tmp_msg w in
  if negb (count =? 1) then (false, t, w, evs)
  else (true, set_mState t FLOW_CONTROL_STATE, w, evs).

(** One turn of the loop of [writeMsg] in [FLOW_CONTROL_STATE]. *)
Definition writeMsg_flow_control (t : ISO15765Transfer) (w : World)
  : bool * ISO15765Transfer * World * list Event :=
  let '(count, tmp_msg, w, evs) := chan_readMsgs w in
  let t := set_mMessage t tmp_msg in
  if negb (count =? 1) then (false, t, w, evs)
  else if DataSize tmp_msg <? J2534_DATA_OFFSET then (false, t, w, evs)
  else if negb (Z.land (data2pid (Data tmp_msg)) (mMaskPid t) =? mPatternPid t)
  then (false, t, w, evs)
  else
    let frameName := getFrameName (Data tmp_msg J2534_DATA_OFFSET) in
    if negb (PCIFrameName_eqb frameName FlowControl) then (false, t, w, evs)
    else
      let t := set_mBs t (load (Data tmp_msg) (J2534_DATA_OFFSET + J2534_PCI_SIZE)) in
      let t := set_mStmin t
                 (load (Data tmp_msg) (J2534_DATA_OFFSET + J2534_PCI_SIZE + J2534_BS_SIZE)) in
      (true, set_mState t BLOCK_STATE, w, evs ++ [EvSleep (mStmin t)]).

(** One turn of the loop of [writeMsg] in [BLOCK_STATE]. *)
Definition writeMsg_block (msg : PASSTHRU_MSG) (t : ISO15765Transfer) (w : World)
  : bool * ISO15765Transfer * World * list Event :=
  let tmp_msg := prepareSentMessageHeaders (mMessage t) msg in
  let frameName := ConsecutiveFrame in
  let size := getRemainingSize msg (mOffset t) in
  let d := store (Data tmp_msg) J2534_DATA_OFFSET
             (Z.lor (Z.land (getPci frameName) 0xF0) (Z.land (mSequence t) 0x0F)) in
  let t := set_mSequence t (uint32 (mSequence t + 1)) in
  let tmp_msg :=
    mkMsg (ProtocolID tmp_msg) (RxStatus tmp_msg) (TxFlags tmp_msg)
          (Timestamp tmp_msg)
          (J2534_DATA_OFFSET + J2534_PCI_SIZE + size)
          (ExtraDataIndex tmp_msg)
          (memcpy d (J2534_DATA_OFFSET + J2534_PCI_SIZE) (Data msg) (mOffset t) size) in
  let t := set_mOffset t (mOffset t + size) in
  let tmp_msg := pad_if_requested msg tmp_msg in
  let t := set_mMessage t tmp_msg in
  let '(count, w, evs) := chan_writeMsgs tmp_msg w in
  if negb (count =? 1) then (false, t, w, evs)
  else
    let t := set_mBs t (ulong (mBs t - 1)) in
    let t := if mBs t =? 0 then set_mState t FLOW_CONTROL_STATE else t in
    if TransferState_eqb (mState t) BLOCK_STATE
    then (true, t, w, evs ++ [EvSleep (mStmin t)])
    else (true, t, w, evs).

Definition writeMsg_step (msg : PASSTHRU_MSG) (t : ISO15765Transfer) (w : World)
  : bool * ISO15765Transfer * World * list Event :=
  match mState t with
  | START_STATE => writeMsg_start msg t w
  | FLOW_CONTROL_STATE => writeMsg_flow_control t w
  | BLOCK_STATE => writeMsg_block msg t w
  end.

(** The [while] loop of [writeMsg] with what follows it; [None] when the
    fuel is used up. *)
Fixpoint writeMsg_loop (fuel : nat) (msg : PASSTHRU_MSG) (t : ISO15765Transfer)
    (w : World) : option (bool * ISO15765Transfer * World * list Event) :=
  match fuel with
  | O => None
  | S fuel =>
      if DataSize msg >? size_t (mOffset t) then
        let '(Timeout, w) := steady_remaining w in
        if Timeout <=? 0 then Some (false, t, w, [])
        else
          let '(ok, t, w, evs) := writeMsg_step msg t w in
          if ok then
            match writeMsg_loop fuel msg t w with
            | Some (r, t, w, evs') => Some (r, t, w, evs ++ evs')
            | None => None
            end
          else Some (false, clear t, w, evs)
      else Some (true, clear t, w, [])
  end.

(** The loop takes one turn in [START_STATE] and then at most two turns per
    payload byte. *)
Definition writeMsg_fuel (msg : PASSTHRU_MSG) : nat :=
  S (S (Z.to_nat (2 * DataSize msg))).

Definition writeMsg (msg : PASSTHRU_MSG) (t : ISO15765Transfer) (w : World)
  : option (Outcome * ISO15765Transfer * World * list Event) :=
  if DataSize msg <? J2534_DATA_OFFSET then Some (Threw ERR_INVALID_MSG, t, w, [])
  else if negb (TransferState_eqb (mState t) START_STATE)
  then Some (Returned false, clear t, w, [])
  else
    match writeMsg_loop (writeMsg_fuel msg) msg t w with
    | Some (r, t, w, evs) => Some (Returned r, t, w, evs)
    | None => None
    end.

(** [tmp_msg] is a local of the source; its bytes past the frame are not
    initialised there and are zero here. *)
Definition sendFlowControlMessage (t : ISO15765Transfer) (w : World)
  : bool * ISO15765Transfer * World * list Event :=
  let t := set_mBs t 0 in
  let t := set_mBs t (getValue (mChannelConfiguration w) ISO15765_BS (mBs t)) in
  let t := set_mStmin t 0 in
  let t := set_mStmin t (getValue (mChannelConfiguration w) ISO15765_STMIN (mStmin t)) in
  let d := pid2Data (mFlowControlPid t) (fun _ => 0) in
  let d := store d J2534_DATA_OFFSET (getPci FlowControl) in
  let d := store d (J2534_DATA_OFFSET + J2534_PCI_SIZE) (mBs t) in
  let d := store d (J2534_DATA_OFFSET + J2534_PCI_SIZE + J2534_BS_SIZE) (mStmin t) in
  let tmp_msg :=
    mkMsg CAN 0 0 0
          (J2534_DATA_OFFSET + J2534_PCI_SIZE + J2534_BS_SIZE + J2534_STMIN_SIZE) 0 d in
  let tmp_msg := paddingMessage tmp_msg in
  let '(count, w, evs) := chan_writeMsgs tmp_msg w in
  if negb (count =? 1) then (false, t, w, evs) else (true, t, w, evs).

(** The end of [readMsg], after the state has been served. *)
Definition readMsg_finish (t : ISO15765Transfer) (out_msg : PASSTHRU_MSG) (w : World)
    (evs : list Event)
  : bool * ISO15765Transfer * PASSTHRU_MSG * World * list Event :=
  if size_t (mOffset t) >=? DataSize (mMessage t)
  then (true, clear t, mMessage t, w, evs)
  else (false, t, out_msg, w, evs).

Definition readMsg (t : ISO15765Transfer) (in_msg out_msg : PASSTHRU_MSG) (w : World)
  : bool * ISO15765Transfer * PASSTHRU_MSG * World * list Event :=
  if DataSize in_msg <? J2534_DATA_OFFSET then (false, clear t, out_msg, w, [])
  else if negb (Z.land (data2pid (Data in_msg)) (mMaskPid t) =? mPatternPid t)
  then (false, clear t, out_msg, w, [])
  else
    let frameName := getFrameName (Data in_msg J2534_DATA_OFFSET) in
    match mState t with
    | START_STATE =>
        let read_msg := prepareReceivedMessageHeaders (mMessage t) in_msg in
        let t := set_mOffset t J2534_DATA_OFFSET in
        match frameName with
        | SingleFrame =>
            let size := Z.land (Data in_msg J2534_DATA_OFFSET) 0x0F in
            let read_msg :=
              mkMsg (ProtocolID read_msg) (RxStatus read_msg) (TxFlags read_msg)
                    (Timestamp read_msg) (J2534_DATA_OFFSET + size)
                    (ExtraDataIndex read_msg)
                    (memcpy (Data read_msg) (mOffset t) (Data in_msg)
                            (J2534_DATA_OFFSET + J2534_PCI_SIZE) size) in
            let t := set_mMessage t read_msg in
            let t := set_mOffset t (mOffset t + size) in
            readMsg_finish t out_msg w []
        | FirstFrame =>
            let fullsize :=
              Z.lor (Z.shiftl (Z.land (Data in_msg J2534_DATA_OFFSET) 0x0F) 8)
                    (Z.land (Data in_msg (J2534_DATA_OFFSET + J2534_PCI_SIZE)) 0xFF) in
            let size := CAN_DATA_SIZE - J2534_PCI_SIZE - J2534_LENGTH_SIZE in
            let read_msg :=
              mkMsg (ProtocolID read_msg) (RxStatus read_msg) (TxFlags read_msg)
                    (Timestamp read_msg) (J2534_DATA_OFFSET + fullsize)
                    (ExtraDataIndex read_msg)
                    (memcpy (Data read_msg) (mOffset t) (Data in_msg)
                            (J2534_DATA_OFFSET + J2534_PCI_SIZE + J2534_LENGTH_SIZE)
                            size) in
            let t := set_mMessage t read_msg in
            let t := set_mSequence t (uint32 (mSequence t + 1)) in
            let t := set_mOffset t (mOffset t + size) in
            let '(ok, t, w, evs) := sendFlowControlMessage t w in
            if negb ok then (false, clear t, out_msg, w, evs)
            else
              let t := set_mState t BLOCK_STATE in
              readMsg_finish t out_msg w evs
        | _ => (false, clear (set_mMessage t read_msg), out_msg, w, [])
        end
    | BLOCK_STATE =>
        let seq := Z.land (Data in_msg J2534_DATA_OFFSET) 0xF in
        if negb (seq =? mSequence t mod 0x10) then (false, clear t, out_msg, w, [])
        else
          let read_msg := mMessage t in
          let size := getRemainingSize read_msg (mOffset t) in
          let read_msg :=
            set_Data read_msg
              (memcpy (Data read_msg) (mOffset t) (Data in_msg)
                      (J2534_DATA_OFFSET + J2534_PCI_SIZE) size) in
          let t := set_mMessage t read_msg in
          let t := set_mSequence t (uint32 (mSequence t + 1)) in
          let t := set_mOffset t (mOffset t + size) in
          let t := set_mBs t (ulong (mBs t - 1)) in
          if mBs t =? 0 then
            let '(ok, t, w, evs) := sendFlowControlMessage t w in
            if negb ok then (false, clear t, out_msg, w, evs)
            else readMsg_finish t out_msg w evs
          else readMsg_finish t out_msg w []
    | FLOW_CONTROL_STATE => (false, clear t, out_msg, w, [])
    end.
End Transfer.

(** ** The channel adapter *)

Record MessageFilterISO15765 := mkFilter {
  mMessageFilter : Z;
  mTransfer : ISO15765Transfer
}.

Record ChannelISO15765 := mkChannel {
  mMessageFilters : list MessageFilterISO15765
}.

(** [std::find_if]: the position of the first element that satisfies [p]. *)
Fixpoint find_if {A : Type} (p : A -> bool) (l : list A) : option nat :=
  match l with
  | [] => None
  | x :: l' => if p x then Some O else option_map S (find_if p l')
  end.

(** The filters hold their transfer by shared pointer: a transfer that is
    served is changed in place, at its position in the registry. *)
Fixpoint set_transfer (k : nat) (t : ISO15765Transfer) (l : list MessageFilterISO15765)
  : list MessageFilterISO15765 :=
  match l, k with
  | [], _ => []
  | f :: l', O => mkFilter (mMessageFilter f) t :: l'
  | f :: l', S k' => f :: set_transfer k' t l'
  end.

Definition getTransferByFlowControl (ch : ChannelISO15765) (msg : PASSTHRU_MSG)
  : option nat :=
  let pid := data2pid (Data msg) in
  find_if (fun messageFilter => mFlowControlPid (mTransfer messageFilter) =? pid)
          (mMessageFilters ch).

Definition getTransferByPattern (ch : ChannelISO15765) (msg : PASSTHRU_MSG)
  : option nat :=
  let pid := data2pid (Data msg) in
  find_if (fun messageFilter =>
             mPatternPid (mTransfer messageFilter)
             =? Z.land pid (mMaskPid (mTransfer messageFilter)))
          (mMessageFilters ch).

(** [*pMsg = m] on the caller's array. *)
Definition store_first (pMsg : list PASSTHRU_MSG) (m : PASSTHRU_MSG) : list PASSTHRU_MSG :=
  match pMsg with
  | [] => []
  | _ :: rest => m :: rest
  end.

Section Channel.
Context {K : J2534}.

(** The two nested loops of [readMsgs]: [i] is the slot counter of the
    [for], one unit of fuel is one turn of the inner [while (true)].  The
    result is the channel, the caller's array, the count stored into
    [*pNumMsgs], the world and the events. *)
Fixpoint readMsgs_loop (fuel : nat) (ch : ChannelISO15765) (pMsg : list PASSTHRU_MSG)
    (NumMsgs i count : Z) (w : World)
  : option (ChannelISO15765 * list PASSTHRU_MSG * Z * World * list Event) :=
  match fuel with
  | O => None
  | S fuel =>
      if i <? NumMsgs then
        let '(Timeout, w) := steady_remaining w in
        if Timeout <=? 0 then Some (ch, pMsg, count, w, [])
        else
          let '(c, readMsg_, w, evs) := chan_readMsgs w in
          if negb (c =? 1) then Some (ch, pMsg, count, w, evs)
          else
            let '(Timeout, w) := steady_remaining w in
            let continue ch pMsg i count w evs' :=
              match readMsgs_loop fuel ch pMsg NumMsgs i count w with
              | Some (ch, pMsg, count, w, evs'') =>
                  Some (ch, pMsg, count, w, evs ++ evs' ++ evs'')
              | None => None
              end in
            match getTransferByPattern ch readMsg_ with
            | Some k =>
                match nth_error (mMessageFilters ch) k with
                | Some f =>
                    let '(done, t, out_msg, w, evs') :=
                      readMsg (mTransfer f) readMsg_ (hd readMsg_ pMsg) w in
                    let ch := mkChannel (set_transfer k t (mMessageFilters ch)) in
                    if done
                    then continue ch (store_first pMsg out_msg) (ulong (i + 1))
                                  (ulong (count + 1)) w evs'
                    else continue ch pMsg i count w evs'
                | None => continue ch pMsg i count w []
                end
            | None => continue ch pMsg i count w []
            end
      else Some (ch, pMsg, count, w, [])
  end.

Definition readMsgs (fuel : nat) (ch : ChannelISO15765) (pMsg : list PASSTHRU_MSG)
    (NumMsgs : Z) (w : World) :=
  readMsgs_loop fuel ch pMsg NumMsgs 0 0 w.

(** The loop of [writeMsgs]; [pMsg] is the part of the caller's array from
    the current position on ([msg = *(pMsg++)]). *)
Fixpoint writeMsgs_loop (ch : ChannelISO15765) (pMsg : list PASSTHRU_MSG)
    (NumMsgs i count : Z) (w : World)
  : option (Outcome * ChannelISO15765 * Z * World * list Event) :=
  match pMsg with
  | [] => Some (Returned true, ch, count, w, [])
  | msg :: pMsg =>
      if i <? NumMsgs then
        let '(Timeout, w) := steady_remaining w in
        if Timeout <=? 0 then Some (Returned true, ch, count, w, [])
        else
          let continue ch count w evs :=
            match writeMsgs_loop ch pMsg NumMsgs (ulong (i + 1)) count w with
            | Some (r, ch, count, w, evs') => Some (r, ch, count, w, evs ++ evs')
            | None => None
            end in
          match getTransferByFlowControl ch msg with
          | Some k =>
              match nth_error (mMessageFilters ch) k with
              | Some f =>
                  match writeMsg msg (mTransfer f) w with
                  | Some (Returned b, t, w, evs) =>
                      let ch := mkChannel (set_transfer k t (mMessageFilters ch)) in
                      continue ch (if b then ulong (count + 1) else count) w evs
                  | Some (Threw e, t, w, evs) =>
                      Some (Threw e, mkChannel (set_transfer k t (mMessageFilters ch)),
                            count, w, evs)
                  | None => None
                  end
              | None => continue ch count w []
              end
          | None => continue ch count w []
          end
      else Some (Returned true, ch, count, w, [])
  end.

Definition writeMsgs (ch : ChannelISO15765) (pMsg : list PASSTHRU_MSG) (NumMsgs : Z)
    (w : World) :=
  writeMsgs_loop ch pMsg NumMsgs 0 0 w.
End Channel.

Definition clearTxBuffers (ch : ChannelISO15765) : bool * ChannelISO15765 :=
  (false, ch).

Definition clearRxBuffers (ch : ChannelISO15765) : bool * ChannelISO15765 :=
  (false, ch).

Definition clearPeriodicMessages (ch : ChannelISO15765) : bool * ChannelISO15765 :=
  (false, ch).

Definition clearMessageFilters (ch : ChannelISO15765) : bool * ChannelISO15765 :=
  (false, mkChannel []).

(** ** Concrete runs

    Buffers, messages and worlds written as lists, for running the model. *)

Definition buffer_of (l : list Z) : buffer := fun j => nth (Z.to_nat j) l 0.

Definition blank_msg : PASSTHRU_MSG := mkMsg 0 0 0 0 0 0 (fun _ => 0).

(** A message of protocol [proto] whose data are the bytes [l]. *)
Definition msg_of (proto flags : Z) (l : list Z) : PASSTHRU_MSG :=
  mkMsg proto 0 flags 0 (Z.of_nat (length l)) 0 (buffer_of l).

(** A world whose clock reads [ck], whose wrapped channel delivers [r] and
    answers the writes with the counts [t]; past the lists the clock reads 0,
    nothing is delivered and nothing is written. *)
Definition world_of (ck : list Z) (r : list (Z * PASSTHRU_MSG)) (t : list Z)
    (cfg : Configuration) : World :=
  mkWorld (fun k => nth k ck 0) 0 (fun k => nth k r (0, blank_msg)) 0
          (fun k => nth k t 0) 0 cfg.

(** The frames handed to the wrapped channel, in order. *)
Definition written (evs : list Event) : list PASSTHRU_MSG :=
  flat_map (fun e => match e with EvWrite m _ => [m] | _ => [] end) evs.

(** An event as numbers: kind (1 write, 2 read, 3 sleep), count, bytes. *)
Definition event_bytes (e : Event) : Z * Z * list Z :=
  match e with
  | EvWrite m c => (1, c, frame_bytes m)
  | EvRead c m => (2, c, frame_bytes m)
  | EvSleep ms => (3, ms, [])
  end.

(** A transfer for requests to [0x7E0] answered from [0x7E8]. *)
Definition transfer_7E0 : ISO15765Transfer :=
  new_ISO15765Transfer blank_msg
    (msg_of 6 0 [0; 0; 0xFF; 0xFF]) (msg_of 6 0 [0; 0; 0x07; 0xE8])
    (msg_of 6 0 [0; 0; 0x07; 0xE0]).

(** The scenarios: a single frame with padding, a payload of 20 bytes paced
    by a Flow Control with block size 8, a payload of 130 bytes sent in one
    block, a deadline that falls between the First Frame and the Flow
    Control, and two Single Frames arriving for a batch of two slots. *)
Definition cfg_none : Configuration := fun _ => None.

Definition payload (n : nat) : list Z := map Z.of_nat (seq 0 n).

Definition msg_single : PASSTHRU_MSG :=
  msg_of 6 0x40 [0x18; 0xDA; 0x10; 0xF1; 1; 2; 3].

Definition world_single : World := world_of [5] [] [1] cfg_none.

Definition msg_short : PASSTHRU_MSG := msg_of 6 0 [0; 0; 7].

Definition msg_20 : PASSTHRU_MSG := msg_of 6 0x40 ([0; 0; 0x07; 0xE0] ++ payload 20).

Definition msg_130 : PASSTHRU_MSG := msg_of 6 0 ([0; 0; 0x07; 0xE0] ++ payload 130).

Definition fc_frame (bs stmin : Z) : PASSTHRU_MSG :=
  msg_of 5 0 [0; 0; 0x07; 0xE8; 0x30; bs; stmin; 0; 0; 0; 0; 0].

Definition world_20 : World :=
  world_of (repeat 5 6) [(1, fc_frame 8 0)] (repeat 1 4) cfg_none.

Definition world_20_bs1 : World :=
  world_of (repeat 5 6) [(1, fc_frame 1 0); (1, fc_frame 1 0)] (repeat 1 4) cfg_none.

Definition world_130 : World :=
  world_of (repeat 5 30) [(1, fc_frame 0 0)] (repeat 1 30) cfg_none.

Definition world_deadline : World := world_of [5; 0] [] [1] cfg_none.

Definition channel_7E0 : ChannelISO15765 := mkChannel [mkFilter 1 transfer_7E0].

Definition sf_A : PASSTHRU_MSG := msg_of 5 0 [0; 0; 0x07; 0xE8; 2; 0xAA; 0xBB; 0; 0; 0; 0; 0].

Definition sf_B : PASSTHRU_MSG := msg_of 5 0 [0; 0; 0x07; 0xE8; 1; 0xCC; 0; 0; 0; 0; 0; 0].

Definition world_two_frames : World :=
  world_of (repeat 5 6) [(1, sf_A); (1, sf_B)] [] cfg_none.

Definition slot_marker : PASSTHRU_MSG := msg_of 0 0 [9; 9].

(** The five fields that [clear] resets. *)
Definition fields (t : ISO15765Transfer) : TransferState * Z * Z * Z * Z :=
  (mState t, mOffset t, mSequence t, mBs t, mStmin t).

(** A run of [writeMsg] and of [readMsgs] under the SAE numbering, with the
    results as numbers. *)
Definition run_writeMsg (msg : PASSTHRU_MSG) (t : ISO15765Transfer) (w : World)
  : option (Outcome * (TransferState * Z * Z * Z * Z) * list (Z * Z * list Z)) :=
  match @writeMsg sae_j2534 msg t w with
  | Some (r, t', _, evs) => Some (r, fields t', map event_bytes evs)
  | None => None
  end.

Definition run_readMsgs (fuel : nat) (ch : ChannelISO15765) (pMsg : list PASSTHRU_MSG)
    (NumMsgs : Z) (w : World) : option (list (list Z) * Z) :=
  match @readMsgs sae_j2534 fuel ch pMsg NumMsgs w with
  | Some (_, pMsg', count, _, _) => Some (map frame_bytes pMsg', count)
  | None => None
  end.

Definition run_writeMsgs (ch : ChannelISO15765) (pMsg : list PASSTHRU_MSG)
    (NumMsgs : Z) (w : World) : option (Z * list (list Z)) :=
  match @writeMsgs sae_j2534 ch pMsg NumMsgs w with
  | Some (_, _, count, _, evs) => Some (count, map frame_bytes (written evs))
  | None => None
  end.

(** The transfer as the write of [msg_20] leaves it when the deadline falls
    after the First Frame. *)
Definition transfer_after_deadline : ISO15765Transfer :=
  match @writeMsg sae_j2534 msg_20 transfer_7E0 world_deadline with
  | Some (_, t', _, _) => t'
  | None => transfer_7E0
  end.

(** ** The transfer invariant *)

Definition idle (t : ISO15765Transfer) : Prop :=
  mOffset t = 0 /\ mSequence t = 0 /\ mBs t = 0 /\ mStmin t = 0.

(** The invariant of the data model. *)
Definition transfer_invariant (t : ISO15765Transfer) : Prop :=
  mState t = START_STATE <-> idle t.

Section Reachable.
Context {K : J2534}.

(** The transfers that exist: a constructed one, and what [clear],
    [writeMsg] and [readMsg] leave when they return or throw. *)
Inductive reachable : ISO15765Transfer -> Prop :=
  | reach_new buf pMaskMsg pPatternMsg pFlowControlMsg :
      reachable (new_ISO15765Transfer buf pMaskMsg pPatternMsg pFlowControlMsg)
  | reach_clear t :
      reachable t -> reachable (clear t)
  | reach_writeMsg t msg w r t' w' evs :
      reachable t ->
      writeMsg msg t w = Some (r, t', w', evs) ->
      reachable t'
  | reach_readMsg t in_msg out_msg w r t' out_msg' w' evs :
      reachable t ->
      readMsg t in_msg out_msg w = (r, t', out_msg', w', evs) ->
      reachable t'.
End Reachable.

(** ** Vocabulary of the properties *)

(** What holds of a transfer between two calls: idle in [START_STATE], and
    past the CAN identifier otherwise. *)
Definition settled (t : ISO15765Transfer) : Prop :=
  match mState t with
  | START_STATE => idle t
  | _ => 4 <= mOffset t
  end.

Definition in_flight (t : ISO15765Transfer) : Prop :=
  mState t <> START_STATE /\ 4 <= mOffset t.

(** A transfer in the middle of a write of [msg]. *)
Definition flying (msg : PASSTHRU_MSG) (t : ISO15765Transfer) : Prop :=
  mState t <> START_STATE /\ 4 <= mOffset t <= DataSize msg.

(** A bound on the turns the loop of [writeMsg] still takes. *)
Definition turns_left (msg : PASSTHRU_MSG) (t : ISO15765Transfer) : Z :=
  2 * (DataSize msg - mOffset t)
  + match mState t with FLOW_CONTROL_STATE => 1 | _ => 0 end.

(** The PCI bytes of the frames written. *)
Definition pci_bytes (evs : list Event) : list Z := map (fun m => Data m 4) (written evs).

(** Whether the wrapped channel is read. *)
Definition has_read (evs : list Event) : bool :=
  existsb (fun e => match e with EvRead _ _ => true | _ => false end) evs.

(** The number of frames written before the wrapped channel is read next. *)
Fixpoint writes_before_read (evs : list Event) : Z :=
  match evs with
  | [] => 0
  | EvRead _ _ :: _ => 0
  | EvWrite _ _ :: evs => 1 + writes_before_read evs
  | EvSleep _ :: evs => writes_before_read evs
  end.

(** The PCI byte of the Consecutive Frame with sequence counter [s]. *)
Definition cf_pci (s : Z) : Z := 0x20 + s mod 16.

(** The block size a Flow Control frame carries. *)
Definition BS (m : PASSTHRU_MSG) : Z := load (Data m) (J2534_DATA_OFFSET + J2534_PCI_SIZE).

(** Every read that is followed by another read is followed first by as many
    written frames as the block size of the frame read, and that block size
    is positive. *)
Fixpoint paced (evs : list Event) : Prop :=
  match evs with
  | [] => True
  | EvRead _ m :: rest =>
      (has_read rest = true -> 0 < BS m /\ writes_before_read rest = BS m) /\ paced rest
  | _ :: rest => paced rest
  end.

Section Frames.
Context {K : J2534}.

(** The frame [writeMsg] builds for a payload of at most 7 bytes. *)
Definition single_frame (msg : PASSTHRU_MSG) (t : ISO15765Transfer) : PASSTHRU_MSG :=
  let tmp_msg := prepareSentMessageHeaders (mMessage t) msg in
  let size := DataSize msg - J2534_DATA_OFFSET in
  let d := store (Data tmp_msg) J2534_DATA_OFFSET
             (Z.lor (Z.land (getPci SingleFrame) 0xF0) (Z.land size 0x0F)) in
  pad_if_requested msg
    (mkMsg (ProtocolID tmp_msg) (RxStatus tmp_msg) (TxFlags tmp_msg) (Timestamp tmp_msg)
           (J2534_DATA_OFFSET + J2534_PCI_SIZE + size) (ExtraDataIndex tmp_msg)
           (memcpy d (J2534_DATA_OFFSET + J2534_PCI_SIZE) (Data msg) J2534_DATA_OFFSET size)).

(** The frame [writeMsg] builds first for a payload of more than 7 bytes. *)
Definition first_frame (msg : PASSTHRU_MSG) (t : ISO15765Transfer) : PASSTHRU_MSG :=
  let tmp_msg := prepareSentMessageHeaders (mMessage t) msg in
  let fullsize := DataSize msg - J2534_DATA_OFFSET in
  let d := store (Data tmp_msg) J2534_DATA_OFFSET
             (Z.lor (Z.land (getPci FirstFrame) 0xF0)
                    (Z.land (Z.shiftr fullsize 8) 0x0F)) in
  let d := store d (J2534_DATA_OFFSET + J2534_PCI_SIZE) (Z.land fullsize 0xFF) in
  pad_if_requested msg
    (mkMsg (ProtocolID tmp_msg) (RxStatus tmp_msg) (TxFlags tmp_msg) (Timestamp tmp_msg)
           12 (ExtraDataIndex tmp_msg)
           (memcpy d 6 (Data msg) J2534_DATA_OFFSET 6)).

End Frames.

(** ** Vocabulary of the further properties *)

Section MoreFrames.
Context {K : J2534}.

(** The frame [writeMsg] builds in [BLOCK_STATE]. *)
Definition consecutive_frame (msg : PASSTHRU_MSG) (t : ISO15765Transfer) : PASSTHRU_MSG :=
  let tmp_msg := prepareSentMessageHeaders (mMessage t) msg in
  let size := getRemainingSize msg (mOffset t) in
  let d := store (Data tmp_msg) J2534_DATA_OFFSET
             (Z.lor (Z.land (getPci ConsecutiveFrame) 0xF0) (Z.land (mSequence t) 0x0F)) in
  pad_if_requested msg
    (mkMsg (ProtocolID tmp_msg) (RxStatus tmp_msg) (TxFlags tmp_msg) (Timestamp tmp_msg)
           (J2534_DATA_OFFSET + J2534_PCI_SIZE + size) (ExtraDataIndex tmp_msg)
           (memcpy d (J2534_DATA_OFFSET + J2534_PCI_SIZE) (Data msg) (mOffset t) size)).

(** What every CAN frame written for the logical message [msg] has in
    common: the headers of [prepareSentMessageHeaders], the identifier of
    [msg], between 5 and 12 bytes, and 12 bytes when padding is asked for. *)
Definition can_frame_of (msg f : PASSTHRU_MSG) : Prop :=
  ProtocolID f = CAN /\ RxStatus f = 0 /\ Timestamp f = 0 /\ ExtraDataIndex f = 0 /\
  TxFlags f = Z.land (TxFlags msg) (Z.lnot (Z.lor ISO15765_FRAME_PAD ISO15765_ADDR_TYPE)) /\
  5 <= DataSize f <= 12 /\
  (Z.land (TxFlags msg) ISO15765_FRAME_PAD <> 0 -> DataSize f = 12) /\
  (forall i, 0 <= i < 4 -> Data f i = Data msg i).

(** [readMsg] called on the frames of a list one after the other, until it
    says that a message is complete. *)
Fixpoint readMsg_frames (t : ISO15765Transfer) (frames : list PASSTHRU_MSG)
    (out_msg : PASSTHRU_MSG) (w : World)
  : bool * ISO15765Transfer * PASSTHRU_MSG * World * list Event :=
  match frames with
  | [] => (false, t, out_msg, w, [])
  | in_msg :: frames =>
      let '(done, t, out_msg, w, evs) := readMsg t in_msg out_msg w in
      if done then (true, t, out_msg, w, evs)
      else
        let '(done, t, out_msg, w, evs') := readMsg_frames t frames out_msg w in
        (done, t, out_msg, w, evs ++ evs')
  end.
End MoreFrames.

(** The frames [frames] are Consecutive Frames that carry what is left of
    [msg] from offset [o] on, 7 bytes at a time, with the sequence counters
    [s], [s + 1], ... *)
Fixpoint segmented (msg : PASSTHRU_MSG) (o s : Z) (frames : list PASSTHRU_MSG) : Prop :=
  match frames with
  | [] => DataSize msg <= o
  | f :: rest =>
      o < DataSize msg /\
      Data f 4 = cf_pci s /\
      4 <= DataSize f /\
      (forall i, 0 <= i < 4 -> Data f i = Data msg i) /\
      (forall i, 0 <= i < getRemainingSize msg o -> Data f (5 + i) = Data msg (o + i)) /\
      segmented msg (o + getRemainingSize msg o) (uint32 (s + 1)) rest
  end.

(** A wrapped channel that takes every frame it is given. *)
Definition takes_all (w : World) : Prop := forall k, tx w k = 1.

(** A transfer at the other end, for requests arriving at [0x7E0], and a
    world whose wrapped channel takes every frame and whose clock always
    leaves 5 ms. *)
Definition transfer_ecu : ISO15765Transfer :=
  new_ISO15765Transfer blank_msg
    (msg_of 6 0 [0; 0; 0xFF; 0xFF]) (msg_of 6 0 [0; 0; 0x07; 0xE0])
    (msg_of 6 0 [0; 0; 0x07; 0xE8]).

Definition world_taking (cfg : Configuration) : World :=
  mkWorld (fun _ => 5) 0 (fun _ => (0, blank_msg)) 0 (fun _ => 1) 0 cfg.

(** ** Vocabulary of the writes to a peer that answers

    What the wrapped channel delivers at a read is a Flow Control frame that
    the transfer [t] takes: one frame, with an identifier, matching the
    pattern under the mask, of the Flow Control kind. *)
Definition flow_control_for (t : ISO15765Transfer) (r : Z * PASSTHRU_MSG) : Prop :=
  fst r = 1 /\ 4 <= DataSize (snd r) /\
  Z.land (data2pid (Data (snd r))) (mMaskPid t) = mPatternPid t /\
  getFrameName (Data (snd r) 4) = FlowControl.

(** A world in which a write can go through: the clock always leaves time,
    the wrapped channel takes every frame, and every read delivers a Flow
    Control frame for [t]. *)
Definition cooperative (t : ISO15765Transfer) (w : World) : Prop :=
  (forall n, ulong (clock w n) <> 0) /\ takes_all w /\
  (forall n, flow_control_for t (rx w n)).

(** The number of Consecutive Frames that carry what is left of [msg] from
    offset [o] on, 7 bytes at a time. *)
Definition frames_left (msg : PASSTHRU_MSG) (o : Z) : Z := (DataSize msg - o + 6) / 7.

(** Every read is followed by all the frames that are still written when the
    block size of the frame read is 0 or covers them, without another read;
    otherwise by exactly as many frames as the block size says and then by
    another read. *)
Fixpoint paced_by_block_size (evs : list Event) : Prop :=
  match evs with
  | [] => True
  | EvRead _ m :: rest =>
      (if (BS m =? 0) || (Z.of_nat (length (written rest)) <=? BS m)
       then has_read rest = false
       else has_read rest = true /\ writes_before_read rest = BS m) /\
      paced_by_block_size rest
  | _ :: rest => paced_by_block_size rest
  end.

(** A peer that answers every read with a Flow Control of block size [bs],
    takes every frame and always leaves 5 ms. *)
Definition world_fc (bs : Z) : World :=
  mkWorld (fun _ => 5) 0 (fun _ => (1, fc_frame bs 0)) 0 (fun _ => 1) 0 cfg_none.

(** ** Starting and stopping filters

    The filter types and the receive-status bit are declared in the header
    of the pass-through API, like the constants of [J2534]; they are
    parameters here. *)

Class J2534Filter := {
  FLOW_CONTROL_FILTER : Z;
  PASS_FILTER : Z;
  ISO15765_PADDING_ERROR : Z
}.

(** What [startMsgFilter] hands back: a filter of this channel, or the
    filter of the wrapped channel. *)
Inductive MessageFilterPtr :=
  | OwnFilter (mf : MessageFilterISO15765)
  | WrappedFilter (h : Z).

(** [list::erase] at position [k]. *)
Fixpoint erase_at {A : Type} (k : nat) (l : list A) : list A :=
  match l, k with
  | [], _ => []
  | _ :: l', O => l'
  | x :: l', S k' => x :: erase_at k' l'
  end.

Section MsgFilter.
Context {K : J2534}.
Context {F : J2534Filter}.

(** [mChannel->startMsgFilter], the wrapped channel: the handle of the
    filter it installs.  A null pointer is [None]. *)
Variable mChannel_startMsgFilter :
  Z -> option PASSTHRU_MSG -> option PASSTHRU_MSG -> option PASSTHRU_MSG -> Z.

(** The copies of the mask and of the pattern that go to the wrapped
    channel. *)
Definition as_can_filter_msg (m : PASSTHRU_MSG) : PASSTHRU_MSG :=
  mkMsg CAN
        (Z.land (RxStatus m) (Z.lnot (Z.lor ISO15765_PADDING_ERROR ISO15765_ADDR_TYPE)))
        (Z.land (TxFlags m) (Z.lnot ISO15765_FRAME_PAD))
        (Timestamp m) (DataSize m) (ExtraDataIndex m) (Data m).

(** [buf] is the content of the uninitialised [mMessage] of the transfer
    that is constructed. *)
Definition startMsgFilter (ch : ChannelISO15765) (FilterType : Z)
    (pMaskMsg pPatternMsg pFlowControlMsg : option PASSTHRU_MSG) (buf : PASSTHRU_MSG)
  : J2534Error + MessageFilterPtr * ChannelISO15765 :=
  if FilterType =? FLOW_CONTROL_FILTER then
    match pMaskMsg, pPatternMsg, pFlowControlMsg with
    | Some mask0, Some pattern0, Some fc0 =>
        let maskMsg := as_can_filter_msg mask0 in
        let patternMsg := as_can_filter_msg pattern0 in
        let mf :=
          mkFilter (mChannel_startMsgFilter PASS_FILTER (Some maskMsg) (Some patternMsg) None)
                   (new_ISO15765Transfer buf mask0 pattern0 fc0) in
        inr (OwnFilter mf, mkChannel (mMessageFilters ch ++ [mf]))
    | _, _, _ => inl ERR_NULLPARAMETER
    end
  else
    inr (WrappedFilter
           (mChannel_startMsgFilter FilterType pMaskMsg pPatternMsg pFlowControlMsg),
         ch).
End MsgFilter.

(** [stopMsgFilter]: [is_it] says of a filter of the registry whether it is
    the object the argument points to.  The [bool] is [true] when the call
    is handed to the wrapped channel.  The destructor of a filter that is
    dropped is not part of the model. *)
Definition stopMsgFilter (ch : ChannelISO15765) (is_it : MessageFilterISO15765 -> bool)
  : ChannelISO15765 * bool :=
  match find_if is_it (mMessageFilters ch) with
  | Some k => (mkChannel (erase_at k (mMessageFilters ch)), false)
  | None => (ch, true)
  end.

(** The numbering of the SAE header for the filter types and the status
    bit. *)
#[export] Instance sae_j2534_filter : J2534Filter := {
  FLOW_CONTROL_FILTER := 3;
  PASS_FILTER := 1;
  ISO15765_PADDING_ERROR := 0x10
}.

(** More scenarios: a First Frame announcing 10 bytes, a frame of the Single
    Frame kind with low nibble 1, the transfer that has taken the First
    Frame, a message of 2 bytes whose buffer holds the identifier [0x7E0],
    and the test that recognises a filter by its handle. *)
Definition ff_in : PASSTHRU_MSG :=
  msg_of 5 0 [0; 0; 0x07; 0xE0; 0x10; 0x0A; 0; 1; 2; 3; 4; 5].


Definition transfer_reassembling : ISO15765Transfer :=
  match @readMsg sae_j2534 transfer_ecu ff_in blank_msg (world_taking cfg_none) with
  | (_, t, _, _, _) => t
  end.

(** A message whose size has more than 32 bits: [2^32 + 3]. *)
Definition msg_wide : PASSTHRU_MSG :=
  mkMsg 6 0 0 0 (2 ^ 32 + 3) 0 (buffer_of [1; 2; 3; 4; 5; 6]).

(** Two frames for the identifier [0x7DF], which [channel_7E0] has no filter
    for, on a wrapped channel whose clock always leaves 5 ms. *)
Definition stray_7DF : PASSTHRU_MSG :=
  msg_of 5 0 [0; 0; 0x07; 0xDF; 2; 0x3E; 0x00; 0; 0; 0; 0; 0].

Definition world_strays : World :=
  mkWorld (fun _ => 5) 0 (fun k => nth k [(1, stray_7DF); (1, stray_7DF)] (0, blank_msg)) 0
          (fun _ => 1) 0 cfg_none.


Definition handle_is (h : Z) (f : MessageFilterISO15765) : bool := mMessageFilter f =? h.

(** ** Proof tools *)

(** Reading a field off a transfer or a message after updates. *)
Tactic Notation "fields_simpl" :=
  cbn [set_mState set_mMessage set_mOffset set_mSequence set_mBs set_mStmin
       mMaskPid mPatternPid mFlowControlPid mState mMessage mOffset mSequence mBs mStmin
       clear set_DataSize set_Data ProtocolID RxStatus TxFlags Timestamp DataSize
       ExtraDataIndex Data TransferState_eqb negb].
Tactic Notation "fields_simpl" "in" hyp(H) :=
  cbn [set_mState set_mMessage set_mOffset set_mSequence set_mBs set_mStmin
       mMaskPid mPatternPid mFlowControlPid mState mMessage mOffset mSequence mBs mStmin
       clear set_DataSize set_Data ProtocolID RxStatus TxFlags Timestamp DataSize
       ExtraDataIndex Data TransferState_eqb negb] in H.

(** Splitting an equation between tuples into its components, as they are. *)
Ltac tuple_eq H :=
  lazymatch type of H with
  | (_, _) = (_, _) =>
      let H1 := fresh H in
      let H2 := fresh H in
      pose proof (f_equal fst H) as H1;
      pose proof (f_equal snd H) as H2;
      cbn [fst snd] in H1, H2; clear H; tuple_eq H1
  | _ => idtac
  end.

(** ** Properties of the codec *)

Lemma octet_testbit (pid s w n : Z) :
  0 <= n -> 0 <= s -> 0 <= w ->
  Z.testbit (Z.shiftl (Z.land (Z.shiftr pid s) (Z.ones w)) s) n
  = (s <=? n) && (n <? s + w) && Z.testbit pid n.
Proof.
  intros Hn Hs Hw.
  destruct (Z.leb_spec s n) as [Hle | Hlt].
  - rewrite Z.shiftl_spec, Z.land_spec, Z.shiftr_spec by lia.
    rewrite Z.testbit_ones_nonneg by lia.
    replace (n - s + s) with n by lia.
    destruct (Z.ltb_spec (n - s) w), (Z.ltb_spec n (s + w)); try lia;
      cbn; now rewrite ?andb_true_r, ?andb_false_r.
  - rewrite Z.shiftl_spec_low by lia. reflexivity.
Qed.

Lemma mask_idem (m x : Z) : Z.land m (Z.land x m) = Z.land x m.
Proof.
  now rewrite (Z.land_comm x m), Z.land_assoc, Z.land_diag.
Qed.

Lemma uint8_land_1F (x : Z) : uint8 (Z.land 0x1F x) = Z.land 0x1F x.
Proof.
  unfold uint8. apply Z.mod_small.
  rewrite Z.land_comm. change 0x1F with (Z.ones 5).
  rewrite Z.land_ones by lia.
  pose proof (Z.mod_pos_bound x (2 ^ 5)). lia.
Qed.

Lemma uint8_land_FF (x : Z) : uint8 (Z.land 0xFF x) = Z.land 0xFF x.
Proof.
  unfold uint8. apply Z.mod_small.
  rewrite Z.land_comm. change 0xFF with (Z.ones 8).
  rewrite Z.land_ones by lia.
  pose proof (Z.mod_pos_bound x (2 ^ 8)). lia.
Qed.

Lemma pid2Data_bytes (pid : Z) (d : buffer) :
  pid2Data pid d 0 = Z.land (Z.shiftr pid 24) 0x1F /\
  pid2Data pid d 1 = Z.land (Z.shiftr pid 16) 0xFF /\
  pid2Data pid d 2 = Z.land (Z.shiftr pid 8) 0xFF /\
  pid2Data pid d 3 = Z.land pid 0xFF.
Proof.
  unfold pid2Data, store; cbn [Z.eqb].
  rewrite uint8_land_1F, !uint8_land_FF, Z.shiftr_0_r.
  repeat split; apply Z.land_comm.
Qed.

(** C7. Packing a CAN identifier into four bytes and unpacking them again is
    the identity up to the 29-bit mask: [data2pid (pid2Data pid)] is
    [pid & 0x1FFFFFFF], byte 0 is [(pid >> 24) & 0x1F] and bytes 1..3 are the
    following big-endian octets. *)
Theorem data2pid_pid2Data (pid : Z) (d : buffer) :
  data2pid (pid2Data pid d) = Z.land pid 0x1FFFFFFF /\
  pid2Data pid d 0 = Z.land (Z.shiftr pid 24) 0x1F /\
  pid2Data pid d 1 = Z.land (Z.shiftr pid 16) 0xFF /\
  pid2Data pid d 2 = Z.land (Z.shiftr pid 8) 0xFF /\
  pid2Data pid d 3 = Z.land (Z.shiftr pid 0) 0xFF.
Proof.
  destruct (pid2Data_bytes pid d) as (B0 & B1 & B2 & B3).
  rewrite Z.shiftr_0_r.
  split; [| now repeat split].
  unfold data2pid. rewrite B0, B1, B2, B3.
  rewrite !mask_idem, Z.shiftl_0_r.
  change 0x1F with (Z.ones 5). change 0xFF with (Z.ones 8).
  apply Z.bits_inj'. intros n Hn.
  rewrite !Z.lor_spec, Z.bits_0, !octet_testbit, !Z.land_spec by lia.
  change 0x1FFFFFFF with (Z.ones 29). rewrite !Z.testbit_ones_nonneg by lia.
  destruct (Z.testbit pid n); rewrite ?andb_true_r, ?andb_false_r; [| reflexivity].
  destruct (Z.leb_spec 24 n), (Z.ltb_spec n (24 + 5)), (Z.leb_spec 16 n),
    (Z.ltb_spec n (16 + 8)), (Z.leb_spec 8 n), (Z.ltb_spec n (8 + 8)),
    (Z.ltb_spec n 8), (Z.ltb_spec n 29);
    try lia; reflexivity.
Qed.

(** ** The device proxy *)

Lemma low13_after_decrement (p i : Z) :
  Z.land p 0x1FFF = i -> Z.land (ulong (p - 1)) 0x1FFF <> i.
Proof.
  unfold ulong. change 0x1FFF with (Z.ones 13).
  rewrite !Z.land_ones by lia.
  intros <-. change (2 ^ 64) with (2 ^ 13 * 2 ^ 51).
  Z.to_euclidean_division_equations. lia.
Qed.

(** C1. For every protocol id the wrapped device is called with
    [connect_delegated_id]: one less than the id when its low 13 bits are
    [ISO15765].  The channel that comes back is never put inside a
    [ChannelISO15765]: the second test of [connect] reads the id after the
    decrement. *)
Theorem connect_returns_raw_channel {K : J2534} {A : Type}
    (mDevice_connect : Z -> Z -> Z -> A) (ProtocolID Flags BaudRate : Z) :
  connect mDevice_connect ProtocolID Flags BaudRate
  = RawChannel (mDevice_connect (connect_delegated_id ProtocolID) Flags BaudRate).
Proof.
  unfold connect, connect_delegated_id.
  destruct (Z.eqb_spec (Z.land ProtocolID 0x1FFF) ISO15765) as [Heq | Hne].
  - destruct (Z.eqb_spec (Z.land (ulong (ProtocolID - 1)) 0x1FFF) ISO15765) as [Heq' | _].
    + exfalso. exact (low13_after_decrement _ _ Heq Heq').
    + reflexivity.
  - destruct (Z.eqb_spec (Z.land ProtocolID 0x1FFF) ISO15765); [contradiction | reflexivity].
Qed.

Example connect_ISO15765 :
  @connect sae_j2534 _ (fun p _ _ => p) 6 0 500000 = RawChannel 5.
Proof. reflexivity. Qed.

(** ** The channel adapter: the clear operations *)

(** C10. [clearMessageFilters] leaves the registry empty whatever the channel
    holds, and returns [false], the value that [clearTxBuffers],
    [clearRxBuffers] and [clearPeriodicMessages] return. *)
Theorem clearMessageFilters_empties_and_returns_false (ch : ChannelISO15765) :
  mMessageFilters (snd (clearMessageFilters ch)) = [] /\
  fst (clearMessageFilters ch) = false /\
  fst (clearTxBuffers ch) = fst (clearMessageFilters ch) /\
  fst (clearRxBuffers ch) = fst (clearMessageFilters ch) /\
  fst (clearPeriodicMessages ch) = fst (clearMessageFilters ch) /\
  snd (clearTxBuffers ch) = ch /\
  snd (clearRxBuffers ch) = ch /\
  snd (clearPeriodicMessages ch) = ch.
Proof.
  repeat split.
Qed.

(** ** The outbound path: [writeMsg] *)

Section WriteMsg.
Context {K : J2534}.

Lemma writeMsg_short (msg : PASSTHRU_MSG) (t : ISO15765Transfer) (w : World) :
  DataSize msg < J2534_DATA_OFFSET ->
  writeMsg msg t w = Some (Threw ERR_INVALID_MSG, t, w, []).
Proof.
  intros H. unfold writeMsg.
  destruct (Z.ltb_spec (DataSize msg) J2534_DATA_OFFSET); [reflexivity | lia].
Qed.

Lemma writeMsg_throw_inv (msg : PASSTHRU_MSG) (t : ISO15765Transfer) (w : World)
    e t' w' evs :
  writeMsg msg t w = Some (Threw e, t', w', evs) ->
  DataSize msg < J2534_DATA_OFFSET /\ e = ERR_INVALID_MSG /\ t' = t /\ w' = w /\ evs = [].
Proof.
  unfold writeMsg.
  destruct (Z.ltb_spec (DataSize msg) J2534_DATA_OFFSET) as [Hlt | Hge].
  - intros [= <- <- <- <-]. auto.
  - destruct (negb (TransferState_eqb (mState t) START_STATE)); [discriminate |].
    destruct (writeMsg_loop (writeMsg_fuel msg) msg t w) as [[[[r t1] w1] evs1] |];
      discriminate.
Qed.

(** C9. [writeMsg] throws [ERR_INVALID_MSG] exactly when the data size of the
    message is below 4; it throws nothing else, and when it throws no frame
    has been written and the transfer and the world are as they were. *)
Theorem writeMsg_throws_iff_short (msg : PASSTHRU_MSG) (t : ISO15765Transfer) (w : World) :
  ((exists t' w' evs, writeMsg msg t w = Some (Threw ERR_INVALID_MSG, t', w', evs))
   <-> DataSize msg < 4) /\
  (forall e t' w' evs,
      writeMsg msg t w = Some (Threw e, t', w', evs) ->
      e = ERR_INVALID_MSG /\ t' = t /\ w' = w /\ evs = []).
Proof.
  split; [split |].
  - intros (t' & w' & evs & H). now apply writeMsg_throw_inv in H.
  - intros H. exists t, w, []. now apply writeMsg_short.
  - intros e t' w' evs H. now apply writeMsg_throw_inv in H.
Qed.

(** More fuel does not change a result. *)
Lemma writeMsg_loop_fuel (msg : PASSTHRU_MSG) (n m : nat) (t : ISO15765Transfer)
    (w : World) res :
  writeMsg_loop n msg t w = Some res -> (n <= m)%nat ->
  writeMsg_loop m msg t w = Some res.
Proof.
  revert m t w res. induction n as [| n IH]; intros m t w res H Hle; [discriminate |].
  destruct m as [| m]; [lia |].
  cbn [writeMsg_loop] in *.
  destruct (DataSize msg >? size_t (mOffset t)); [| exact H].
  destruct (steady_remaining w) as [Timeout w1].
  destruct (Timeout <=? 0); [exact H |].
  destruct (writeMsg_step msg t w1) as [[[ok t2] w2] evs].
  destruct ok; [| exact H].
  destruct (writeMsg_loop n msg t2 w2) as [[[[r t3] w3] evs'] |] eqn:E; [| discriminate].
  rewrite (IH m _ _ _ E) by lia. exact H.
Qed.

Lemma to_int_small (z : Z) : - 2 ^ 31 <= z < 2 ^ 31 -> to_int z = z.
Proof. intros H. unfold to_int. rewrite Z.mod_small; lia. Qed.

Lemma pad_if_requested_low (msg tmp_msg : PASSTHRU_MSG) (j : Z) :
  0 <= j < DataSize tmp_msg -> DataSize tmp_msg <= 12 ->
  Data (pad_if_requested msg tmp_msg) j = Data tmp_msg j.
Proof.
  intros Hj Hd. unfold pad_if_requested.
  destruct (Z.land (TxFlags msg) ISO15765_FRAME_PAD =? 0); [reflexivity |].
  cbn [paddingMessage Data]. rewrite to_int_small by lia.
  destruct (Z.leb_spec (DataSize tmp_msg) j); [lia | reflexivity].
Qed.

Lemma pad_if_requested_DataSize (msg tmp_msg : PASSTHRU_MSG) :
  DataSize (pad_if_requested msg tmp_msg)
  = if Z.land (TxFlags msg) ISO15765_FRAME_PAD =? 0 then DataSize tmp_msg else 12.
Proof.
  unfold pad_if_requested.
  now destruct (Z.land (TxFlags msg) ISO15765_FRAME_PAD =? 0).
Qed.

Lemma gtb_false (a b : Z) : a <= b -> (a >? b) = false.
Proof. intros H. rewrite Z.gtb_ltb. now apply Z.ltb_ge. Qed.

Lemma gtb_true (a b : Z) : b < a -> (a >? b) = true.
Proof. intros H. rewrite Z.gtb_ltb. now apply Z.ltb_lt. Qed.

Lemma ulong_small (z : Z) : 0 <= z < 2 ^ 64 -> ulong z = z.
Proof. intros H. now apply Z.mod_small. Qed.

Lemma small_nibble (n : Z) :
  0 <= n <= 7 ->
  uint8 (Z.lor (Z.land (getPci SingleFrame) 0xF0) (Z.land n 0x0F)) = n.
Proof.
  intros H.
  assert (n = 0 \/ n = 1 \/ n = 2 \/ n = 3 \/ n = 4 \/ n = 5 \/ n = 6 \/ n = 7) as Hn by lia.
  repeat (destruct Hn as [-> | Hn]; [reflexivity |]). now subst n.
Qed.

Lemma writeMsg_start_single (msg : PASSTHRU_MSG) (t : ISO15765Transfer) (w : World) :
  4 <= DataSize msg <= 11 ->
  tx w (writes w) = 1 ->
  exists w',
    writeMsg_start msg t w
    = (true,
       set_mState (set_mMessage (set_mOffset t (DataSize msg)) (single_frame msg t))
                  FLOW_CONTROL_STATE,
       w', [EvWrite (single_frame msg t) 1]).
Proof.
  intros Hsize Htx. unfold writeMsg_start, single_frame, getRemainingSize.
  cbn [set_mOffset mOffset mMessage set_mMessage].
  unfold J2534_DATA_OFFSET, J2534_PCI_SIZE in *.
  rewrite ulong_small by lia.
  rewrite gtb_false by lia.
  rewrite Z.ltb_irrefl. cbn [PCIFrameName_eqb].
  unfold chan_writeMsgs. rewrite Htx. cbn [Z.eqb Pos.eqb negb].
  cbn [set_mOffset mOffset mMessage set_mMessage set_mState mMaskPid mPatternPid
       mFlowControlPid mState mSequence mBs mStmin].
  replace (4 + (DataSize msg - 4)) with (DataSize msg) by lia.
  eexists. reflexivity.
Qed.

(** Whatever the clock and the wrapped channel do, a write of at most 7
    payload bytes reads nothing and writes at most one frame. *)
Lemma writeMsg_single_frame_any_world (msg : PASSTHRU_MSG) (t : ISO15765Transfer)
    (w : World) :
  mState t = START_STATE -> idle t ->
  0 <= DataSize msg - 4 <= 7 ->
  exists r t' w' evs,
    writeMsg msg t w = Some (Returned r, t', w', evs) /\
    (evs = [] \/ exists f c, evs = [EvWrite f c]).
Proof.
  intros Hst (Hoff & _) Hsize.
  unfold writeMsg, J2534_DATA_OFFSET.
  replace (DataSize msg <? 4) with false by (symmetry; apply Z.ltb_ge; lia).
  rewrite Hst. cbn [TransferState_eqb negb].
  unfold writeMsg_fuel. cbn [writeMsg_loop]. rewrite Hoff. change (size_t 0) with 0.
  rewrite gtb_true by lia.
  destruct (steady_remaining w) as [Timeout w1].
  destruct (Timeout <=? 0); [do 4 eexists; split; [reflexivity | now left] |].
  unfold writeMsg_step. rewrite Hst.
  destruct (Z.eq_dec (tx w1 (writes w1)) 1) as [Htx | Htx].
  - destruct (writeMsg_start_single msg t w1 ltac:(lia) Htx) as [w2 ->].
    cbn [set_mState set_mMessage set_mOffset mOffset].
    unfold size_t. rewrite Z.mod_small by lia. rewrite gtb_false by lia.
    do 4 eexists. split; [reflexivity |]. right. now eexists _, _.
  - unfold writeMsg_start, chan_writeMsgs.
    destruct (PCIFrameName_eqb _ FirstFrame);
      destruct (Z.eqb_spec (tx w1 (writes w1)) 1); try contradiction; cbn [negb];
      do 4 eexists; (split; [reflexivity |]); right; now eexists _, _.
Qed.

(** C4. A message whose payload has at most 7 bytes, written by an idle
    transfer before the deadline to a wrapped channel that takes the frame:
    [writeMsg] returns [true], the transfer is reset, and the only event is
    the write of one frame.  That frame is a Single Frame whose low nibble
    is the payload length, followed by the payload; nothing is read. *)
Theorem writeMsg_single_frame (msg : PASSTHRU_MSG) (t : ISO15765Transfer) (w : World) :
  mState t = START_STATE -> idle t ->
  0 <= DataSize msg - 4 <= 7 ->
  ulong (clock w (ticks w)) <> 0 ->
  tx w (writes w) = 1 ->
  exists t' w' f,
    writeMsg msg t w = Some (Returned true, t', w', [EvWrite f 1]) /\
    mState t' = START_STATE /\ idle t' /\
    getFrameName (Data f 4) = SingleFrame /\
    Z.land (Data f 4) 0x0F = DataSize msg - 4 /\
    (forall i, 0 <= i < DataSize msg - 4 -> Data f (5 + i) = Data msg (4 + i)) /\
    (forall i, 0 <= i < 4 -> Data f i = Data msg i) /\
    DataSize f = (if Z.land (TxFlags msg) ISO15765_FRAME_PAD =? 0
                  then 5 + (DataSize msg - 4) else 12).
Proof.
  intros Hst (Hoff & _) Hsize Hclock Htx.
  destruct (writeMsg_start_single msg t (snd (steady_remaining w))) as [w' Hstart];
    [lia | exact Htx |].
  exists (clear (set_mState (set_mMessage (set_mOffset t (DataSize msg))
                                         (single_frame msg t)) FLOW_CONTROL_STATE)),
    w', (single_frame msg t).
  split; [| split; [reflexivity | split; [repeat split |]]].
  - unfold writeMsg. unfold J2534_DATA_OFFSET.
    replace (DataSize msg <? 4) with false by (symmetry; apply Z.ltb_ge; lia).
    rewrite Hst. cbn [TransferState_eqb negb].
    rewrite (writeMsg_loop_fuel msg 2 (writeMsg_fuel msg) t w
               (true,
                clear (set_mState (set_mMessage (set_mOffset t (DataSize msg))
                                                (single_frame msg t)) FLOW_CONTROL_STATE),
                w', [EvWrite (single_frame msg t) 1]));
      [reflexivity | | unfold writeMsg_fuel; lia].
    cbn [writeMsg_loop]. rewrite Hoff. change (size_t 0) with 0.
    rewrite gtb_true by lia.
    unfold steady_remaining at 1.
    assert (0 <= ulong (clock w (ticks w))) by (apply Z.mod_pos_bound; lia).
    replace (ulong (clock w (ticks w)) <=? 0) with false
      by (symmetry; apply Z.leb_gt; lia).
    unfold writeMsg_step. rewrite Hst.
    unfold steady_remaining in Hstart. cbn [snd] in Hstart. rewrite Hstart.
    cbn [set_mState set_mMessage set_mOffset mOffset].
    unfold size_t. rewrite Z.mod_small by lia.
    rewrite gtb_false by lia.
    reflexivity.
  - assert (Hpci : Data (single_frame msg t) 4 = DataSize msg - 4).
    { unfold single_frame.
      rewrite pad_if_requested_low
        by (cbn [DataSize]; unfold J2534_DATA_OFFSET, J2534_PCI_SIZE; lia).
      cbn [Data memcpy J2534_DATA_OFFSET J2534_PCI_SIZE].
      unfold memcpy, store, J2534_DATA_OFFSET, J2534_PCI_SIZE. cbn [Z.add Z.leb Z.compare Pos.compare Pos.add Pos.compare_cont andb Z.eqb Pos.eqb Pos.succ].
      now apply small_nibble. }
    rewrite Hpci.
    assert (Hn : DataSize msg - 4 = 0 \/ DataSize msg - 4 = 1 \/ DataSize msg - 4 = 2 \/
                 DataSize msg - 4 = 3 \/ DataSize msg - 4 = 4 \/ DataSize msg - 4 = 5 \/
                 DataSize msg - 4 = 6 \/ DataSize msg - 4 = 7) by lia.
    split; [| split; [| split; [| split]]].
    + repeat (destruct Hn as [-> | Hn]; [reflexivity |]). now rewrite Hn.
    + repeat (destruct Hn as [-> | Hn]; [reflexivity |]). now rewrite Hn.
    + intros i Hi. unfold single_frame.
      rewrite pad_if_requested_low by (cbn [DataSize]; unfold J2534_DATA_OFFSET, J2534_PCI_SIZE; lia).
      cbn [Data]. unfold memcpy, J2534_DATA_OFFSET, J2534_PCI_SIZE.
      destruct (Z.leb_spec (4 + 1) (5 + i)); [| lia].
      destruct (Z.ltb_spec (5 + i) (4 + 1 + (DataSize msg - 4))); [| lia].
      cbn [andb]. f_equal. lia.
    + intros i Hi. unfold single_frame.
      rewrite pad_if_requested_low by (cbn [DataSize]; unfold J2534_DATA_OFFSET, J2534_PCI_SIZE; lia).
      cbn [Data prepareSentMessageHeaders]. unfold memcpy, store, J2534_DATA_OFFSET, J2534_PCI_SIZE.
      destruct (Z.leb_spec (4 + 1) i); [lia |]. cbn [andb].
      destruct (Z.eqb_spec i 4); [lia |].
      destruct (Z.leb_spec 0 i); [| lia].
      destruct (Z.ltb_spec i (0 + 4)); [| lia].
      cbn [andb]. f_equal. lia.
    + unfold single_frame. rewrite pad_if_requested_DataSize. reflexivity.
Qed.
End WriteMsg.

(** ** The invariant of the transfer *)

Lemma settled_invariant (t : ISO15765Transfer) : settled t -> transfer_invariant t.
Proof.
  unfold settled, transfer_invariant, idle.
  destruct (mState t); intros H; split; intros H'; try assumption; try reflexivity;
    try discriminate; lia.
Qed.

Lemma clear_settled (t : ISO15765Transfer) : settled (clear t).
Proof. repeat split. Qed.

Lemma in_flight_settled (t : ISO15765Transfer) : in_flight t -> settled t.
Proof.
  unfold in_flight, settled. intros [Hs Ho]. now destruct (mState t).
Qed.

Lemma getRemainingSize_bounds (msg : PASSTHRU_MSG) (offset : Z) :
  0 <= getRemainingSize msg offset <= 7.
Proof.
  unfold getRemainingSize, ulong.
  pose proof (Z.mod_pos_bound (DataSize msg - offset) (2 ^ 64)).
  destruct (Z.gtb_spec ((DataSize msg - offset) mod 2 ^ 64) 7); lia.
Qed.

Section Invariant.
Context {K : J2534}.

Lemma writeMsg_step_in_flight (msg : PASSTHRU_MSG) (t : ISO15765Transfer) (w : World)
    t' w' evs :
  mState t = START_STATE \/ in_flight t ->
  writeMsg_step msg t w = (true, t', w', evs) ->
  in_flight t'.
Proof.
  intros Hpre. unfold writeMsg_step.
  destruct (mState t) eqn:Hst.
  - (* START_STATE *)
    unfold writeMsg_start. cbn [set_mOffset mOffset].
    pose proof (getRemainingSize_bounds msg J2534_DATA_OFFSET) as Hsz.
    destruct (PCIFrameName_eqb _ FirstFrame);
      cbn [set_mOffset set_mSequence set_mMessage mOffset];
      unfold chan_writeMsgs;
      destruct (negb (tx w (writes w) =? 1)); intros H; tuple_eq H;
      try discriminate; subst t';
      split; fields_simpl; try discriminate;
      unfold J2534_DATA_OFFSET, CAN_DATA_SIZE, J2534_PCI_SIZE, J2534_LENGTH_SIZE in *; lia.
  - (* FLOW_CONTROL_STATE *)
    destruct Hpre as [? | [_ Ho]]; [discriminate |].
    unfold writeMsg_flow_control, chan_readMsgs.
    destruct (rx w (reads w)) as [count tmp_msg].
    destruct (negb (count =? 1)); [discriminate |].
    destruct (DataSize tmp_msg <? J2534_DATA_OFFSET); [discriminate |].
    cbn [set_mMessage mMaskPid mPatternPid].
    destruct (negb (_ =? mPatternPid t)); [discriminate |].
    destruct (negb (PCIFrameName_eqb _ FlowControl)); [discriminate |].
    intros H; tuple_eq H; subst t'. split; fields_simpl; [discriminate | exact Ho].
  - (* BLOCK_STATE *)
    destruct Hpre as [? | [_ Ho]]; [discriminate |].
    unfold writeMsg_block, chan_writeMsgs.
    pose proof (getRemainingSize_bounds msg (mOffset t)) as Hsz.
    destruct (negb (tx w (writes w) =? 1)); [discriminate |].
    cbn [set_mSequence set_mOffset set_mMessage set_mBs mBs mOffset mState].
    destruct (ulong (mBs t - 1) =? 0);
      fields_simpl; rewrite ?Hst; fields_simpl;
      intros H; tuple_eq H; subst t'; split; fields_simpl; rewrite ?Hst;
      try discriminate; lia.
Qed.

Lemma writeMsg_loop_settled (msg : PASSTHRU_MSG) (fuel : nat) (t : ISO15765Transfer)
    (w : World) r t' w' evs :
  (mState t = START_STATE /\ idle t) \/ in_flight t ->
  writeMsg_loop fuel msg t w = Some (r, t', w', evs) ->
  settled t'.
Proof.
  revert t w r t' w' evs.
  induction fuel as [| fuel IH]; intros t w r t' w' evs Hpre; [discriminate |].
  cbn [writeMsg_loop].
  destruct (DataSize msg >? size_t (mOffset t)).
  - destruct (steady_remaining w) as [Timeout w1].
    destruct (Timeout <=? 0).
    + intros [= <- <- <- <-].
      destruct Hpre as [[Hs Hi] | Hf]; [| now apply in_flight_settled].
      unfold settled. now rewrite Hs.
    + destruct (writeMsg_step msg t w1) as [[[ok t2] w2] evs2] eqn:Hstep.
      destruct ok.
      * destruct (writeMsg_loop fuel msg t2 w2) as [[[[r3 t3] w3] evs3] |] eqn:Hrec;
          [| discriminate].
        intros [= <- <- <- <-].
        eapply IH; [| exact Hrec]. right.
        eapply writeMsg_step_in_flight; [| exact Hstep].
        destruct Hpre as [[Hs _] | Hf]; [now left | now right].
      * intros [= <- <- <- <-]. apply clear_settled.
  - intros [= <- <- <- <-]. apply clear_settled.
Qed.

Lemma writeMsg_settled (msg : PASSTHRU_MSG) (t : ISO15765Transfer) (w : World)
    r t' w' evs :
  settled t ->
  writeMsg msg t w = Some (r, t', w', evs) ->
  settled t'.
Proof.
  intros Hs. unfold writeMsg.
  destruct (DataSize msg <? J2534_DATA_OFFSET).
  - now intros [= <- <- <- <-].
  - destruct (mState t) eqn:Hst; cbn [TransferState_eqb negb];
      try (intros [= <- <- <- <-]; apply clear_settled).
    destruct (writeMsg_loop (writeMsg_fuel msg) msg t w) as [[[[r1 t1] w1] evs1] |] eqn:Hl;
      [| discriminate].
    intros [= <- <- <- <-].
    eapply writeMsg_loop_settled; [| exact Hl].
    left. split; [exact Hst |]. unfold settled in Hs. now rewrite Hst in Hs.
Qed.

Lemma sendFlowControlMessage_keeps (t : ISO15765Transfer) (w : World) ok t' w' evs :
  sendFlowControlMessage t w = (ok, t', w', evs) ->
  mState t' = mState t /\ mOffset t' = mOffset t /\ mMessage t' = mMessage t /\
  mSequence t' = mSequence t.
Proof.
  unfold sendFlowControlMessage, chan_writeMsgs.
  destruct (negb (tx w (writes w) =? 1)); intros [= <- <- <- <-]; now repeat split.
Qed.

Lemma readMsg_finish_settled (t : ISO15765Transfer) (out_msg : PASSTHRU_MSG) (w : World)
    evs r t' out_msg' w' evs' :
  settled t ->
  readMsg_finish t out_msg w evs = (r, t', out_msg', w', evs') ->
  settled t'.
Proof.
  intros Hs. unfold readMsg_finish.
  destruct (size_t (mOffset t) >=? DataSize (mMessage t)); intros [= <- <- <- <- <-];
    [apply clear_settled | exact Hs].
Qed.

Lemma land_0F_bounds (x : Z) : 0 <= Z.land x 0x0F <= 15.
Proof.
  change 0x0F with (Z.ones 4). rewrite Z.land_ones by lia.
  change (Z.ones 4) with 15.
  pose proof (Z.mod_pos_bound x (2 ^ 4)). lia.
Qed.

Lemma readMsg_settled (t : ISO15765Transfer) (in_msg out_msg : PASSTHRU_MSG) (w : World)
    r t' out_msg' w' evs :
  settled t ->
  readMsg t in_msg out_msg w = (r, t', out_msg', w', evs) ->
  settled t'.
Proof.
  intros Hs. unfold readMsg.
  destruct (DataSize in_msg <? J2534_DATA_OFFSET);
    [intros [= <- <- <- <- <-]; apply clear_settled |].
  destruct (negb (_ =? mPatternPid t));
    [intros [= <- <- <- <- <-]; apply clear_settled |].
  destruct (mState t) eqn:Hst.
  - (* START_STATE *)
    destruct (getFrameName (Data in_msg J2534_DATA_OFFSET));
      try (intros [= <- <- <- <- <-]; apply clear_settled).
    + (* SingleFrame: the message is complete at once *)
      unfold readMsg_finish.
      cbn [set_mMessage set_mOffset mOffset mMessage DataSize].
      pose proof (land_0F_bounds (Data in_msg J2534_DATA_OFFSET)) as Hb.
      unfold size_t, J2534_DATA_OFFSET in *. rewrite Z.mod_small by lia.
      rewrite Z.geb_leb, Z.leb_refl.
      intros [= <- <- <- <- <-]. apply clear_settled.
    + (* FirstFrame *)
      destruct (sendFlowControlMessage _ w) as [[[ok t1] w1] evs1] eqn:Hfc.
      apply sendFlowControlMessage_keeps in Hfc as (_ & Hoff & _).
      cbn [set_mMessage set_mSequence set_mOffset mOffset] in Hoff.
      destruct ok; cbn [negb];
        [| intros [= <- <- <- <- <-]; apply clear_settled].
      apply readMsg_finish_settled.
      unfold settled. cbn [set_mState mState mOffset]. rewrite Hoff.
      unfold J2534_DATA_OFFSET, CAN_DATA_SIZE, J2534_PCI_SIZE, J2534_LENGTH_SIZE. lia.
  - (* FLOW_CONTROL_STATE *)
    intros [= <- <- <- <- <-]. apply clear_settled.
  - (* BLOCK_STATE *)
    destruct (negb (_ =? mSequence t mod 0x10));
      [intros [= <- <- <- <- <-]; apply clear_settled |].
    assert (Ho : 4 <= mOffset t) by (unfold settled in Hs; now rewrite Hst in Hs).
    pose proof (getRemainingSize_bounds (mMessage t) (mOffset t)) as Hsz.
    cbn [set_mMessage set_mSequence set_mOffset set_mBs mBs mOffset mMessage].
    destruct (ulong (mBs t - 1) =? 0).
    + destruct (sendFlowControlMessage _ w) as [[[ok t1] w1] evs1] eqn:Hfc.
      apply sendFlowControlMessage_keeps in Hfc as (Hst1 & Hoff & _).
      fields_simpl in Hst1. fields_simpl in Hoff.
      destruct ok; cbn [negb];
        [| intros [= <- <- <- <- <-]; apply clear_settled].
      apply readMsg_finish_settled.
      unfold settled. rewrite Hst1, Hst, Hoff. lia.
    + apply readMsg_finish_settled.
      unfold settled. fields_simpl. rewrite Hst. lia.
Qed.

Lemma reachable_settled (t : ISO15765Transfer) : reachable t -> settled t.
Proof.
  induction 1 as [| t _ _ | t msg w r t' w' evs _ IH Hw | t i o w r t' o' w' evs _ IH Hr].
  - apply clear_settled.
  - apply clear_settled.
  - exact (writeMsg_settled _ _ _ _ _ _ _ IH Hw).
  - exact (readMsg_settled _ _ _ _ _ _ _ _ _ IH Hr).
Qed.

(** C8. A transfer is in [START_STATE] exactly when offset, sequence, block
    size and separation time are all zero: this holds of a constructed
    transfer and of every transfer that [clear], [writeMsg] and [readMsg]
    leave, whether they return success or failure or throw, for all
    arguments and all behaviours of the wrapped channel and the clock. *)
Theorem reachable_transfer_invariant (t : ISO15765Transfer) :
  reachable t -> mState t = START_STATE <-> idle t.
Proof.
  intros H. apply settled_invariant, reachable_settled, H.
Qed.
End Invariant.

(** ** The turns of the loop of [writeMsg] *)

Lemma cf_pci_spec (s : Z) :
  uint8 (Z.lor (Z.land (getPci ConsecutiveFrame) 0xF0) (Z.land s 0x0F)) = cf_pci s.
Proof.
  unfold cf_pci. change 0x0F with (Z.ones 4). rewrite Z.land_ones by lia.
  pose proof (Z.mod_pos_bound s (2 ^ 4)) as Hb. change (2 ^ 4) with 16 in *.
  assert (Hn : s mod 16 = 0 \/ s mod 16 = 1 \/ s mod 16 = 2 \/ s mod 16 = 3 \/
               s mod 16 = 4 \/ s mod 16 = 5 \/ s mod 16 = 6 \/ s mod 16 = 7 \/
               s mod 16 = 8 \/ s mod 16 = 9 \/ s mod 16 = 10 \/ s mod 16 = 11 \/
               s mod 16 = 12 \/ s mod 16 = 13 \/ s mod 16 = 14 \/ s mod 16 = 15) by lia.
  repeat (destruct Hn as [-> | Hn]; [reflexivity |]). now rewrite Hn.
Qed.

Section Turns.
Context {K : J2534}.

(** A turn in [FLOW_CONTROL_STATE]: one read; when the frame is taken, the
    block size and the separation time are its bytes 5 and 6. *)
Lemma writeMsg_flow_control_spec (t : ISO15765Transfer) (w : World) ok t' w' evs :
  writeMsg_flow_control t w = (ok, t', w', evs) ->
  exists c m,
    (ok = false /\ evs = [EvRead c m]) \/
    (ok = true /\ c = 1 /\
     evs = [EvRead 1 m; EvSleep (load (Data m) 6)] /\
     mState t' = BLOCK_STATE /\ mOffset t' = mOffset t /\
     mSequence t' = mSequence t /\ mBs t' = load (Data m) 5).
Proof.
  unfold writeMsg_flow_control, chan_readMsgs. intros H.
  destruct (rx w (reads w)) as [c m]. exists c, m.
  destruct (Z.eqb_spec c 1) as [-> | Hc]; cbn [negb] in H;
    [| tuple_eq H; left; now subst].
  destruct (DataSize m <? J2534_DATA_OFFSET);
    [tuple_eq H; left; now subst |].
  destruct (negb (_ =? _));
    [tuple_eq H; left; now subst |].
  destruct (negb (PCIFrameName_eqb _ FlowControl));
    tuple_eq H; [left; now subst |].
  right. subst. now repeat split.
Qed.

(** A turn in [BLOCK_STATE]: one Consecutive Frame with the current
    sequence counter; the block counter goes down by one and the state
    goes back to [FLOW_CONTROL_STATE] when it reaches zero. *)
Lemma writeMsg_block_spec (msg : PASSTHRU_MSG) (t : ISO15765Transfer) (w : World)
    ok t' w' evs :
  mState t = BLOCK_STATE ->
  writeMsg_block msg t w = (ok, t', w', evs) ->
  exists f c,
    Data f 4 = cf_pci (mSequence t) /\
    ((ok = false /\ evs = [EvWrite f c]) \/
     (ok = true /\ c = 1 /\
      mOffset t' = mOffset t + getRemainingSize msg (mOffset t) /\
      mSequence t' = uint32 (mSequence t + 1) /\
      mBs t' = ulong (mBs t - 1) /\
      ((mBs t' = 0 /\ mState t' = FLOW_CONTROL_STATE /\ evs = [EvWrite f 1]) \/
       (mBs t' <> 0 /\ mState t' = BLOCK_STATE /\
        evs = [EvWrite f 1; EvSleep (mStmin t)])))).
Proof.
  intros Hst. unfold writeMsg_block, chan_writeMsgs.
  pose proof (getRemainingSize_bounds msg (mOffset t)) as Hsz.
  intros H.
  match type of H with
  | context [EvWrite ?m (tx w (writes w))] => exists m, (tx w (writes w))
  end.
  split.
  { rewrite pad_if_requested_low
      by (fields_simpl; unfold J2534_DATA_OFFSET, J2534_PCI_SIZE; lia).
    fields_simpl. unfold memcpy, store, J2534_DATA_OFFSET, J2534_PCI_SIZE.
    change (4 + 1 <=? 4) with false. cbn [andb]. rewrite Z.eqb_refl.
    apply cf_pci_spec. }
  destruct (Z.eqb_spec (tx w (writes w)) 1) as [Hc | Hc]; cbn [negb] in H;
    [| tuple_eq H; left; now subst].
  rewrite Hc in *. fields_simpl in H. right.
  destruct (Z.eqb_spec (ulong (mBs t - 1)) 0) as [Hb | Hb]; fields_simpl in H;
    rewrite ?Hst in H; fields_simpl in H; tuple_eq H; subst ok t' w' evs; fields_simpl;
    (do 5 (split; [reflexivity |])); [left | right]; now repeat split.
Qed.

(** A turn in [START_STATE]: one frame, no read. *)
Lemma writeMsg_start_spec (msg : PASSTHRU_MSG) (t : ISO15765Transfer) (w : World)
    ok t' w' evs :
  4 <= DataSize msg < 2 ^ 64 ->
  writeMsg_start msg t w = (ok, t', w', evs) ->
  exists f c,
    evs = [EvWrite f c] /\
    (ok = true ->
     c = 1 /\ mState t' = FLOW_CONTROL_STATE /\
     4 <= mOffset t' <= DataSize msg /\
     mSequence t' = (if DataSize msg - 4 >? 7 then uint32 (mSequence t + 1)
                     else mSequence t)).
Proof.
  intros Hsize. unfold writeMsg_start, chan_writeMsgs, getRemainingSize.
  fields_simpl. unfold J2534_DATA_OFFSET, CAN_DATA_SIZE, J2534_PCI_SIZE, J2534_LENGTH_SIZE.
  rewrite ulong_small by lia. intros H.
  destruct (Z.gtb_spec (DataSize msg - 4) 7) as [Hbig | Hsmall].
  - replace (7 <? DataSize msg - 4) with true in H by (symmetry; apply Z.ltb_lt; lia).
    cbn [PCIFrameName_eqb] in H. fields_simpl in H.
    match type of H with
    | context [EvWrite ?m (tx w (writes w))] => exists m, (tx w (writes w))
    end.
    destruct (Z.eqb_spec (tx w (writes w)) 1) as [Hc | Hc]; cbn [negb] in H;
      tuple_eq H; subst; (split; [reflexivity |]); [| discriminate].
    intros _. fields_simpl. repeat split; auto; lia.
  - rewrite Z.ltb_irrefl in H. cbn [PCIFrameName_eqb] in H. fields_simpl in H.
    match type of H with
    | context [EvWrite ?m (tx w (writes w))] => exists m, (tx w (writes w))
    end.
    destruct (Z.eqb_spec (tx w (writes w)) 1) as [Hc | Hc]; cbn [negb] in H;
      tuple_eq H; subst; (split; [reflexivity |]); [| discriminate].
    intros _. fields_simpl. repeat split; auto; lia.
Qed.
End Turns.

(** ** [writeMsg] returns *)

Lemma getRemainingSize_inside (msg : PASSTHRU_MSG) (offset : Z) :
  0 <= offset < DataSize msg -> DataSize msg < 2 ^ 64 ->
  1 <= getRemainingSize msg offset <= DataSize msg - offset.
Proof.
  intros Ho Hd. unfold getRemainingSize. rewrite ulong_small by lia.
  destruct (Z.gtb_spec (DataSize msg - offset) 7); lia.
Qed.

Section Termination.
Context {K : J2534}.

Lemma writeMsg_step_flying (msg : PASSTHRU_MSG) (t : ISO15765Transfer) (w : World)
    t' w' evs :
  DataSize msg < 2 ^ 64 -> flying msg t -> mOffset t < DataSize msg ->
  writeMsg_step msg t w = (true, t', w', evs) ->
  flying msg t' /\ turns_left msg t' < turns_left msg t.
Proof.
  intros Hd [Hs Ho] Hlt. unfold writeMsg_step, flying, turns_left.
  destruct (mState t) eqn:Hst; [contradiction | |]; intros H.
  - apply writeMsg_flow_control_spec in H as (c & m & [[? _] | (_ & _ & _ & Hs' & Ho' & _)]);
      [discriminate |].
    rewrite Hs', Ho'. split; [split; [discriminate | lia] | lia].
  - apply (writeMsg_block_spec _ _ _ _ _ _ _ Hst) in H
      as (f & c & _ & [[? _] | (_ & _ & Ho' & _ & _ & Hcase)]); [discriminate |].
    pose proof (getRemainingSize_inside msg (mOffset t)) as Hsz.
    rewrite Ho'.
    destruct Hcase as [(_ & Hs' & _) | (_ & Hs' & _)]; rewrite Hs';
      (split; [split; [discriminate | lia] | lia]).
Qed.

Lemma writeMsg_loop_S (msg : PASSTHRU_MSG) (fuel : nat) (t : ISO15765Transfer)
    (w : World) :
  writeMsg_loop (S fuel) msg t w
  = if DataSize msg >? size_t (mOffset t) then
      let '(Timeout, w) := steady_remaining w in
      if Timeout <=? 0 then Some (false, t, w, [])
      else
        let '(ok, t, w, evs) := writeMsg_step msg t w in
        if ok then
          match writeMsg_loop fuel msg t w with
          | Some (r, t, w, evs') => Some (r, t, w, evs ++ evs')
          | None => None
          end
        else Some (false, clear t, w, evs)
    else Some (true, clear t, w, []).
Proof. reflexivity. Qed.

Lemma writeMsg_loop_total (msg : PASSTHRU_MSG) (fuel : nat) (t : ISO15765Transfer)
    (w : World) :
  DataSize msg < 2 ^ 64 -> flying msg t ->
  turns_left msg t < Z.of_nat fuel ->
  exists res, writeMsg_loop fuel msg t w = Some res.
Proof.
  intros Hd. revert t w.
  induction fuel as [| fuel IH]; intros t w Hf Hm.
  - destruct Hf as [_ Ho]. unfold turns_left in Hm. destruct (mState t); lia.
  - cbn [writeMsg_loop].
    assert (Hcast : size_t (mOffset t) = mOffset t).
    { destruct Hf as [_ Ho]. unfold size_t. apply Z.mod_small. lia. }
    rewrite Hcast.
    destruct (Z.gtb_spec (DataSize msg) (mOffset t)) as [Hlt | Hge]; [| eauto].
    destruct (steady_remaining w) as [Timeout w1].
    destruct (Timeout <=? 0); [eauto |].
    destruct (writeMsg_step msg t w1) as [[[ok t2] w2] evs] eqn:Hstep.
    destruct ok; [| eauto].
    destruct (writeMsg_step_flying _ _ _ _ _ _ Hd Hf Hlt Hstep) as [Hf2 Hm2].
    destruct (IH t2 w2 Hf2 ltac:(lia)) as [[[[r t3] w3] evs3] ->]. eauto.
Qed.

(** [writeMsg] comes back for every message whose size is an
    [unsigned long], in every state and every world: the fuel of
    [writeMsg_fuel] is never used up. *)
Lemma writeMsg_total (msg : PASSTHRU_MSG) (t : ISO15765Transfer) (w : World) :
  DataSize msg < 2 ^ 64 ->
  exists res, writeMsg msg t w = Some res.
Proof.
  intros Hd. unfold writeMsg.
  destruct (Z.ltb_spec (DataSize msg) J2534_DATA_OFFSET) as [| Hge]; [eauto |].
  destruct (negb (TransferState_eqb (mState t) START_STATE)) eqn:Hneg; [eauto |].
  assert (Hst : mState t = START_STATE) by (destruct (mState t); now try discriminate).
  unfold writeMsg_fuel. rewrite writeMsg_loop_S.
  destruct (DataSize msg >? size_t (mOffset t)); [| eauto].
  destruct (steady_remaining w) as [Timeout w1].
  destruct (Timeout <=? 0); [eauto |].
  unfold writeMsg_step. rewrite Hst.
  destruct (writeMsg_start msg t w1) as [[[ok t2] w2] evs] eqn:Hstart.
  destruct ok; [| eauto].
  unfold J2534_DATA_OFFSET in Hge.
  apply writeMsg_start_spec in Hstart as (f & c & _ & Hok); [| lia].
  destruct (Hok eq_refl) as (_ & Hs2 & Ho2 & _).
  destruct (writeMsg_loop_total msg (S (Z.to_nat (2 * DataSize msg))) t2 w2 Hd)
    as [[[[r t3] w3] evs3] ->]; [| | eauto].
  - split; [rewrite Hs2; discriminate | exact Ho2].
  - unfold turns_left. rewrite Hs2. lia.
Qed.
End Termination.

(** ** Multi-frame writes: First Frame and sequence numbers *)

Lemma written_app (a b : list Event) : written (a ++ b) = written a ++ written b.
Proof. apply flat_map_app. Qed.

Lemma cf_pci_next (s k : Z) : cf_pci (uint32 (s + 1) + k) = cf_pci (s + (k + 1)).
Proof.
  unfold cf_pci, uint32. f_equal.
  change (2 ^ 32) with (16 * 2 ^ 28).
  rewrite <- Zplus_mod_idemp_l, Z.rem_mul_r, Z.mul_comm, Z.mod_add by lia.
  rewrite Z.mod_mod, Zplus_mod_idemp_l by lia. f_equal. lia.
Qed.

Lemma ff_pci_spec (n : Z) :
  0 <= n < 4096 ->
  uint8 (Z.lor (Z.land (getPci FirstFrame) 0xF0) (Z.land (Z.shiftr n 8) 0x0F))
  = 0x10 + n / 256.
Proof.
  intros Hn. rewrite Z.shiftr_div_pow2 by lia. change (2 ^ 8) with 256.
  assert (Hh : 0 <= n / 256 < 16) by (split; [apply Z.div_pos | apply Z.div_lt_upper_bound]; lia).
  assert (Hc : n / 256 = 0 \/ n / 256 = 1 \/ n / 256 = 2 \/ n / 256 = 3 \/
               n / 256 = 4 \/ n / 256 = 5 \/ n / 256 = 6 \/ n / 256 = 7 \/
               n / 256 = 8 \/ n / 256 = 9 \/ n / 256 = 10 \/ n / 256 = 11 \/
               n / 256 = 12 \/ n / 256 = 13 \/ n / 256 = 14 \/ n / 256 = 15) by lia.
  repeat (destruct Hc as [-> | Hc]; [reflexivity |]). now rewrite Hc.
Qed.

Lemma first_frame_kind (h : Z) :
  0 <= h < 16 ->
  getFrameName (0x10 + h) = FirstFrame /\ Z.land (0x10 + h) 0x0F = h.
Proof.
  intros Hh.
  assert (Hc : h = 0 \/ h = 1 \/ h = 2 \/ h = 3 \/ h = 4 \/ h = 5 \/ h = 6 \/ h = 7 \/
               h = 8 \/ h = 9 \/ h = 10 \/ h = 11 \/ h = 12 \/ h = 13 \/ h = 14 \/ h = 15)
    by lia.
  repeat (destruct Hc as [-> | Hc]; [split; reflexivity |]). subst h. split; reflexivity.
Qed.

Lemma uint8_land_FF_mod (n : Z) : uint8 (Z.land n 0xFF) = n mod 256.
Proof.
  rewrite Z.land_comm, uint8_land_FF, Z.land_comm.
  change 0xFF with (Z.ones 8). now rewrite Z.land_ones by lia.
Qed.

Section MultiFrame.
Context {K : J2534}.

Lemma writeMsg_start_first (msg : PASSTHRU_MSG) (t : ISO15765Transfer) (w : World) :
  12 <= DataSize msg < 2 ^ 64 ->
  exists c t1 w1,
    writeMsg_start msg t w = (c =? 1, t1, w1, [EvWrite (first_frame msg t) c]) /\
    mSequence t1 = uint32 (mSequence t + 1) /\ mOffset t1 = 10 /\
    (c = 1 -> mState t1 = FLOW_CONTROL_STATE).
Proof.
  intros Hsize. unfold writeMsg_start, first_frame, getRemainingSize, chan_writeMsgs.
  fields_simpl. unfold J2534_DATA_OFFSET, CAN_DATA_SIZE, J2534_PCI_SIZE, J2534_LENGTH_SIZE.
  rewrite ulong_small by lia. rewrite gtb_true by lia.
  replace (7 <? DataSize msg - 4) with true by (symmetry; apply Z.ltb_lt; lia).
  cbn [PCIFrameName_eqb]. fields_simpl.
  exists (tx w (writes w)).
  destruct (Z.eqb_spec (tx w (writes w)) 1) as [Hc | Hc]; cbn [negb];
    eexists; eexists; (split; [reflexivity |]); fields_simpl; repeat split;
    try reflexivity; try (intros; contradiction).
Qed.

Lemma first_frame_shape (msg : PASSTHRU_MSG) (t : ISO15765Transfer) :
  8 <= DataSize msg - 4 <= 4095 ->
  getFrameName (Data (first_frame msg t) 4) = FirstFrame /\
  Z.land (Data (first_frame msg t) 4) 0x0F * 256 + Data (first_frame msg t) 5
  = DataSize msg - 4 /\
  0 <= Data (first_frame msg t) 5 < 256 /\
  (forall i, 0 <= i < 6 -> Data (first_frame msg t) (6 + i) = Data msg (4 + i)) /\
  (forall i, 0 <= i < 4 -> Data (first_frame msg t) i = Data msg i).
Proof.
  intros Hn. set (n := DataSize msg - 4) in *.
  assert (H4 : Data (first_frame msg t) 4 = 0x10 + n / 256).
  { unfold first_frame. rewrite pad_if_requested_low by (fields_simpl; lia).
    fields_simpl. unfold memcpy, store, J2534_DATA_OFFSET, J2534_PCI_SIZE.
    change (6 <=? 4) with false. change (4 =? 4 + 1) with false. cbn [andb].
    rewrite Z.eqb_refl. fold n. apply ff_pci_spec. lia. }
  assert (H5 : Data (first_frame msg t) 5 = n mod 256).
  { unfold first_frame. rewrite pad_if_requested_low by (fields_simpl; lia).
    fields_simpl. unfold memcpy, store, J2534_DATA_OFFSET, J2534_PCI_SIZE.
    change (6 <=? 5) with false. change (5 =? 4 + 1) with true. cbn [andb].
    fold n. apply uint8_land_FF_mod. }
  assert (Hh : 0 <= n / 256 < 16)
    by (split; [apply Z.div_pos | apply Z.div_lt_upper_bound]; lia).
  destruct (first_frame_kind (n / 256) Hh) as [Hkind Hlow].
  rewrite H4, H5, Hkind, Hlow.
  pose proof (Z.mod_pos_bound n 256 ltac:(lia)).
  pose proof (Z.div_mod n 256 ltac:(lia)).
  split; [reflexivity |]. split; [lia |]. split; [lia |]. split.
  - intros i Hi. unfold first_frame.
    rewrite pad_if_requested_low by (fields_simpl; lia).
    fields_simpl. unfold memcpy, J2534_DATA_OFFSET.
    destruct (Z.leb_spec 6 (6 + i)); [| lia].
    destruct (Z.ltb_spec (6 + i) (6 + 6)); [| lia].
    cbn [andb]. f_equal. lia.
  - intros i Hi. unfold first_frame.
    rewrite pad_if_requested_low by (fields_simpl; lia).
    fields_simpl. unfold prepareSentMessageHeaders, memcpy, store,
      J2534_DATA_OFFSET, J2534_PCI_SIZE. fields_simpl.
    destruct (Z.leb_spec 6 i); [lia |]. cbn [andb].
    destruct (Z.eqb_spec i (4 + 1)); [lia |].
    destruct (Z.eqb_spec i 4); [lia |].
    destruct (Z.leb_spec 0 i); [| lia].
    destruct (Z.ltb_spec i (0 + 4)); [| lia].
    cbn [andb]. f_equal. lia.
Qed.

(** While a transfer waits for a Flow Control, the next thing the loop does
    on the wrapped channel is a read. *)
Lemma writeMsg_loop_awaits (msg : PASSTHRU_MSG) (fuel : nat) (t : ISO15765Transfer)
    (w : World) r t' w' evs :
  mState t = FLOW_CONTROL_STATE ->
  writeMsg_loop fuel msg t w = Some (r, t', w', evs) ->
  evs = [] \/ exists c m rest, evs = EvRead c m :: rest.
Proof.
  intros Hst. destruct fuel as [| fuel]; [discriminate |].
  rewrite writeMsg_loop_S.
  destruct (DataSize msg >? size_t (mOffset t));
    [| intros H; injection H as _ _ _ <-; now left].
  destruct (steady_remaining w) as [Timeout w1].
  destruct (Timeout <=? 0); [intros H; injection H as _ _ _ <-; now left |].
  unfold writeMsg_step. rewrite Hst.
  destruct (writeMsg_flow_control t w1) as [[[ok t2] w2] evs2] eqn:Hfc.
  apply writeMsg_flow_control_spec in Hfc
    as (c & m & [[-> ->] | (-> & _ & -> & _)]).
  - intros H; injection H as _ _ _ <-. right. now exists c, m, [].
  - destruct (writeMsg_loop fuel msg t2 w2) as [[[[r3 t3] w3] evs3] |]; [| discriminate].
    intros H; injection H as _ _ _ <-. right. eexists 1, m, _. reflexivity.
Qed.

(** The Consecutive Frames leave with consecutive sequence counters. *)
Lemma writeMsg_loop_sequence (msg : PASSTHRU_MSG) (fuel : nat) (t : ISO15765Transfer)
    (w : World) r t' w' evs :
  mState t <> START_STATE ->
  writeMsg_loop fuel msg t w = Some (r, t', w', evs) ->
  forall k f, nth_error (written evs) k = Some f ->
              Data f 4 = cf_pci (mSequence t + Z.of_nat k).
Proof.
  revert t w r t' w' evs.
  induction fuel as [| fuel IH]; intros t w r t' w' evs Hst; [discriminate |].
  rewrite writeMsg_loop_S.
  destruct (DataSize msg >? size_t (mOffset t));
    [| intros H; injection H as _ _ _ <-; intros [| k] f; discriminate].
  destruct (steady_remaining w) as [Timeout w1].
  destruct (Timeout <=? 0);
    [intros H; injection H as _ _ _ <-; intros [| k] f; discriminate |].
  unfold writeMsg_step.
  destruct (mState t) eqn:Hs; [contradiction | |].
  - (* waiting for a Flow Control: nothing is written *)
    destruct (writeMsg_flow_control t w1) as [[[ok t2] w2] evs2] eqn:Hfc.
    apply writeMsg_flow_control_spec in Hfc
      as (c & m & [[-> ->] | (-> & _ & -> & Hs2 & _ & Hq2 & _)]).
    + intros H; injection H as _ _ _ <-. intros [| k] f; discriminate.
    + destruct (writeMsg_loop fuel msg t2 w2) as [[[[r3 t3] w3] evs3] |] eqn:Hrec;
        [| discriminate].
      intros H; injection H as _ _ _ <-. intros k f Hk.
      rewrite <- Hq2. eapply IH; [| exact Hrec | exact Hk].
      rewrite Hs2. discriminate.
  - (* inside a block: one Consecutive Frame *)
    destruct (writeMsg_block msg t w1) as [[[ok t2] w2] evs2] eqn:Hb.
    apply (writeMsg_block_spec _ _ _ _ _ _ _ Hs) in Hb
      as (f0 & c & Hpci & [[-> ->] | (-> & _ & _ & Hq2 & _ & Hcase)]).
    + intros H; injection H as _ _ _ <-. intros [| [| k]] f; try discriminate.
      intros [= <-]. now rewrite Z.add_0_r.
    + destruct (writeMsg_loop fuel msg t2 w2) as [[[[r3 t3] w3] evs3] |] eqn:Hrec;
        [| discriminate].
      intros H; injection H as _ _ _ <-. intros k f.
      assert (Hst2 : mState t2 <> START_STATE)
        by (destruct Hcase as [(_ & -> & _) | (_ & -> & _)]; discriminate).
      assert (Hw : written (evs2 ++ evs3) = f0 :: written evs3)
        by (destruct Hcase as [(_ & _ & ->) | (_ & _ & ->)]; reflexivity).
      rewrite Hw. destruct k as [| k]; cbn [nth_error].
      * intros [= <-]. now rewrite Z.add_0_r.
      * intros Hk. rewrite (IH _ _ _ _ _ _ Hst2 Hrec _ _ Hk), Hq2, cf_pci_next.
        f_equal. lia.
Qed.

End MultiFrame.

(** ** Flow-control pacing of the Consecutive Frames *)

Lemma has_read_app (a b : list Event) : has_read (a ++ b) = has_read a || has_read b.
Proof. apply existsb_app. Qed.

Lemma paced_split (pre : list Event) c m rest :
  paced (pre ++ EvRead c m :: rest) ->
  has_read rest = true -> 0 < BS m /\ writes_before_read rest = BS m.
Proof.
  induction pre as [| e pre IH]; cbn [app paced].
  - now intros [H _].
  - destruct e; [exact IH | intros [_ H]; now apply IH | exact IH].
Qed.

Lemma writes_before_read_count (mid : list Event) c m post :
  has_read mid = false ->
  writes_before_read (mid ++ EvRead c m :: post) = Z.of_nat (length (written mid)).
Proof.
  induction mid as [| e mid IH]; cbn [app]; [reflexivity |].
  destruct e; cbn [has_read existsb orb writes_before_read]; intros H.
  - unfold written in *. cbn [flat_map app length]. fold (has_read mid) in H.
    rewrite IH by exact H. lia.
  - discriminate.
  - fold (has_read mid) in H. unfold written in *. cbn [flat_map app]. now apply IH.
Qed.

Lemma load_bounds (d : buffer) (i : Z) : 0 <= load d i < 256.
Proof. unfold load, uint8. apply Z.mod_pos_bound. lia. Qed.

Section Pacing.
Context {K : J2534}.

(** Inside a block of [mBs t] frames, the remaining frames of the block are
    written before the wrapped channel is read again. *)
Lemma writeMsg_loop_block_counts (msg : PASSTHRU_MSG) (fuel : nat)
    (t : ISO15765Transfer) (w : World) r t' w' evs :
  mState t = BLOCK_STATE -> 1 <= mBs t < 2 ^ 64 ->
  writeMsg_loop fuel msg t w = Some (r, t', w', evs) ->
  has_read evs = true ->
  writes_before_read evs = mBs t.
Proof.
  revert t w r t' w' evs.
  induction fuel as [| fuel IH]; intros t w r t' w' evs Hst Hbs; [discriminate |].
  rewrite writeMsg_loop_S.
  destruct (DataSize msg >? size_t (mOffset t));
    [| intros H; injection H as _ _ _ <-; discriminate].
  destruct (steady_remaining w) as [Timeout w1].
  destruct (Timeout <=? 0); [intros H; injection H as _ _ _ <-; discriminate |].
  unfold writeMsg_step. rewrite Hst.
  destruct (writeMsg_block msg t w1) as [[[ok t2] w2] evs2] eqn:Hb.
  apply (writeMsg_block_spec _ _ _ _ _ _ _ Hst) in Hb
    as (f0 & c & _ & [[-> ->] | (-> & _ & _ & _ & Hbs2 & Hcase)]).
  - intros H; injection H as _ _ _ <-. discriminate.
  - destruct (writeMsg_loop fuel msg t2 w2) as [[[[r3 t3] w3] evs3] |] eqn:Hrec;
      [| discriminate].
    intros H; injection H as _ _ _ <-.
    rewrite ulong_small in Hbs2 by lia.
    destruct Hcase as [(Hz & Hs2 & ->) | (Hnz & Hs2 & ->)];
      cbn [app has_read existsb orb writes_before_read]; fold (has_read evs3).
    + destruct (writeMsg_loop_awaits _ _ _ _ _ _ _ _ Hs2 Hrec)
        as [-> | (c' & m & rest & ->)]; [discriminate |].
      intros _. cbn [writes_before_read]. lia.
    + intros Hr. rewrite (IH _ _ _ _ _ _ Hs2 ltac:(lia) Hrec Hr). lia.
Qed.

(** With a block counter of zero, or larger than what is left to send, the
    wrapped channel is not read again. *)
Lemma writeMsg_loop_block_unlimited (msg : PASSTHRU_MSG) (fuel : nat)
    (t : ISO15765Transfer) (w : World) r t' w' evs :
  DataSize msg < 2 ^ 64 -> flying msg t ->
  mState t = BLOCK_STATE ->
  mBs t = 0 \/ DataSize msg - mOffset t < mBs t < 2 ^ 64 ->
  writeMsg_loop fuel msg t w = Some (r, t', w', evs) ->
  has_read evs = false.
Proof.
  intros Hd. revert t w r t' w' evs.
  induction fuel as [| fuel IH]; intros t w r t' w' evs Hf Hst Hbs; [discriminate |].
  rewrite writeMsg_loop_S.
  assert (Hcast : size_t (mOffset t) = mOffset t).
  { destruct Hf as [_ Ho]. unfold size_t. apply Z.mod_small. lia. }
  rewrite Hcast.
  destruct (Z.gtb_spec (DataSize msg) (mOffset t)) as [Hlt | Hge];
    [| intros H; injection H as _ _ _ <-; reflexivity].
  destruct (steady_remaining w) as [Timeout w1].
  destruct (Timeout <=? 0); [intros H; injection H as _ _ _ <-; reflexivity |].
  destruct (writeMsg_step msg t w1) as [[[ok t2] w2] evs2] eqn:Hstep.
  assert (Hstep' := Hstep). unfold writeMsg_step in Hstep'. rewrite Hst in Hstep'.
  apply (writeMsg_block_spec _ _ _ _ _ _ _ Hst) in Hstep'
    as (f0 & c & _ & [[-> ->] | (-> & _ & Ho2 & _ & Hbs2 & Hcase)]).
  - intros H; injection H as _ _ _ <-. reflexivity.
  - destruct (writeMsg_step_flying _ _ _ _ _ _ Hd Hf Hlt Hstep) as [Hf2 _].
    pose proof (getRemainingSize_inside msg (mOffset t)) as Hsz.
    destruct Hf as [_ Ho].
    assert (Hbs2' : mBs t2 <> 0 /\ DataSize msg - mOffset t2 < mBs t2 < 2 ^ 64).
    { rewrite Hbs2, Ho2. unfold ulong.
      destruct Hbs as [-> | Hbig].
      - change ((0 - 1) mod 2 ^ 64) with (2 ^ 64 - 1). lia.
      - rewrite Z.mod_small by lia. lia. }
    destruct Hcase as [(Hz & _) | (_ & Hs2 & ->)]; [lia |].
    destruct (writeMsg_loop fuel msg t2 w2) as [[[[r3 t3] w3] evs3] |] eqn:Hrec;
      [| discriminate].
    intros H; injection H as _ _ _ <-.
    cbn [app has_read existsb orb]. fold (has_read evs3).
    eapply IH; [exact Hf2 | exact Hs2 | | exact Hrec]. right. lia.
Qed.

Lemma writeMsg_loop_paced (msg : PASSTHRU_MSG) (fuel : nat) (t : ISO15765Transfer)
    (w : World) r t' w' evs :
  DataSize msg < 2 ^ 64 -> flying msg t ->
  writeMsg_loop fuel msg t w = Some (r, t', w', evs) ->
  paced evs.
Proof.
  intros Hd. revert t w r t' w' evs.
  induction fuel as [| fuel IH]; intros t w r t' w' evs Hf; [discriminate |].
  rewrite writeMsg_loop_S.
  assert (Hcast : size_t (mOffset t) = mOffset t).
  { destruct Hf as [_ Ho]. unfold size_t. apply Z.mod_small. lia. }
  rewrite Hcast.
  destruct (Z.gtb_spec (DataSize msg) (mOffset t)) as [Hlt | Hge];
    [| intros H; injection H as _ _ _ <-; exact I].
  destruct (steady_remaining w) as [Timeout w1].
  destruct (Timeout <=? 0); [intros H; injection H as _ _ _ <-; exact I |].
  destruct (writeMsg_step msg t w1) as [[[ok t2] w2] evs2] eqn:Hstep.
  assert (Hstep' := Hstep). unfold writeMsg_step in Hstep'.
  destruct (mState t) eqn:Hst; [destruct Hf as [Hf _]; contradiction | |].
  - (* a Flow Control is read *)
    apply writeMsg_flow_control_spec in Hstep'
      as (c & m & [[-> ->] | (-> & _ & -> & Hs2 & Ho2 & _ & Hbs2)]).
    + intros H; injection H as _ _ _ <-. cbn. split; [discriminate | exact I].
    + destruct (writeMsg_step_flying _ _ _ _ _ _ Hd Hf Hlt Hstep) as [Hf2 _].
      destruct (writeMsg_loop fuel msg t2 w2) as [[[[r3 t3] w3] evs3] |] eqn:Hrec;
        [| discriminate].
      intros H; injection H as _ _ _ <-.
      cbn [app paced has_read existsb orb writes_before_read]. fold (has_read evs3).
      split; [| exact (IH _ _ _ _ _ _ Hf2 Hrec)].
      intros Hr. change (load (Data m) 5) with (BS m) in Hbs2.
      pose proof (load_bounds (Data m) (J2534_DATA_OFFSET + J2534_PCI_SIZE)) as Hb.
      fold (BS m) in Hb.
      destruct (Z.eq_dec (BS m) 0) as [Hz | Hnz].
      * rewrite (writeMsg_loop_block_unlimited _ _ _ _ _ _ _ _ Hd Hf2 Hs2
                   ltac:(left; lia) Hrec) in Hr. discriminate.
      * split; [lia |]. rewrite <- Hbs2.
        apply (writeMsg_loop_block_counts _ _ _ _ _ _ _ _ Hs2 ltac:(lia) Hrec Hr).
  - (* a Consecutive Frame is written *)
    apply (writeMsg_block_spec _ _ _ _ _ _ _ Hst) in Hstep'
      as (f0 & c & _ & [[-> ->] | (-> & _ & _ & _ & _ & Hcase)]).
    + intros H; injection H as _ _ _ <-. exact I.
    + destruct (writeMsg_step_flying _ _ _ _ _ _ Hd Hf Hlt Hstep) as [Hf2 _].
      destruct (writeMsg_loop fuel msg t2 w2) as [[[[r3 t3] w3] evs3] |] eqn:Hrec;
        [| discriminate].
      intros H; injection H as _ _ _ <-.
      destruct Hcase as [(_ & _ & ->) | (_ & _ & ->)]; cbn [app paced];
        exact (IH _ _ _ _ _ _ Hf2 Hrec).
Qed.

Lemma writeMsg_loop_consecutive (msg : PASSTHRU_MSG) (fuel : nat)
    (t : ISO15765Transfer) (w : World) r t' w' evs :
  mState t <> START_STATE ->
  writeMsg_loop fuel msg t w = Some (r, t', w', evs) ->
  forall f, In f (written evs) -> getFrameName (Data f 4) = ConsecutiveFrame.
Proof.
  intros Hst Hrec f Hin.
  apply In_nth_error in Hin as [k Hk].
  rewrite (writeMsg_loop_sequence _ _ _ _ _ _ _ _ Hst Hrec _ _ Hk).
  unfold cf_pci.
  pose proof (Z.mod_pos_bound (mSequence t + Z.of_nat k) 16 ltac:(lia)) as Hb.
  set (s := (mSequence t + Z.of_nat k) mod 16) in *.
  assert (Hn : s = 0 \/ s = 1 \/ s = 2 \/ s = 3 \/ s = 4 \/ s = 5 \/ s = 6 \/ s = 7 \/
               s = 8 \/ s = 9 \/ s = 10 \/ s = 11 \/ s = 12 \/ s = 13 \/ s = 14 \/
               s = 15) by lia.
  repeat (destruct Hn as [-> | Hn]; [reflexivity |]). now rewrite Hn.
Qed.

(** What [writeMsg] does on the wrapped channel: nothing, or one frame and
    then a paced sequence of reads and Consecutive Frames. *)
Lemma writeMsg_events (msg : PASSTHRU_MSG) (t : ISO15765Transfer) (w : World)
    r t' w' evs :
  DataSize msg < 2 ^ 64 ->
  writeMsg msg t w = Some (r, t', w', evs) ->
  evs = [] \/
  exists f0 c rest,
    evs = EvWrite f0 c :: rest /\ paced rest /\
    (forall f, In f (written rest) -> getFrameName (Data f 4) = ConsecutiveFrame).
Proof.
  intros Hd. unfold writeMsg.
  destruct (Z.ltb_spec (DataSize msg) J2534_DATA_OFFSET) as [Hlt | Hge];
    [intros H; injection H as _ _ _ <-; now left |].
  destruct (negb (TransferState_eqb (mState t) START_STATE)) eqn:Hneg;
    [intros H; injection H as _ _ _ <-; now left |].
  assert (Hst : mState t = START_STATE) by (destruct (mState t); now try discriminate).
  unfold writeMsg_fuel. rewrite writeMsg_loop_S.
  destruct (DataSize msg >? size_t (mOffset t));
    [| intros H; injection H as _ _ _ <-; now left].
  destruct (steady_remaining w) as [Timeout w1].
  destruct (Timeout <=? 0); [intros H; injection H as _ _ _ <-; now left |].
  unfold writeMsg_step. rewrite Hst.
  destruct (writeMsg_start msg t w1) as [[[ok t2] w2] evs2] eqn:Hstart.
  unfold J2534_DATA_OFFSET in Hge.
  apply writeMsg_start_spec in Hstart as (f & c & -> & Hok); [| lia].
  destruct ok.
  - destruct (Hok eq_refl) as (_ & Hs2 & Ho2 & _).
    destruct (writeMsg_loop _ msg t2 w2) as [[[[r3 t3] w3] evs3] |] eqn:Hrec;
      [| discriminate].
    intros H; injection H as _ _ _ <-. right. exists f, c, evs3.
    assert (Hst2 : mState t2 <> START_STATE) by (rewrite Hs2; discriminate).
    split; [reflexivity |]. split.
    + eapply writeMsg_loop_paced; [exact Hd | | exact Hrec]. now split.
    + exact (writeMsg_loop_consecutive _ _ _ _ _ _ _ _ Hst2 Hrec).
  - intros H; injection H as _ _ _ <-. right. exists f, c, [].
    split; [reflexivity |]. split; [exact I | intros ? []].
Qed.

End Pacing.

(** ** Runs of the scenarios *)

(** A single frame with padding: 3 payload bytes to [0x18DA10F1]. *)
Example run_single_frame :
  run_writeMsg msg_single transfer_7E0 world_single
  = Some (Returned true, (START_STATE, 0, 0, 0, 0),
          [(1, 1, [0x18; 0xDA; 0x10; 0xF1; 0x03; 1; 2; 3; 0; 0; 0; 0])]).
Proof. vm_compute. reflexivity. Qed.

(** 20 payload bytes to [0x7E0] with block size 8: First Frame, the read of
    the Flow Control, two Consecutive Frames. *)
Example run_multi_frame :
  run_writeMsg msg_20 transfer_7E0 world_20
  = Some (Returned true, (START_STATE, 0, 0, 0, 0),
          [(1, 1, [0; 0; 0x07; 0xE0; 0x10; 0x14; 0; 1; 2; 3; 4; 5]);
           (2, 1, [0; 0; 0x07; 0xE8; 0x30; 8; 0; 0; 0; 0; 0; 0]);
           (3, 0, []);
           (1, 1, [0; 0; 0x07; 0xE0; 0x21; 6; 7; 8; 9; 10; 11; 12]);
           (3, 0, []);
           (1, 1, [0; 0; 0x07; 0xE0; 0x22; 13; 14; 15; 16; 17; 18; 19]);
           (3, 0, [])]).
Proof. vm_compute. reflexivity. Qed.

(** The same with block size 1: a Flow Control is read before each
    Consecutive Frame. *)
Example run_block_size_1 :
  run_writeMsg msg_20 transfer_7E0 world_20_bs1
  = Some (Returned true, (START_STATE, 0, 0, 0, 0),
          [(1, 1, [0; 0; 0x07; 0xE0; 0x10; 0x14; 0; 1; 2; 3; 4; 5]);
           (2, 1, [0; 0; 0x07; 0xE8; 0x30; 1; 0; 0; 0; 0; 0; 0]);
           (3, 0, []);
           (1, 1, [0; 0; 0x07; 0xE0; 0x21; 6; 7; 8; 9; 10; 11; 12]);
           (2, 1, [0; 0; 0x07; 0xE8; 0x30; 1; 0; 0; 0; 0; 0; 0]);
           (3, 0, []);
           (1, 1, [0; 0; 0x07; 0xE0; 0x22; 13; 14; 15; 16; 17; 18; 19])]).
Proof. vm_compute. reflexivity. Qed.

(** 130 payload bytes with block size 0: one read, and the sequence nibble
    wraps from 15 to 0. *)
Example run_sequence_wraps :
  match @writeMsg sae_j2534 msg_130 transfer_7E0 world_130 with
  | Some (r, _, _, evs) =>
      Some (r, pci_bytes evs,
            length (filter (fun e => match e with EvRead _ _ => true | _ => false end) evs))
  | None => None
  end
  = Some (Returned true,
          [0x10; 0x21; 0x22; 0x23; 0x24; 0x25; 0x26; 0x27; 0x28; 0x29; 0x2A; 0x2B;
           0x2C; 0x2D; 0x2E; 0x2F; 0x20; 0x21; 0x22],
          1%nat).
Proof. vm_compute. reflexivity. Qed.

(** [writeMsgs] goes through the caller's array: the two messages of a batch
    are both written. *)
Example run_writeMsgs_batch :
  run_writeMsgs channel_7E0
    [msg_of 6 0 [0; 0; 0x07; 0xE0; 0x11]; msg_of 6 0 [0; 0; 0x07; 0xE0; 0x22; 0x33]]
    2 (world_of (repeat 5 6) [] (repeat 1 4) cfg_none)
  = Some (2, [[0; 0; 0x07; 0xE0; 0x01; 0x11]; [0; 0; 0x07; 0xE0; 0x02; 0x22; 0x33]]).
Proof. vm_compute. reflexivity. Qed.

(** ** Failure and reset *)

Section Failure.
Context {K : J2534}.

(** When [writeMsg] returns [false], the transfer has been cleared, or the
    return is the one taken when the clock says that no time is left. *)
Lemma writeMsg_loop_false (msg : PASSTHRU_MSG) (fuel : nat) (t : ISO15765Transfer)
    (w : World) t' w' evs :
  writeMsg_loop fuel msg t w = Some (false, t', w', evs) ->
  (mState t' = START_STATE /\ idle t') \/
  ulong (clock w' (Nat.pred (ticks w'))) <= 0.
Proof.
  revert t w t' w' evs.
  induction fuel as [| fuel IH]; intros t w t' w' evs; [discriminate |].
  rewrite writeMsg_loop_S.
  destruct (DataSize msg >? size_t (mOffset t)); [| discriminate].
  unfold steady_remaining.
  destruct (Z.leb_spec (ulong (clock w (ticks w))) 0) as [Hle | Hgt].
  - intros [= <- <- <-]. right. exact Hle.
  - match goal with
    | |- context [writeMsg_step msg t ?w1] =>
        destruct (writeMsg_step msg t w1) as [[[ok t2] w2] evs2] eqn:Hstep
    end.
    destruct ok.
    + destruct (writeMsg_loop fuel msg t2 w2) as [[[[r3 t3] w3] evs3] |] eqn:Hrec;
        [| discriminate].
      intros H; injection H as -> -> -> _.
      exact (IH _ _ _ _ _ Hrec).
    + intros H; injection H as <- _ _. left. now repeat split.
Qed.

Lemma writeMsg_false (msg : PASSTHRU_MSG) (t : ISO15765Transfer) (w : World) t' w' evs :
  writeMsg msg t w = Some (Returned false, t', w', evs) ->
  (mState t' = START_STATE /\ idle t') \/
  ulong (clock w' (Nat.pred (ticks w'))) <= 0.
Proof.
  unfold writeMsg.
  destruct (DataSize msg <? J2534_DATA_OFFSET); [discriminate |].
  destruct (negb (TransferState_eqb (mState t) START_STATE)).
  - intros H; injection H as <- _ _. left. now repeat split.
  - destruct (writeMsg_loop (writeMsg_fuel msg) msg t w) as [[[[r1 t1] w1] evs1] |] eqn:Hl;
      [| discriminate].
    intros H; injection H as -> -> -> _.
    exact (writeMsg_loop_false _ _ _ _ _ _ _ Hl).
Qed.

(** When [readMsg] returns [false], the transfer has been cleared, or the
    message is not complete yet and the transfer waits in [BLOCK_STATE]. *)
Lemma readMsg_false (t : ISO15765Transfer) (in_msg out_msg : PASSTHRU_MSG) (w : World)
    t' out_msg' w' evs :
  readMsg t in_msg out_msg w = (false, t', out_msg', w', evs) ->
  (mState t' = START_STATE /\ idle t') \/
  (mState t' = BLOCK_STATE /\ size_t (mOffset t') < DataSize (mMessage t')).
Proof.
  assert (Hfin : forall t0 o0 w0 evs0,
             mState t0 = BLOCK_STATE ->
             readMsg_finish t0 o0 w0 evs0 = (false, t', out_msg', w', evs) ->
             mState t' = BLOCK_STATE /\ size_t (mOffset t') < DataSize (mMessage t')).
  { intros t0 o0 w0 evs0 Hs. unfold readMsg_finish.
    destruct (Z.geb_spec (size_t (mOffset t0)) (DataSize (mMessage t0))) as [Hge | Hlt];
      [discriminate |].
    intros H; tuple_eq H. subst t'. split; [exact Hs | lia]. }
  assert (Hclr : forall t0 o0 w0 evs0,
             (false, clear t0, o0, w0, evs0) = (false, t', out_msg', w', evs) ->
             mState t' = START_STATE /\ idle t').
  { intros t0 o0 w0 evs0 H; tuple_eq H. subst t'. now repeat split. }
  unfold readMsg.
  destruct (DataSize in_msg <? J2534_DATA_OFFSET); [intros H; left; eapply Hclr, H |].
  destruct (negb (_ =? mPatternPid t)); [intros H; left; eapply Hclr, H |].
  destruct (mState t) eqn:Hst.
  - destruct (getFrameName (Data in_msg J2534_DATA_OFFSET));
      try (intros H; left; eapply Hclr, H).
    + unfold readMsg_finish. fields_simpl.
      pose proof (land_0F_bounds (Data in_msg J2534_DATA_OFFSET)) as Hb.
      unfold size_t, J2534_DATA_OFFSET in *. rewrite Z.mod_small by lia.
      rewrite Z.geb_leb, Z.leb_refl. discriminate.
    + destruct (sendFlowControlMessage _ w) as [[[ok t1] w1] evs1] eqn:Hfc.
      destruct ok; cbn [negb]; [| intros H; left; eapply Hclr, H].
      intros H. right. eapply Hfin; [| exact H]. reflexivity.
  - intros H; left; eapply Hclr, H.
  - destruct (negb (_ =? mSequence t mod 0x10)); [intros H; left; eapply Hclr, H |].
    fields_simpl.
    destruct (ulong (mBs t - 1) =? 0).
    + destruct (sendFlowControlMessage _ w) as [[[ok t1] w1] evs1] eqn:Hfc.
      apply sendFlowControlMessage_keeps in Hfc as (Hst1 & _).
      fields_simpl in Hst1.
      destruct ok; cbn [negb]; [| intros H; left; eapply Hclr, H].
      intros H. right. eapply Hfin; [| exact H]. now rewrite Hst1.
    + intros H. right. eapply Hfin; [| exact H]. exact Hst.
Qed.
End Failure.

(** C3. The deadline falls after the First Frame of a 20-byte payload has
    been written: [writeMsg] returns [false] and the transfer is left as it
    was at that point, in [FLOW_CONTROL_STATE] with offset 10 and sequence 1;
    [clear] has not run. *)
Theorem writeMsg_deadline_returns_without_clear :
  run_writeMsg msg_20 transfer_7E0 world_deadline
  = Some (Returned false, (FLOW_CONTROL_STATE, 10, 1, 0, 0),
          [(1, 1, [0; 0; 0x07; 0xE0; 0x10; 0x14; 0; 1; 2; 3; 4; 5])]).
Proof. vm_compute. reflexivity. Qed.

(** ** The batch read *)

Lemma store_first_tl (pMsg : list PASSTHRU_MSG) (m : PASSTHRU_MSG) :
  tl (store_first pMsg m) = tl pMsg.
Proof. now destruct pMsg. Qed.

(** No run of [readMsgs] stores anything past the first slot of the caller's
    array. *)
Lemma readMsgs_loop_keeps_tail {K : J2534} (fuel : nat) (ch : ChannelISO15765)
    (pMsg : list PASSTHRU_MSG) (NumMsgs i count : Z) (w : World) ch' pMsg' count' w' evs :
  readMsgs_loop fuel ch pMsg NumMsgs i count w = Some (ch', pMsg', count', w', evs) ->
  tl pMsg' = tl pMsg.
Proof.
  revert ch pMsg i count w ch' pMsg' count' w' evs.
  induction fuel as [| fuel IH]; intros ch pMsg i count w ch' pMsg' count' w' evs;
    [discriminate |].
  cbn [readMsgs_loop].
  destruct (i <? NumMsgs); [| now intros [= _ <- _ _ _]].
  destruct (steady_remaining w) as [Timeout w1].
  destruct (Timeout <=? 0); [now intros [= _ <- _ _ _] |].
  destruct (chan_readMsgs w1) as [[[c m] w2] evs1].
  destruct (negb (c =? 1)); [now intros [= _ <- _ _ _] |].
  destruct (steady_remaining w2) as [Timeout2 w3].
  assert (Hcont : forall ch0 pMsg0 i0 count0 w0 evs0,
             tl pMsg0 = tl pMsg ->
             match readMsgs_loop fuel ch0 pMsg0 NumMsgs i0 count0 w0 with
             | Some (ch1, pMsg1, count1, w4, evs'') =>
                 Some (ch1, pMsg1, count1, w4, evs1 ++ evs0 ++ evs'')
             | None => None
             end = Some (ch', pMsg', count', w', evs) ->
             tl pMsg' = tl pMsg).
  { intros ch0 pMsg0 i0 count0 w0 evs0 Htl.
    destruct (readMsgs_loop fuel ch0 pMsg0 NumMsgs i0 count0 w0)
      as [[[[[ch1 pMsg1] count1] w4] evs2] |] eqn:Hrec; [| discriminate].
    intros [= _ <- _ _ _]. rewrite <- Htl. exact (IH _ _ _ _ _ _ _ _ _ _ Hrec). }
  destruct (getTransferByPattern ch m) as [k |]; [| now apply Hcont].
  destruct (nth_error (mMessageFilters ch) k) as [f |]; [| now apply Hcont].
  destruct (readMsg (mTransfer f) m (hd m pMsg) w3) as [[[[done t] out_msg] w4] evs2].
  destruct done; apply Hcont; [apply store_first_tl | reflexivity].
Qed.

(** C2. Two Single Frames arrive for a batch of two slots: both completed
    messages are stored through [pMsg], which is never advanced, so the
    second overwrites the first in slot 0, slot 1 keeps what the caller put
    there, and the count is 2. *)
Theorem readMsgs_stores_every_message_in_first_slot :
  run_readMsgs 3 channel_7E0 [slot_marker; slot_marker] 2 world_two_frames
  = Some ([[0; 0; 0x07; 0xE8; 0xCC]; [9; 9]], 2).
Proof. vm_compute. reflexivity. Qed.

(** The first of the two messages alone, for comparison: it is the one that
    is lost above. *)
Example readMsgs_first_message :
  run_readMsgs 2 channel_7E0 [slot_marker; slot_marker] 1 world_two_frames
  = Some ([[0; 0; 0x07; 0xE8; 0xAA; 0xBB]; [9; 9]], 1).
Proof. vm_compute. reflexivity. Qed.

(** ** The properties at the scenarios *)

Lemma writeMsg_throws_iff_short_witness :
  DataSize msg_short < 4 /\
  exists t' w' evs,
    @writeMsg sae_j2534 msg_short transfer_7E0 world_single
    = Some (Threw ERR_INVALID_MSG, t', w', evs).
Proof.
  assert (H : DataSize msg_short < 4) by (vm_compute; reflexivity).
  split; [exact H |].
  exact (proj2 (proj1 (@writeMsg_throws_iff_short sae_j2534 msg_short transfer_7E0
                         world_single)) H).
Defined.

Lemma writeMsg_single_frame_witness :
  exists t' w' f,
    @writeMsg sae_j2534 msg_single transfer_7E0 world_single
    = Some (Returned true, t', w', [EvWrite f 1]) /\
    mState t' = START_STATE /\
    getFrameName (Data f 4) = SingleFrame /\
    Z.land (Data f 4) 0x0F = 3.
Proof.
  destruct (@writeMsg_single_frame sae_j2534 msg_single transfer_7E0 world_single)
    as (t' & w' & f & Hrun & Hst & _ & Hkind & Hlen & _).
  - reflexivity.
  - repeat split.
  - vm_compute. split; discriminate.
  - vm_compute. discriminate.
  - reflexivity.
  - exists t', w', f. repeat split; assumption.
Defined.

Lemma reachable_transfer_invariant_witness :
  @reachable sae_j2534 transfer_after_deadline /\
  (mState transfer_after_deadline = START_STATE <-> idle transfer_after_deadline).
Proof.
  assert (H : @reachable sae_j2534 transfer_after_deadline).
  { unfold transfer_after_deadline.
    destruct (@writeMsg sae_j2534 msg_20 transfer_7E0 world_deadline)
      as [[[[r t'] w'] evs] |] eqn:E.
    - eapply reach_writeMsg; [| exact E]. apply reach_new.
    - apply reach_new. }
  split; [exact H |].
  exact (@reachable_transfer_invariant sae_j2534 transfer_after_deadline H).
Defined.

Example transfer_after_deadline_fields :
  fields transfer_after_deadline = (FLOW_CONTROL_STATE, 10, 1, 0, 0).
Proof. vm_compute. reflexivity. Qed.

(** ** Further properties of the codec *)

(** X1. A PCI byte built from a frame kind and a low nibble decodes to that kind
    and that nibble. *)
Theorem getFrameName_of_pci (k : PCIFrameName) (x : Z) :
  getFrameName (Z.lor (Z.land (getPci k) 0xF0) (Z.land x 0x0F)) = k /\
  Z.land (Z.lor (Z.land (getPci k) 0xF0) (Z.land x 0x0F)) 0x0F = Z.land x 0x0F.
Proof.
  pose proof (land_0F_bounds x) as Hb.
  rewrite <- (Z2Nat.id (Z.land x 0x0F)) by lia.
  assert (Hm : (Z.to_nat (Z.land x 0x0F) < 16)%nat) by lia.
  revert Hm. generalize (Z.to_nat (Z.land x 0x0F)) as m. intros m Hm.
  do 16 (destruct m as [| m]; [destruct k; split; reflexivity |]).
  lia.
Qed.

Lemma data2pid_testbit (d : buffer) (n : Z) :
  0 <= n ->
  Z.testbit (data2pid d) n
  = if n <? 8 then Z.testbit (d 3) n
    else if n <? 16 then Z.testbit (d 2) (n - 8)
    else if n <? 24 then Z.testbit (d 1) (n - 16)
    else if n <? 29 then Z.testbit (d 0) (n - 24)
    else false.
Proof.
  intros Hn. unfold data2pid.
  rewrite !Z.lor_spec, Z.bits_0, Z.shiftl_0_r.
  rewrite !Z.shiftl_spec, !Z.land_spec by lia.
  change 0x1F with (Z.ones 5). change 0xFF with (Z.ones 8).
  destruct (Z.ltb_spec n 8); [| destruct (Z.ltb_spec n 16);
    [| destruct (Z.ltb_spec n 24); [| destruct (Z.ltb_spec n 29)]]].
  - rewrite !(Z.testbit_neg_r _ (n - _)) by lia.
    rewrite Z.testbit_ones_nonneg by lia.
    replace (n <? 8) with true by (symmetry; apply Z.ltb_lt; lia).
    cbn [andb orb]. reflexivity.
  - rewrite !(Z.testbit_neg_r _ (n - 24)), !(Z.testbit_neg_r _ (n - 16)) by lia.
    rewrite !Z.testbit_ones_nonneg by lia.
    replace (n - 8 <? 8) with true by (symmetry; apply Z.ltb_lt; lia).
    replace (n <? 8) with false by (symmetry; apply Z.ltb_ge; lia).
    cbn [andb orb]. now rewrite ?orb_false_r.
  - rewrite !(Z.testbit_neg_r _ (n - 24)) by lia.
    rewrite !Z.testbit_ones_nonneg by lia.
    replace (n - 16 <? 8) with true by (symmetry; apply Z.ltb_lt; lia).
    replace (n - 8 <? 8) with false by (symmetry; apply Z.ltb_ge; lia).
    replace (n <? 8) with false by (symmetry; apply Z.ltb_ge; lia).
    cbn [andb orb]. now rewrite ?orb_false_r.
  - rewrite !Z.testbit_ones_nonneg by lia.
    replace (n - 24 <? 5) with true by (symmetry; apply Z.ltb_lt; lia).
    replace (n - 16 <? 8) with false by (symmetry; apply Z.ltb_ge; lia).
    replace (n - 8 <? 8) with false by (symmetry; apply Z.ltb_ge; lia).
    replace (n <? 8) with false by (symmetry; apply Z.ltb_ge; lia).
    cbn [andb orb]. now rewrite ?orb_false_r.
  - rewrite !Z.testbit_ones_nonneg by lia.
    replace (n - 24 <? 5) with false by (symmetry; apply Z.ltb_ge; lia).
    replace (n - 16 <? 8) with false by (symmetry; apply Z.ltb_ge; lia).
    replace (n - 8 <? 8) with false by (symmetry; apply Z.ltb_ge; lia).
    replace (n <? 8) with false by (symmetry; apply Z.ltb_ge; lia).
    cbn [andb orb]. reflexivity.
Qed.

Lemma data2pid_ext (d d' : buffer) :
  (forall i, 0 <= i < 4 -> d i = d' i) -> data2pid d = data2pid d'.
Proof.
  intros H. unfold data2pid. now rewrite (H 0), (H 1), (H 2), (H 3) by lia.
Qed.

(** X2. Whatever the four bytes hold, the identifier read from them fits in 29
    bits, and packing it again gives the four bytes back with the three high
    bits of byte 0 cleared. *)
Theorem pid2Data_data2pid (d b : buffer) :
  0 <= data2pid d < 2 ^ 29 /\
  pid2Data (data2pid d) b 0 = Z.land (d 0) 0x1F /\
  pid2Data (data2pid d) b 1 = Z.land (d 1) 0xFF /\
  pid2Data (data2pid d) b 2 = Z.land (d 2) 0xFF /\
  pid2Data (data2pid d) b 3 = Z.land (d 3) 0xFF.
Proof.
  split.
  - assert (H : Z.land (data2pid d) (Z.ones 29) = data2pid d).
    { apply Z.bits_inj'. intros n Hn.
      rewrite Z.land_spec, Z.testbit_ones_nonneg, data2pid_testbit by lia.
      destruct (Z.ltb_spec n 8), (Z.ltb_spec n 16), (Z.ltb_spec n 24), (Z.ltb_spec n 29);
        try lia; now rewrite ?andb_true_r, ?andb_false_r. }
    rewrite Z.land_ones in H by lia. rewrite <- H.
    apply Z.mod_pos_bound. lia.
  - destruct (pid2Data_bytes (data2pid d) b) as (-> & -> & -> & ->).
    change 0x1F with (Z.ones 5). change 0xFF with (Z.ones 8).
    repeat split; apply Z.bits_inj'; intros n Hn;
      rewrite !Z.land_spec, ?Z.shiftr_spec, !Z.testbit_ones_nonneg, data2pid_testbit by lia.
    + destruct (Z.ltb_spec n 5); [| now rewrite !andb_false_r].
      replace (n + 24 <? 8) with false by (symmetry; apply Z.ltb_ge; lia).
      replace (n + 24 <? 16) with false by (symmetry; apply Z.ltb_ge; lia).
      replace (n + 24 <? 24) with false by (symmetry; apply Z.ltb_ge; lia).
      replace (n + 24 <? 29) with true by (symmetry; apply Z.ltb_lt; lia).
      now replace (n + 24 - 24) with n by lia.
    + destruct (Z.ltb_spec n 8); [| now rewrite !andb_false_r].
      replace (n + 16 <? 8) with false by (symmetry; apply Z.ltb_ge; lia).
      replace (n + 16 <? 16) with false by (symmetry; apply Z.ltb_ge; lia).
      replace (n + 16 <? 24) with true by (symmetry; apply Z.ltb_lt; lia).
      now replace (n + 16 - 16) with n by lia.
    + destruct (Z.ltb_spec n 8); [| now rewrite !andb_false_r].
      replace (n + 8 <? 8) with false by (symmetry; apply Z.ltb_ge; lia).
      replace (n + 8 <? 16) with true by (symmetry; apply Z.ltb_lt; lia).
      now replace (n + 8 - 8) with n by lia.
    + destruct (Z.ltb_spec n 8); [reflexivity | now rewrite !andb_false_r].
Qed.

(** X3. Padding starts at the low 32 bits of the data size read as an [int].
    When that start is not negative: the bytes below it are kept, the bytes
    from it up to offset 12 are zeroed, nothing from offset 12 on is touched,
    and the size becomes 12 whatever it was; padding twice is padding once.
    For a size below [2^31] the start is the size itself. *)
Theorem paddingMessage_bytes (m : PASSTHRU_MSG) (j : Z) :
  0 <= to_int (DataSize m) ->
  0 <= j ->
  DataSize (paddingMessage m) = 12 /\
  (j < to_int (DataSize m) -> Data (paddingMessage m) j = Data m j) /\
  (to_int (DataSize m) <= j < 12 -> Data (paddingMessage m) j = 0) /\
  (12 <= j -> Data (paddingMessage m) j = Data m j) /\
  Data (paddingMessage (paddingMessage m)) j = Data (paddingMessage m) j /\
  (0 <= DataSize m < 2 ^ 31 -> to_int (DataSize m) = DataSize m).
Proof.
  intros Hi Hj. unfold paddingMessage, CAN_DATA_SIZE, J2534_DATA_OFFSET.
  cbn [DataSize Data]. change (8 + 4) with 12. change (to_int 12) with 12.
  split; [reflexivity |].
  destruct (Z.leb_spec (to_int (DataSize m)) j), (Z.ltb_spec j 12), (Z.leb_spec 12 j);
    cbn [andb]; repeat split; intros; try reflexivity; try lia;
    apply to_int_small; lia.
Qed.

Lemma paddingMessage_bytes_witness :
  to_int (DataSize msg_wide) = 3 /\
  Data (paddingMessage msg_wide) 2 = 3 /\ Data (paddingMessage msg_wide) 3 = 0.
Proof.
  assert (H : 0 <= to_int (DataSize msg_wide)) by (vm_compute; discriminate).
  destruct (paddingMessage_bytes msg_wide 2 H ltac:(lia)) as (_ & H2 & _).
  destruct (paddingMessage_bytes msg_wide 3 H ltac:(lia)) as (_ & _ & H3 & _).
  split; [reflexivity |]. split.
  - rewrite H2; [reflexivity | vm_compute; reflexivity].
  - apply H3. vm_compute. split; [discriminate | reflexivity].
Defined.

(** ** The frames of a write *)

Section MoreWrite.
Context {K : J2534}.

Lemma can_frame_of_padded (msg : PASSTHRU_MSG) (sz : Z) (dd : buffer) :
  5 <= sz <= 12 ->
  (forall i, 0 <= i < 4 -> dd i = Data msg i) ->
  can_frame_of msg
    (pad_if_requested msg
       (mkMsg CAN 0
              (Z.land (TxFlags msg) (Z.lnot (Z.lor ISO15765_FRAME_PAD ISO15765_ADDR_TYPE)))
              0 sz 0 dd)).
Proof.
  intros Hsz Hpid. unfold can_frame_of, pad_if_requested.
  destruct (Z.eqb_spec (Z.land (TxFlags msg) ISO15765_FRAME_PAD) 0) as [Hz | Hnz].
  - cbn [ProtocolID RxStatus Timestamp ExtraDataIndex TxFlags DataSize Data].
    repeat split; try lia; try contradiction; exact Hpid.
  - unfold paddingMessage, CAN_DATA_SIZE, J2534_DATA_OFFSET.
    cbn [ProtocolID RxStatus Timestamp ExtraDataIndex TxFlags DataSize Data].
    repeat split; try lia.
    intros i Hi. rewrite to_int_small by lia.
    destruct (Z.leb_spec sz i); [lia |]. cbn [andb]. now apply Hpid.
Qed.

Lemma prepared_pid (buf : buffer) (msg : PASSTHRU_MSG) (i : Z) :
  0 <= i < 4 -> memcpy buf 0 (Data msg) 0 4 i = Data msg i.
Proof.
  intros Hi. unfold memcpy.
  destruct (Z.leb_spec 0 i); [| lia]. destruct (Z.ltb_spec i (0 + 4)); [| lia].
  cbn [andb]. f_equal. lia.
Qed.

Lemma can_frame_of_consecutive (msg : PASSTHRU_MSG) (t : ISO15765Transfer) :
  can_frame_of msg (consecutive_frame msg t).
Proof.
  pose proof (getRemainingSize_bounds msg (mOffset t)) as Hsz.
  apply can_frame_of_padded.
  - unfold J2534_DATA_OFFSET, J2534_PCI_SIZE. lia.
  - intros i Hi. cbn [prepareSentMessageHeaders Data].
    unfold memcpy at 1, store, J2534_DATA_OFFSET, J2534_PCI_SIZE.
    destruct (Z.leb_spec (4 + 1) i); [lia |]. cbn [andb].
    destruct (Z.eqb_spec i 4); [lia |]. now apply prepared_pid.
Qed.

Lemma can_frame_of_first (msg : PASSTHRU_MSG) (t : ISO15765Transfer) :
  can_frame_of msg (first_frame msg t).
Proof.
  apply can_frame_of_padded; [lia |].
  intros i Hi. cbn [prepareSentMessageHeaders Data].
  unfold memcpy at 1, store, J2534_DATA_OFFSET, J2534_PCI_SIZE.
  destruct (Z.leb_spec 6 i); [lia |]. cbn [andb].
  destruct (Z.eqb_spec i (4 + 1)); [lia |]. destruct (Z.eqb_spec i 4); [lia |].
  now apply prepared_pid.
Qed.

Lemma can_frame_of_single (msg : PASSTHRU_MSG) (t : ISO15765Transfer) :
  4 <= DataSize msg <= 11 ->
  can_frame_of msg (single_frame msg t).
Proof.
  intros Hsize. apply can_frame_of_padded.
  - unfold J2534_DATA_OFFSET, J2534_PCI_SIZE. lia.
  - intros i Hi. cbn [prepareSentMessageHeaders Data].
    unfold memcpy at 1, store, J2534_DATA_OFFSET, J2534_PCI_SIZE.
    destruct (Z.leb_spec (4 + 1) i); [lia |]. cbn [andb].
    destruct (Z.eqb_spec i 4); [lia |]. now apply prepared_pid.
Qed.

Lemma writeMsg_block_written (msg : PASSTHRU_MSG) (t : ISO15765Transfer) (w : World)
    ok t' w' evs :
  writeMsg_block msg t w = (ok, t', w', evs) ->
  written evs = [consecutive_frame msg t].
Proof.
  unfold writeMsg_block, chan_writeMsgs, consecutive_frame. intros H.
  destruct (negb (tx w (writes w) =? 1)); [tuple_eq H; now subst |].
  match type of H with
  | context [if ?c then _ else _] => destruct c
  end; tuple_eq H; now subst.
Qed.

Lemma writeMsg_flow_control_written (t : ISO15765Transfer) (w : World) ok t' w' evs :
  writeMsg_flow_control t w = (ok, t', w', evs) ->
  written evs = [].
Proof.
  intros H. apply writeMsg_flow_control_spec in H
    as (c & m & [[_ ->] | (_ & _ & -> & _)]); reflexivity.
Qed.

Lemma writeMsg_start_written (msg : PASSTHRU_MSG) (t : ISO15765Transfer) (w : World)
    ok t' w' evs :
  4 <= DataSize msg < 2 ^ 64 ->
  writeMsg_start msg t w = (ok, t', w', evs) ->
  written evs = [if DataSize msg - 4 >? 7 then first_frame msg t else single_frame msg t].
Proof.
  intros Hsize.
  destruct (Z.gtb_spec (DataSize msg - 4) 7) as [Hbig | Hsmall].
  - destruct (writeMsg_start_first msg t w ltac:(lia)) as (c & t1 & w1 & -> & _).
    intros H; tuple_eq H. now subst.
  - unfold writeMsg_start, single_frame, getRemainingSize, chan_writeMsgs.
    fields_simpl. unfold J2534_DATA_OFFSET, J2534_PCI_SIZE.
    rewrite ulong_small by lia. rewrite gtb_false by lia.
    rewrite Z.ltb_irrefl. cbn [PCIFrameName_eqb]. intros H.
    destruct (negb (tx w (writes w) =? 1)); tuple_eq H; now subst.
Qed.

Lemma writeMsg_step_frames (msg : PASSTHRU_MSG) (t : ISO15765Transfer) (w : World)
    ok t' w' evs :
  4 <= DataSize msg < 2 ^ 64 ->
  writeMsg_step msg t w = (ok, t', w', evs) ->
  forall f, In f (written evs) -> can_frame_of msg f.
Proof.
  intros Hsize. unfold writeMsg_step.
  destruct (mState t); intros H f Hin.
  - rewrite (writeMsg_start_written _ _ _ _ _ _ _ Hsize H) in Hin.
    destruct Hin as [<- | []].
    destruct (Z.gtb_spec (DataSize msg - 4) 7);
      [apply can_frame_of_first | apply can_frame_of_single; lia].
  - rewrite (writeMsg_flow_control_written _ _ _ _ _ _ H) in Hin. destruct Hin.
  - rewrite (writeMsg_block_written _ _ _ _ _ _ _ H) in Hin.
    destruct Hin as [<- | []]. apply can_frame_of_consecutive.
Qed.

Lemma writeMsg_loop_frames (msg : PASSTHRU_MSG) (fuel : nat) (t : ISO15765Transfer)
    (w : World) r t' w' evs :
  4 <= DataSize msg < 2 ^ 64 ->
  writeMsg_loop fuel msg t w = Some (r, t', w', evs) ->
  forall f, In f (written evs) -> can_frame_of msg f.
Proof.
  intros Hsize. revert t w r t' w' evs.
  induction fuel as [| fuel IH]; intros t w r t' w' evs; [discriminate |].
  rewrite writeMsg_loop_S.
  destruct (DataSize msg >? size_t (mOffset t));
    [| intros H; injection H as _ _ _ <-; intros f []].
  destruct (steady_remaining w) as [Timeout w1].
  destruct (Timeout <=? 0); [intros H; injection H as _ _ _ <-; intros f [] |].
  destruct (writeMsg_step msg t w1) as [[[ok t2] w2] evs2] eqn:Hstep.
  pose proof (writeMsg_step_frames _ _ _ _ _ _ _ Hsize Hstep) as Hfr.
  destruct ok.
  - destruct (writeMsg_loop fuel msg t2 w2) as [[[[r3 t3] w3] evs3] |] eqn:Hrec;
      [| discriminate].
    intros H; injection H as _ _ _ <-. intros f Hin.
    rewrite written_app in Hin. apply in_app_or in Hin as [Hin | Hin];
      [now apply Hfr | exact (IH _ _ _ _ _ _ Hrec f Hin)].
  - intros H; injection H as _ _ _ <-. exact Hfr.
Qed.

(** X4. Every frame a write hands to the wrapped channel is a CAN frame with the
    identifier of the logical message, the headers of
    [prepareSentMessageHeaders] (the two ISO 15765 transmit flags cleared),
    5 to 12 bytes of data, and exactly 12 when [ISO15765_FRAME_PAD] is set;
    this holds in every state and every world, whether the write succeeds or
    not. *)
Theorem writeMsg_frames_are_can_frames (msg : PASSTHRU_MSG) (t : ISO15765Transfer)
    (w : World) :
  DataSize msg < 2 ^ 64 ->
  exists r t' w' evs,
    writeMsg msg t w = Some (r, t', w', evs) /\
    forall f, In f (written evs) -> can_frame_of msg f.
Proof.
  intros Hd.
  destruct (writeMsg_total msg t w Hd) as [[[[r t'] w'] evs] Hw].
  exists r, t', w', evs. split; [exact Hw |].
  revert Hw. unfold writeMsg.
  destruct (Z.ltb_spec (DataSize msg) J2534_DATA_OFFSET) as [Hlt | Hge];
    [intros H; injection H as _ _ _ <-; intros f [] |].
  destruct (negb (TransferState_eqb (mState t) START_STATE));
    [intros H; injection H as _ _ _ <-; intros f [] |].
  destruct (writeMsg_loop (writeMsg_fuel msg) msg t w) as [[[[r1 t1] w1] evs1] |] eqn:Hl;
    [| discriminate].
  intros H; injection H as _ _ _ <-.
  unfold J2534_DATA_OFFSET in Hge.
  eapply writeMsg_loop_frames; [| exact Hl]. lia.
Qed.
End MoreWrite.

Lemma writeMsg_frames_are_can_frames_witness :
  DataSize msg_20 < 2 ^ 64 /\
  exists r t' w' evs, @writeMsg sae_j2534 msg_20 transfer_7E0 world_20 = Some (r, t', w', evs).
Proof.
  assert (H : DataSize msg_20 < 2 ^ 64) by (vm_compute; reflexivity).
  split; [exact H |].
  destruct (@writeMsg_frames_are_can_frames sae_j2534 msg_20 transfer_7E0 world_20 H)
    as (r & t' & w' & evs & Hrun & _).
  exists r, t', w', evs. exact Hrun.
Defined.

(** ** The First Frame of a long payload *)

Lemma ff_pci_general (n : Z) :
  0 <= n ->
  uint8 (Z.lor (Z.land (getPci FirstFrame) 0xF0) (Z.land (Z.shiftr n 8) 0x0F))
  = 0x10 + (n / 256) mod 16.
Proof.
  intros Hn. rewrite Z.shiftr_div_pow2 by lia. change (2 ^ 8) with 256.
  change 0x0F with (Z.ones 4). rewrite Z.land_ones by lia. change (2 ^ 4) with 16.
  pose proof (Z.mod_pos_bound (n / 256) 16 ltac:(lia)) as Hb.
  set (h := (n / 256) mod 16) in *. clearbody h.
  assert (Hc : h = 0 \/ h = 1 \/ h = 2 \/ h = 3 \/ h = 4 \/ h = 5 \/ h = 6 \/ h = 7 \/
               h = 8 \/ h = 9 \/ h = 10 \/ h = 11 \/ h = 12 \/ h = 13 \/ h = 14 \/ h = 15)
    by lia.
  repeat (destruct Hc as [-> | Hc]; [reflexivity |]). now subst h.
Qed.

Section LongPayload.
Context {K : J2534}.

(** How a write of more than 7 payload bytes by an idle transfer unfolds: the
    First Frame, and then the loop from [FLOW_CONTROL_STATE] at offset 10
    with sequence 1 when the frame has been taken. *)
Lemma writeMsg_multi_run (msg : PASSTHRU_MSG) (t : ISO15765Transfer) (w : World) :
  mState t = START_STATE -> idle t ->
  12 <= DataSize msg < 2 ^ 64 ->
  ulong (clock w (ticks w)) <> 0 ->
  (exists c t1 w1,
      c <> 1 /\
      writeMsg msg t w = Some (Returned false, clear t1, w1, [EvWrite (first_frame msg t) c])) \/
  (exists t1 w1 r t3 w3 evs3,
      mState t1 = FLOW_CONTROL_STATE /\ mOffset t1 = 10 /\ mSequence t1 = 1 /\
      writeMsg_loop (S (Z.to_nat (2 * DataSize msg))) msg t1 w1 = Some (r, t3, w3, evs3) /\
      writeMsg msg t w = Some (Returned r, t3, w3, EvWrite (first_frame msg t) 1 :: evs3)).
Proof.
  intros Hst (Hoff & Hseq & _) Hsize Hclock.
  unfold writeMsg, J2534_DATA_OFFSET.
  replace (DataSize msg <? 4) with false by (symmetry; apply Z.ltb_ge; lia).
  rewrite Hst. fields_simpl.
  unfold writeMsg_fuel. rewrite writeMsg_loop_S, Hoff.
  change (size_t 0) with 0. rewrite gtb_true by lia.
  unfold steady_remaining.
  assert (0 <= ulong (clock w (ticks w))) by (apply Z.mod_pos_bound; lia).
  replace (ulong (clock w (ticks w)) <=? 0) with false
    by (symmetry; apply Z.leb_gt; lia).
  unfold writeMsg_step. rewrite Hst.
  match goal with
  | |- context [writeMsg_start msg t ?w1] =>
      destruct (writeMsg_start_first msg t w1 ltac:(lia))
        as (c & t1 & w2 & -> & Hq1 & Ho1 & Hs1)
  end.
  destruct (Z.eqb_spec c 1) as [-> | Hc].
  - specialize (Hs1 eq_refl). right.
    destruct (writeMsg_loop_total msg (S (Z.to_nat (2 * DataSize msg))) t1 w2)
      as [[[[r t3] w3] evs3] Hrec].
    + lia.
    + split; [rewrite Hs1; discriminate | lia].
    + unfold turns_left. rewrite Hs1, Ho1. lia.
    + rewrite Hrec. exists t1, w2, r, t3, w3, evs3.
      rewrite Hq1, Hseq. repeat split; auto.
  - left. exists c, t1, w2. now split.
Qed.

(** X5. A payload of 8 bytes or more, written by an idle transfer before the
    deadline: the first event is the write of a First Frame whose 12-bit
    length field is the payload length modulo 4096; a payload of 4096 bytes
    or more is announced shorter than it is. *)
Theorem writeMsg_first_frame_length (msg : PASSTHRU_MSG) (t : ISO15765Transfer)
    (w : World) :
  mState t = START_STATE -> idle t ->
  12 <= DataSize msg < 2 ^ 64 ->
  ulong (clock w (ticks w)) <> 0 ->
  exists r t' w' ff c rest,
    writeMsg msg t w = Some (Returned r, t', w', EvWrite ff c :: rest) /\
    getFrameName (Data ff 4) = FirstFrame /\
    Z.land (Data ff 4) 0x0F * 256 + Data ff 5 = (DataSize msg - 4) mod 4096.
Proof.
  intros Hst Hidle Hsize Hclock.
  set (n := DataSize msg - 4).
  assert (H4 : Data (first_frame msg t) 4 = 0x10 + (n / 256) mod 16).
  { unfold first_frame. rewrite pad_if_requested_low by (fields_simpl; lia).
    fields_simpl. unfold memcpy, store, J2534_DATA_OFFSET, J2534_PCI_SIZE.
    change (6 <=? 4) with false. change (4 =? 4 + 1) with false. cbn [andb].
    rewrite Z.eqb_refl. fold n. apply ff_pci_general. subst n. lia. }
  assert (H5 : Data (first_frame msg t) 5 = n mod 256).
  { unfold first_frame. rewrite pad_if_requested_low by (fields_simpl; lia).
    fields_simpl. unfold memcpy, store, J2534_DATA_OFFSET, J2534_PCI_SIZE.
    change (6 <=? 5) with false. change (5 =? 4 + 1) with true. cbn [andb].
    fold n. apply uint8_land_FF_mod. }
  assert (Hshape : getFrameName (Data (first_frame msg t) 4) = FirstFrame /\
                   Z.land (Data (first_frame msg t) 4) 0x0F * 256
                   + Data (first_frame msg t) 5 = n mod 4096).
  { rewrite H4, H5.
    destruct (first_frame_kind ((n / 256) mod 16)) as [-> ->];
      [apply Z.mod_pos_bound; lia |].
    split; [reflexivity |].
    change 4096 with (256 * 16). rewrite Z.rem_mul_r by lia. lia. }
  destruct (writeMsg_multi_run msg t w Hst Hidle Hsize Hclock)
    as [(c & t1 & w1 & _ & Hrun) | (t1 & w1 & r & t3 & w3 & evs3 & _ & _ & _ & _ & Hrun)].
  - exists false, (clear t1), w1, (first_frame msg t), c, []. now split.
  - exists r, t3, w3, (first_frame msg t), 1, evs3. now split.
Qed.
End LongPayload.

Lemma writeMsg_first_frame_length_witness :
  exists r t' w' ff c rest,
    @writeMsg sae_j2534 msg_130 transfer_7E0 world_130
    = Some (Returned r, t', w', EvWrite ff c :: rest) /\
    Z.land (Data ff 4) 0x0F * 256 + Data ff 5 = 130.
Proof.
  destruct (@writeMsg_first_frame_length sae_j2534 msg_130 transfer_7E0 world_130)
    as (r & t' & w' & ff & c & rest & Hrun & _ & Hlen).
  - reflexivity.
  - repeat split.
  - vm_compute. split; [discriminate | reflexivity].
  - vm_compute. discriminate.
  - exists r, t', w', ff, c, rest. split; [exact Hrun | exact Hlen].
Defined.

(** ** Segmentation and reassembly *)

Lemma small_testbit (l n : Z) : 0 <= l < 2 ^ 8 -> 8 <= n -> Z.testbit l n = false.
Proof.
  intros Hl Hn. apply Z.testbit_false; [lia |].
  rewrite Z.div_small; [reflexivity |].
  split; [lia |]. apply Z.lt_le_trans with (2 ^ 8); [lia |].
  apply Z.pow_le_mono_r; lia.
Qed.

Lemma lor_shiftl_8 (h l : Z) :
  0 <= l < 256 -> Z.lor (Z.shiftl h 8) (Z.land l 0xFF) = h * 256 + l.
Proof.
  intros Hl.
  change 0xFF with (Z.ones 8). rewrite Z.land_ones, Z.mod_small by lia.
  rewrite Z.shiftl_mul_pow2 by lia.
  assert (Hd : Z.land (h * 2 ^ 8) l = 0).
  { apply Z.bits_inj'. intros n Hn. rewrite Z.land_spec, Z.bits_0.
    destruct (Z.lt_ge_cases n 8).
    - now rewrite Z.mul_pow2_bits_low.
    - rewrite (small_testbit l n) by (change (2 ^ 8) with 256; lia).
      apply andb_false_r. }
  rewrite <- Z.lxor_lor, <- Z.add_nocarry_lxor by exact Hd.
  reflexivity.
Qed.

Lemma cf_pci_nibble (s : Z) :
  getFrameName (cf_pci s) = ConsecutiveFrame /\ Z.land (cf_pci s) 0x0F = s mod 16.
Proof.
  unfold cf_pci.
  pose proof (Z.mod_pos_bound s 16 ltac:(lia)) as Hb.
  assert (Hn : s mod 16 = 0 \/ s mod 16 = 1 \/ s mod 16 = 2 \/ s mod 16 = 3 \/
               s mod 16 = 4 \/ s mod 16 = 5 \/ s mod 16 = 6 \/ s mod 16 = 7 \/
               s mod 16 = 8 \/ s mod 16 = 9 \/ s mod 16 = 10 \/ s mod 16 = 11 \/
               s mod 16 = 12 \/ s mod 16 = 13 \/ s mod 16 = 14 \/ s mod 16 = 15)
    by lia.
  repeat (destruct Hn as [-> | Hn]; [split; reflexivity |]).
  rewrite Hn. split; reflexivity.
Qed.

Section Segmentation.
Context {K : J2534}.

Lemma consecutive_frame_shape (msg : PASSTHRU_MSG) (t : ISO15765Transfer) :
  Data (consecutive_frame msg t) 4 = cf_pci (mSequence t) /\
  4 <= DataSize (consecutive_frame msg t) /\
  (forall i, 0 <= i < 4 -> Data (consecutive_frame msg t) i = Data msg i) /\
  (forall i, 0 <= i < getRemainingSize msg (mOffset t) ->
             Data (consecutive_frame msg t) (5 + i) = Data msg (mOffset t + i)).
Proof.
  pose proof (getRemainingSize_bounds msg (mOffset t)) as Hsz.
  destruct (can_frame_of_consecutive msg t) as (_ & _ & _ & _ & _ & Hds & _ & Hpid).
  split; [| split; [lia | split; [exact Hpid |]]].
  - unfold consecutive_frame.
    rewrite pad_if_requested_low
      by (fields_simpl; unfold J2534_DATA_OFFSET, J2534_PCI_SIZE; lia).
    fields_simpl. unfold memcpy, store, J2534_DATA_OFFSET, J2534_PCI_SIZE.
    change (4 + 1 <=? 4) with false. cbn [andb]. rewrite Z.eqb_refl.
    apply cf_pci_spec.
  - intros i Hi. unfold consecutive_frame.
    rewrite pad_if_requested_low
      by (fields_simpl; unfold J2534_DATA_OFFSET, J2534_PCI_SIZE; lia).
    fields_simpl. unfold memcpy, J2534_DATA_OFFSET, J2534_PCI_SIZE.
    destruct (Z.leb_spec (4 + 1) (5 + i)); [| lia].
    destruct (Z.ltb_spec (5 + i) (4 + 1 + getRemainingSize msg (mOffset t))); [| lia].
    cbn [andb]. f_equal. lia.
Qed.

(** When the loop of [writeMsg] returns [true], the frames it has written
    carry the message from the current offset to its end. *)
Lemma writeMsg_loop_segmented (msg : PASSTHRU_MSG) (fuel : nat) (t : ISO15765Transfer)
    (w : World) t' w' evs :
  DataSize msg < 2 ^ 64 -> flying msg t ->
  writeMsg_loop fuel msg t w = Some (true, t', w', evs) ->
  segmented msg (mOffset t) (mSequence t) (written evs).
Proof.
  intros Hd. revert t w t' w' evs.
  induction fuel as [| fuel IH]; intros t w t' w' evs Hf; [discriminate |].
  rewrite writeMsg_loop_S.
  assert (Hcast : size_t (mOffset t) = mOffset t).
  { destruct Hf as [_ Ho]. unfold size_t. apply Z.mod_small. lia. }
  rewrite Hcast.
  destruct (Z.gtb_spec (DataSize msg) (mOffset t)) as [Hlt | Hge];
    [| intros H; injection H as _ _ <-; exact Hge].
  destruct (steady_remaining w) as [Timeout w1].
  destruct (Timeout <=? 0); [discriminate |].
  destruct (writeMsg_step msg t w1) as [[[ok t2] w2] evs2] eqn:Hstep.
  destruct ok; [| discriminate].
  destruct (writeMsg_step_flying _ _ _ _ _ _ Hd Hf Hlt Hstep) as [Hf2 _].
  destruct (writeMsg_loop fuel msg t2 w2) as [[[[r3 t3] w3] evs3] |] eqn:Hrec;
    [| discriminate].
  intros H; injection H as -> _ _ <-.
  specialize (IH _ _ _ _ _ Hf2 Hrec).
  rewrite written_app.
  unfold writeMsg_step in Hstep.
  destruct (mState t) eqn:Hst; [destruct Hf as [Hf _]; contradiction | |].
  - rewrite (writeMsg_flow_control_written _ _ _ _ _ _ Hstep).
    apply writeMsg_flow_control_spec in Hstep
      as (c & m & [[? _] | (_ & _ & _ & _ & Ho2 & Hq2 & _)]); [discriminate |].
    rewrite <- Ho2, <- Hq2. exact IH.
  - rewrite (writeMsg_block_written _ _ _ _ _ _ _ Hstep).
    apply (writeMsg_block_spec _ _ _ _ _ _ _ Hst) in Hstep
      as (f0 & c & _ & [[? _] | (_ & _ & Ho2 & Hq2 & _)]); [discriminate |].
    destruct (consecutive_frame_shape msg t) as (Hpci & Hds & Hpid & Hpay).
    cbn [app segmented]. rewrite <- Ho2, <- Hq2.
    repeat split; assumption.
Qed.

Lemma sendFlowControlMessage_taken (t : ISO15765Transfer) (w : World) :
  takes_all w ->
  exists t' w' evs,
    sendFlowControlMessage t w = (true, t', w', evs) /\ takes_all w' /\
    mState t' = mState t /\ mOffset t' = mOffset t /\ mMessage t' = mMessage t /\
    mSequence t' = mSequence t /\ mMaskPid t' = mMaskPid t /\
    mPatternPid t' = mPatternPid t.
Proof.
  intros Htx. unfold sendFlowControlMessage, chan_writeMsgs.
  rewrite (Htx (writes w)). cbn [Z.eqb Pos.eqb negb].
  do 3 eexists. split; [reflexivity |]. split; [exact Htx |]. now repeat split.
Qed.

(** A Consecutive Frame with the expected counter, received in
    [BLOCK_STATE]: its bytes go to the buffer at the offset. *)
Lemma readMsg_consecutive (t : ISO15765Transfer) (in_msg out_msg : PASSTHRU_MSG)
    (w : World) :
  mState t = BLOCK_STATE ->
  4 <= DataSize in_msg ->
  Z.land (data2pid (Data in_msg)) (mMaskPid t) = mPatternPid t ->
  Z.land (Data in_msg 4) 0x0F = mSequence t mod 16 ->
  takes_all w ->
  exists t2 w2 evs,
    readMsg t in_msg out_msg w = readMsg_finish t2 out_msg w2 evs /\
    takes_all w2 /\
    mState t2 = BLOCK_STATE /\
    mOffset t2 = mOffset t + getRemainingSize (mMessage t) (mOffset t) /\
    mSequence t2 = uint32 (mSequence t + 1) /\
    mMaskPid t2 = mMaskPid t /\ mPatternPid t2 = mPatternPid t /\
    mMessage t2
    = set_Data (mMessage t)
        (memcpy (Data (mMessage t)) (mOffset t) (Data in_msg) 5
                (getRemainingSize (mMessage t) (mOffset t))).
Proof.
  intros Hst Hsize Hpid Hseq Htx. unfold readMsg, J2534_DATA_OFFSET, J2534_PCI_SIZE.
  replace (DataSize in_msg <? 4) with false by (symmetry; apply Z.ltb_ge; lia).
  rewrite Hpid, Z.eqb_refl, Hst. cbn [negb].
  change (Z.land (Data in_msg 4) 0xF) with (Z.land (Data in_msg 4) 0x0F).
  rewrite Hseq. change 0x10 with 16. rewrite Z.eqb_refl. cbn [negb].
  fields_simpl.
  destruct (ulong (mBs t - 1) =? 0).
  - match goal with
    | |- context [sendFlowControlMessage ?t0 w] =>
        destruct (sendFlowControlMessage_taken t0 w Htx)
          as (t2 & w2 & evs & -> & Htx2 & Hs2 & Ho2 & Hm2 & Hq2 & Hk2 & Hp2)
    end.
    fields_simpl in Hs2. fields_simpl in Ho2. fields_simpl in Hm2.
    fields_simpl in Hq2. fields_simpl in Hk2. fields_simpl in Hp2.
    cbn [negb]. exists t2, w2, evs.
    rewrite Hs2, Ho2, Hm2, Hq2, Hk2, Hp2. now repeat split.
  - do 3 eexists. split; [reflexivity |]. fields_simpl. now repeat split.
Qed.
End Segmentation.

Section Reassembly.
Context {K : J2534}.

Lemma getRemainingSize_same (m m' : PASSTHRU_MSG) (o : Z) :
  DataSize m = DataSize m' -> getRemainingSize m o = getRemainingSize m' o.
Proof. intros H. unfold getRemainingSize. now rewrite H. Qed.

(** A transfer in the middle of a reassembly that has the first [o] bytes of
    [msg], fed with the Consecutive Frames of the rest, delivers [msg]. *)
Lemma readMsg_frames_segmented (msg : PASSTHRU_MSG) (frames : list PASSTHRU_MSG) :
  DataSize msg < 2 ^ 64 ->
  forall (t : ISO15765Transfer) (o s : Z) (out_msg : PASSTHRU_MSG) (w : World),
    0 <= o < DataSize msg ->
    mState t = BLOCK_STATE -> mOffset t = o -> mSequence t = s ->
    DataSize (mMessage t) = DataSize msg ->
    Z.land (data2pid (Data msg)) (mMaskPid t) = mPatternPid t ->
    (forall i, 0 <= i < o -> Data (mMessage t) i = Data msg i) ->
    takes_all w ->
    segmented msg o s frames ->
    exists t' out' w' evs,
      readMsg_frames t frames out_msg w = (true, t', out', w', evs) /\
      mState t' = START_STATE /\ idle t' /\
      DataSize out' = DataSize msg /\
      ProtocolID out' = ProtocolID (mMessage t) /\
      RxStatus out' = RxStatus (mMessage t) /\
      (forall i, 0 <= i < DataSize msg -> Data out' i = Data msg i).
Proof.
  intros Hd. induction frames as [| f rest IH];
    intros t o s out_msg w Ho Hst Hoff Hseq Hsize Hpid Hbuf Htx Hseg.
  - cbn in Hseg. lia.
  - destruct Hseg as (_ & Hpci & Hfs & Hfpid & Hpay & Hrest).
    destruct (cf_pci_nibble s) as [_ Hnib].
    destruct (readMsg_consecutive t f out_msg w Hst Hfs)
      as (t2 & w2 & evs & Hread & Htx2 & Hs2 & Ho2 & Hq2 & Hk2 & Hp2 & Hm2).
    { rewrite (data2pid_ext (Data f) (Data msg) Hfpid). exact Hpid. }
    { rewrite Hpci, Hnib, Hseq. reflexivity. }
    { exact Htx. }
    rewrite Hoff, (getRemainingSize_same _ msg o Hsize) in Ho2.
    rewrite Hoff, (getRemainingSize_same _ msg o Hsize) in Hm2.
    pose proof (getRemainingSize_inside msg o Ho Hd) as Hsz.
    assert (Hbuf2 : forall i, 0 <= i < mOffset t2 -> Data (mMessage t2) i = Data msg i).
    { intros i Hi. rewrite Hm2. cbn [set_Data Data]. unfold memcpy.
      destruct (Z.leb_spec o i); cbn [andb].
      - destruct (Z.ltb_spec i (o + getRemainingSize msg o)); [| lia].
        rewrite (Hpay (i - o)) by lia. f_equal. lia.
      - apply Hbuf. lia. }
    assert (Hsize2 : DataSize (mMessage t2) = DataSize msg)
      by (rewrite Hm2; exact Hsize).
    cbn [readMsg_frames]. rewrite Hread. unfold readMsg_finish.
    rewrite Hsize2. unfold size_t. rewrite Z.mod_small by lia.
    destruct (Z.geb_spec (mOffset t2) (DataSize msg)) as [Hge | Hlt].
    + exists (clear t2), (mMessage t2), w2, evs.
      split; [reflexivity |]. split; [reflexivity |]. split; [now repeat split |].
      split; [exact Hsize2 |]. rewrite Hm2. cbn [set_Data ProtocolID RxStatus].
      split; [reflexivity |]. split; [reflexivity |].
      intros i Hi. rewrite <- Hm2. apply Hbuf2. lia.
    + destruct (IH t2 (mOffset t2) (uint32 (s + 1)) out_msg w2)
        as (t' & out' & w' & evs' & Hrun & Hst' & Hidle' & Hds' & Hproto & Hrx & Hdata);
        try assumption; try reflexivity.
      * lia.
      * now rewrite Hq2, Hseq.
      * now rewrite Hk2, Hp2.
      * rewrite Ho2. exact Hrest.
      * rewrite Hrun. exists t', out', w', (evs ++ evs').
        split; [reflexivity |]. rewrite Hm2 in Hproto, Hrx.
        cbn [set_Data ProtocolID RxStatus] in Hproto, Hrx.
        split; [exact Hst' |]. split; [exact Hidle' |]. now repeat split.
Qed.

(** X6. A Single Frame received by an idle transfer is a complete message at
    once: the low nibble of the PCI byte, whatever it is up to 15, is taken
    as the payload length, nothing is written to the wrapped channel and the
    transfer stays idle. *)
Theorem readMsg_single_frame (t : ISO15765Transfer) (in_msg out_msg : PASSTHRU_MSG)
    (w : World) :
  mState t = START_STATE ->
  4 <= DataSize in_msg ->
  Z.land (data2pid (Data in_msg)) (mMaskPid t) = mPatternPid t ->
  getFrameName (Data in_msg 4) = SingleFrame ->
  exists t' out',
    readMsg t in_msg out_msg w = (true, t', out', w, []) /\
    mState t' = START_STATE /\ idle t' /\
    ProtocolID out' = ISO15765 /\ RxStatus out' = RxStatus in_msg /\
    DataSize out' = 4 + Z.land (Data in_msg 4) 0x0F /\
    (forall i, 0 <= i < 4 -> Data out' i = Data in_msg i) /\
    (forall i, 0 <= i < Z.land (Data in_msg 4) 0x0F ->
               Data out' (4 + i) = Data in_msg (5 + i)).
Proof.
  intros Hst Hsize Hpid Hkind. unfold readMsg, J2534_DATA_OFFSET, J2534_PCI_SIZE.
  replace (DataSize in_msg <? 4) with false by (symmetry; apply Z.ltb_ge; lia).
  rewrite Hpid, Z.eqb_refl, Hst, Hkind. cbn [negb].
  unfold readMsg_finish. fields_simpl.
  pose proof (land_0F_bounds (Data in_msg 4)) as Hb.
  unfold size_t. rewrite Z.mod_small by lia.
  rewrite Z.geb_leb, Z.leb_refl.
  do 2 eexists. split; [reflexivity |]. fields_simpl.
  split; [reflexivity |]. split; [now repeat split |].
  split; [reflexivity |]. split; [reflexivity |]. split; [reflexivity |]. split.
  - intros i Hi. unfold memcpy at 1.
    destruct (Z.leb_spec 4 i); [lia |]. cbn [andb].
    cbn [prepareReceivedMessageHeaders Data]. now apply prepared_pid.
  - intros i Hi. unfold memcpy at 1.
    destruct (Z.leb_spec 4 (4 + i)); [| lia].
    destruct (Z.ltb_spec (4 + i) (4 + Z.land (Data in_msg 4) 15)); [| lia].
    cbn [andb]. f_equal. lia.
Qed.

(** A First Frame received by an idle transfer: a Flow Control is sent, and
    the transfer waits for the rest with the first 6 payload bytes, at
    offset 10 and sequence 1. *)
Lemma readMsg_first_frame (t : ISO15765Transfer) (in_msg out_msg : PASSTHRU_MSG)
    (w : World) (n : Z) :
  mState t = START_STATE -> idle t ->
  4 <= DataSize in_msg ->
  Z.land (data2pid (Data in_msg)) (mMaskPid t) = mPatternPid t ->
  getFrameName (Data in_msg 4) = FirstFrame ->
  Z.land (Data in_msg 4) 0x0F * 256 + Data in_msg 5 = n ->
  0 <= Data in_msg 5 < 256 ->
  6 < n < 2 ^ 64 - 4 ->
  takes_all w ->
  exists t2 w2 evs,
    readMsg t in_msg out_msg w = (false, t2, out_msg, w2, evs) /\
    takes_all w2 /\
    mState t2 = BLOCK_STATE /\ mOffset t2 = 10 /\ mSequence t2 = 1 /\
    mMaskPid t2 = mMaskPid t /\ mPatternPid t2 = mPatternPid t /\
    DataSize (mMessage t2) = 4 + n /\
    ProtocolID (mMessage t2) = ISO15765 /\
    RxStatus (mMessage t2) = RxStatus in_msg /\
    (forall i, 0 <= i < 4 -> Data (mMessage t2) i = Data in_msg i) /\
    (forall i, 0 <= i < 6 -> Data (mMessage t2) (4 + i) = Data in_msg (6 + i)).
Proof.
  intros Hst (_ & Hseq & _) Hsize Hpid Hkind Hlen Hlow Hn Htx.
  unfold readMsg, J2534_DATA_OFFSET, J2534_PCI_SIZE, J2534_LENGTH_SIZE, CAN_DATA_SIZE.
  replace (DataSize in_msg <? 4) with false by (symmetry; apply Z.ltb_ge; lia).
  rewrite Hpid, Z.eqb_refl, Hst, Hkind. cbn [negb].
  change (4 + 1) with 5. rewrite (lor_shiftl_8 _ _ Hlow), Hlen.
  match goal with
  | |- context [sendFlowControlMessage ?t0 w] =>
      destruct (sendFlowControlMessage_taken t0 w Htx)
        as (t2 & w2 & evs & -> & Htx2 & Hs2 & Ho2 & Hm2 & Hq2 & Hk2 & Hp2)
  end.
  fields_simpl in Hs2. fields_simpl in Ho2. fields_simpl in Hm2.
  fields_simpl in Hq2. fields_simpl in Hk2. fields_simpl in Hp2.
  cbn [negb]. unfold readMsg_finish. fields_simpl.
  rewrite Ho2, Hm2. fields_simpl.
  change (size_t (4 + (8 - 1 - 1))) with 10.
  replace (10 >=? 4 + n) with false by (symmetry; rewrite Z.geb_leb; apply Z.leb_gt; lia).
  exists (set_mState t2 BLOCK_STATE), w2, evs.
  split; [reflexivity |]. split; [exact Htx2 |]. fields_simpl.
  rewrite Ho2, Hm2, Hq2, Hk2, Hp2, Hseq. fields_simpl.
  do 8 (split; [reflexivity |]). split.
  - intros i Hi. unfold memcpy at 1.
    destruct (Z.leb_spec 4 i); [lia |]. cbn [andb].
    cbn [prepareReceivedMessageHeaders Data]. now apply prepared_pid.
  - intros i Hi. unfold memcpy at 1.
    destruct (Z.leb_spec 4 (4 + i)); [| lia].
    destruct (Z.ltb_spec (4 + i) (4 + (8 - 1 - 1))); [| lia].
    cbn [andb]. f_equal. lia.
Qed.
End Reassembly.

(** ** A write at one end, read at the other *)

Section RoundTrip.
Context {K : J2534}.

Lemma single_frame_shape (msg : PASSTHRU_MSG) (t : ISO15765Transfer) :
  0 <= DataSize msg - 4 <= 7 ->
  getFrameName (Data (single_frame msg t) 4) = SingleFrame /\
  Z.land (Data (single_frame msg t) 4) 0x0F = DataSize msg - 4 /\
  4 <= DataSize (single_frame msg t) /\
  (forall i, 0 <= i < 4 -> Data (single_frame msg t) i = Data msg i) /\
  (forall i, 0 <= i < DataSize msg - 4 ->
             Data (single_frame msg t) (5 + i) = Data msg (4 + i)).
Proof.
  intros Hsize.
  destruct (can_frame_of_single msg t ltac:(lia)) as (_ & _ & _ & _ & _ & Hds & _ & Hpid).
  assert (Hpci : Data (single_frame msg t) 4 = DataSize msg - 4).
  { unfold single_frame.
    rewrite pad_if_requested_low
      by (cbn [DataSize]; unfold J2534_DATA_OFFSET, J2534_PCI_SIZE; lia).
    cbn [Data]. unfold memcpy, store, J2534_DATA_OFFSET, J2534_PCI_SIZE.
    change (4 + 1 <=? 4) with false. cbn [andb]. rewrite Z.eqb_refl.
    now apply small_nibble. }
  rewrite Hpci.
  assert (Hn : DataSize msg - 4 = 0 \/ DataSize msg - 4 = 1 \/ DataSize msg - 4 = 2 \/
               DataSize msg - 4 = 3 \/ DataSize msg - 4 = 4 \/ DataSize msg - 4 = 5 \/
               DataSize msg - 4 = 6 \/ DataSize msg - 4 = 7) by lia.
  split; [| split; [| split; [lia | split; [exact Hpid |]]]].
  - repeat (destruct Hn as [-> | Hn]; [reflexivity |]). now rewrite Hn.
  - repeat (destruct Hn as [-> | Hn]; [reflexivity |]). now rewrite Hn.
  - intros i Hi. unfold single_frame.
    rewrite pad_if_requested_low
      by (cbn [DataSize]; unfold J2534_DATA_OFFSET, J2534_PCI_SIZE; lia).
    cbn [Data]. unfold memcpy, J2534_DATA_OFFSET, J2534_PCI_SIZE.
    destruct (Z.leb_spec (4 + 1) (5 + i)); [| lia].
    destruct (Z.ltb_spec (5 + i) (4 + 1 + (DataSize msg - 4))); [| lia].
    cbn [andb]. f_equal. lia.
Qed.

(** The frames of a write that has returned [true]. *)
Lemma writeMsg_true_frames (msg : PASSTHRU_MSG) (t : ISO15765Transfer) (w : World)
    t' w' evs :
  mState t = START_STATE -> idle t ->
  4 <= DataSize msg < 2 ^ 64 ->
  writeMsg msg t w = Some (Returned true, t', w', evs) ->
  (DataSize msg - 4 <= 7 /\ written evs = [single_frame msg t]) \/
  (7 < DataSize msg - 4 /\
   exists cfs, written evs = first_frame msg t :: cfs /\ segmented msg 10 1 cfs).
Proof.
  intros Hst Hidle Hsize.
  destruct (Z.eq_dec (ulong (clock w (ticks w))) 0) as [Hz | Hclock].
  { (* no time left at the first turn: the write returns false *)
    unfold writeMsg, J2534_DATA_OFFSET.
    replace (DataSize msg <? 4) with false by (symmetry; apply Z.ltb_ge; lia).
    rewrite Hst. fields_simpl. unfold writeMsg_fuel. rewrite writeMsg_loop_S.
    destruct Hidle as (-> & _). change (size_t 0) with 0. rewrite gtb_true by lia.
    unfold steady_remaining. rewrite Hz. cbn [Z.leb Z.compare]. discriminate. }
  destruct (Z.le_gt_cases (DataSize msg - 4) 7) as [Hsmall | Hbig].
  - intros Hrun. left. split; [exact Hsmall |].
    revert Hrun. unfold writeMsg, J2534_DATA_OFFSET.
    replace (DataSize msg <? 4) with false by (symmetry; apply Z.ltb_ge; lia).
    rewrite Hst. fields_simpl. unfold writeMsg_fuel. rewrite writeMsg_loop_S.
    destruct Hidle as (-> & _). change (size_t 0) with 0. rewrite gtb_true by lia.
    destruct (steady_remaining w) as [Timeout w1].
    destruct (Timeout <=? 0); [discriminate |].
    unfold writeMsg_step. rewrite Hst.
    destruct (writeMsg_start msg t w1) as [[[ok t2] w2] evs2] eqn:Hstart.
    pose proof (writeMsg_start_written _ _ _ _ _ _ _ Hsize Hstart) as Hwr.
    rewrite gtb_false in Hwr by lia.
    destruct ok; [| discriminate].
    destruct (Z.eq_dec (tx w1 (writes w1)) 1) as [Htx | Htx].
    + destruct (writeMsg_start_single msg t w1 ltac:(lia) Htx) as [w3 Hs].
      rewrite Hs in Hstart. tuple_eq Hstart. subst t2.
      rewrite writeMsg_loop_S. fields_simpl.
      unfold size_t. rewrite Z.mod_small by lia. rewrite gtb_false by lia.
      intros H; injection H as _ _ <-. rewrite written_app, Hwr. reflexivity.
    + exfalso. revert Hstart. unfold writeMsg_start, chan_writeMsgs.
      destruct (PCIFrameName_eqb _ FirstFrame);
        destruct (Z.eqb_spec (tx w1 (writes w1)) 1); try contradiction; cbn [negb];
        intros H; tuple_eq H; discriminate.
  - intros Hrun. right. split; [lia |].
    destruct (writeMsg_multi_run msg t w Hst Hidle ltac:(lia) Hclock)
      as [(c & t1 & w1 & _ & Hrun') |
          (t1 & w1 & r & t3 & w3 & evs3 & Hs1 & Ho1 & Hq1 & Hloop & Hrun')];
      rewrite Hrun' in Hrun; [discriminate |].
    injection Hrun as -> _ _ <-.
    exists (written evs3). split; [reflexivity |].
    rewrite <- Ho1, <- Hq1.
    eapply writeMsg_loop_segmented; [| | exact Hloop]; [lia |].
    split; [rewrite Hs1; discriminate | lia].
Qed.

(** X7. A logical message of up to 4095 payload bytes that [writeMsg] has sent
    with success, read back frame by frame by an idle transfer whose filter
    matches its identifier and whose wrapped channel takes the Flow Control
    frames: [readMsg] delivers a message of protocol [ISO15765] with the same
    size and the same bytes, and the receiving transfer is idle again. *)
Theorem write_then_read_round_trip (msg : PASSTHRU_MSG)
    (ts : ISO15765Transfer) (ws : World) ts' ws' evs
    (tr : ISO15765Transfer) (out_msg : PASSTHRU_MSG) (wr : World) :
  mState ts = START_STATE -> idle ts ->
  0 <= DataSize msg - 4 <= 4095 ->
  writeMsg msg ts ws = Some (Returned true, ts', ws', evs) ->
  mState tr = START_STATE -> idle tr ->
  Z.land (data2pid (Data msg)) (mMaskPid tr) = mPatternPid tr ->
  takes_all wr ->
  exists tr' out' wr' evs',
    readMsg_frames tr (written evs) out_msg wr = (true, tr', out', wr', evs') /\
    mState tr' = START_STATE /\ idle tr' /\
    ProtocolID out' = ISO15765 /\
    DataSize out' = DataSize msg /\
    (forall i, 0 <= i < DataSize msg -> Data out' i = Data msg i).
Proof.
  intros Hst Hidle Hsize Hrun Hstr Hidler Hpid Htx.
  destruct (writeMsg_true_frames msg ts ws ts' ws' evs Hst Hidle ltac:(lia) Hrun)
    as [[Hsmall ->] | (Hbig & cfs & -> & Hseg)].
  - (* one Single Frame *)
    destruct (single_frame_shape msg ts ltac:(lia)) as (Hk & Hn & Hds & Hfpid & Hpay).
    destruct (readMsg_single_frame tr (single_frame msg ts) out_msg wr Hstr Hds)
      as (tr' & out' & Hread & Hs' & Hi' & Hproto & _ & Hsz & Hopid & Hopay).
    { rewrite (data2pid_ext _ (Data msg) Hfpid). exact Hpid. }
    { exact Hk. }
    cbn [readMsg_frames]. rewrite Hread.
    exists tr', out', wr, []. split; [reflexivity |].
    split; [exact Hs' |]. split; [exact Hi' |]. split; [exact Hproto |].
    rewrite Hn in Hsz, Hopay. split; [lia |].
    intros i Hi. destruct (Z.lt_ge_cases i 4).
    + rewrite Hopid by lia. apply Hfpid. lia.
    + replace i with (4 + (i - 4)) by lia.
      rewrite Hopay by lia. apply Hpay. lia.
  - (* a First Frame and Consecutive Frames *)
    destruct (first_frame_shape msg ts ltac:(lia)) as (Hk & Hlen & Hlow & Hpay & Hfpid).
    destruct (can_frame_of_first msg ts) as (_ & _ & _ & _ & _ & Hds & _).
    destruct (readMsg_first_frame tr (first_frame msg ts) out_msg wr (DataSize msg - 4)
                Hstr Hidler)
      as (t2 & w2 & evs2 & Hread & Htx2 & Hs2 & Ho2 & Hq2 & Hk2 & Hp2 & Hsz2 & Hproto2
          & _ & Hbpid & Hbpay); try assumption; try lia.
    { rewrite (data2pid_ext _ (Data msg) Hfpid). exact Hpid. }
    destruct (readMsg_frames_segmented msg cfs ltac:(lia) t2 10 1 out_msg w2)
      as (tr' & out' & wr' & evs' & Hrest & Hs' & Hi' & Hsz & Hproto & _ & Hdata);
      try assumption; try lia.
    { now rewrite Hk2, Hp2. }
    { intros i Hi. destruct (Z.lt_ge_cases i 4).
      - rewrite Hbpid by lia. apply Hfpid. lia.
      - replace i with (4 + (i - 4)) by lia.
        rewrite Hbpay by lia. apply Hpay. lia. }
    cbn [readMsg_frames]. rewrite Hread, Hrest.
    exists tr', out', wr', (evs2 ++ evs'). split; [reflexivity |].
    split; [exact Hs' |]. split; [exact Hi' |].
    split; [now rewrite Hproto |]. split; [exact Hsz | exact Hdata].
Qed.
End RoundTrip.

Lemma write_then_read_round_trip_witness :
  exists tr' out' wr' evs' evs,
    readMsg_frames (K := sae_j2534) transfer_ecu (written evs) blank_msg
      (world_taking cfg_none) = (true, tr', out', wr', evs') /\
    DataSize out' = 24.
Proof.
  destruct (@writeMsg sae_j2534 msg_20 transfer_7E0 world_20)
    as [[[[r ts'] ws'] evs] |] eqn:E.
  - assert (Hr : r = Returned true).
    { assert (H : option_map (fun x => fst (fst (fst x)))
                    (@writeMsg sae_j2534 msg_20 transfer_7E0 world_20)
                  = Some (Returned true)) by (vm_compute; reflexivity).
      rewrite E in H. now injection H. }
    subst r.
    destruct (@write_then_read_round_trip sae_j2534 msg_20 transfer_7E0 world_20
                ts' ws' evs transfer_ecu blank_msg (world_taking cfg_none))
      as (tr' & out' & wr' & evs' & Hrun & _ & _ & _ & Hsz & _).
    + reflexivity.
    + repeat split.
    + vm_compute. split; discriminate.
    + exact E.
    + reflexivity.
    + repeat split.
    + vm_compute. reflexivity.
    + intros k. reflexivity.
    + exists tr', out', wr', evs', evs. split; [exact Hrun | exact Hsz].
  - exfalso.
    assert (H : @writeMsg sae_j2534 msg_20 transfer_7E0 world_20 <> None)
      by (vm_compute; discriminate).
    contradiction.
Defined.

(** ** Writes to a peer that answers *)

Lemma frames_left_step (msg : PASSTHRU_MSG) (o : Z) :
  DataSize msg < 2 ^ 64 -> 4 <= o < DataSize msg ->
  frames_left msg (o + getRemainingSize msg o) = frames_left msg o - 1 /\
  1 <= frames_left msg o <= DataSize msg.
Proof.
  intros Hd Ho. unfold frames_left, getRemainingSize. rewrite ulong_small by lia.
  destruct (Z.gtb_spec (DataSize msg - o) 7) as [Hbig | Hsmall].
  - replace (DataSize msg - (o + 7) + 6) with (DataSize msg - o + 6 + (-1) * 7) by lia.
    rewrite Z.div_add by lia.
    pose proof (Z.div_le_lower_bound (DataSize msg - o + 6) 7 1 ltac:(lia) ltac:(lia)).
    pose proof (Z.div_le_upper_bound (DataSize msg - o + 6) 7 (DataSize msg)
                  ltac:(lia) ltac:(lia)).
    lia.
  - replace (DataSize msg - (o + (DataSize msg - o)) + 6) with 6 by lia.
    change (6 / 7) with 0.
    assert (H1 : (DataSize msg - o + 6) / 7 = 1).
    { symmetry. apply (Z.div_unique _ 7 1 (DataSize msg - o - 1)); lia. }
    rewrite H1. lia.
Qed.

Lemma frames_left_end (msg : PASSTHRU_MSG) : frames_left msg (DataSize msg) = 0.
Proof. unfold frames_left. now replace (DataSize msg - DataSize msg + 6) with 6 by lia. Qed.

Lemma paced_by_block_size_at (pre : list Event) c fc post :
  paced_by_block_size (pre ++ EvRead c fc :: post) ->
  if (BS fc =? 0) || (Z.of_nat (length (written post)) <=? BS fc)
  then has_read post = false
  else has_read post = true /\ writes_before_read post = BS fc.
Proof.
  induction pre as [| e pre IH]; cbn [app paced_by_block_size].
  - now intros [H _].
  - destruct e; [exact IH | intros [_ H]; now apply IH | exact IH].
Qed.

Lemma has_read_split (evs : list Event) :
  has_read evs = true ->
  exists mid c m post, evs = mid ++ EvRead c m :: post /\ has_read mid = false.
Proof.
  induction evs as [| e evs IH]; [discriminate |].
  destruct e as [f c | c m | ms]; cbn [has_read existsb orb]; fold (has_read evs).
  - intros H. destruct (IH H) as (mid & c' & m & post & -> & Hmid).
    exists (EvWrite f c :: mid), c', m, post. split; [reflexivity | exact Hmid].
  - intros _. exists [], c, m, evs. split; reflexivity.
  - intros H. destruct (IH H) as (mid & c' & m & post & -> & Hmid).
    exists (EvSleep ms :: mid), c', m, post. split; [reflexivity | exact Hmid].
Qed.

Section Cooperative.
Context {K : J2534}.

(** The turn in [START_STATE] for a payload of 8 bytes or more, with the
    world it leaves. *)
Lemma writeMsg_start_first_env (msg : PASSTHRU_MSG) (t : ISO15765Transfer) (w : World) :
  12 <= DataSize msg < 2 ^ 64 ->
  exists t1,
    writeMsg_start msg t w
    = (tx w (writes w) =? 1, t1,
       mkWorld (clock w) (ticks w) (rx w) (reads w) (tx w) (S (writes w))
               (mChannelConfiguration w),
       [EvWrite (first_frame msg t) (tx w (writes w))]) /\
    mSequence t1 = uint32 (mSequence t + 1) /\ mOffset t1 = 10 /\ mBs t1 = mBs t /\
    mMaskPid t1 = mMaskPid t /\ mPatternPid t1 = mPatternPid t /\
    (tx w (writes w) = 1 -> mState t1 = FLOW_CONTROL_STATE).
Proof.
  intros Hsize. unfold writeMsg_start, first_frame, getRemainingSize, chan_writeMsgs.
  fields_simpl. unfold J2534_DATA_OFFSET, CAN_DATA_SIZE, J2534_PCI_SIZE, J2534_LENGTH_SIZE.
  rewrite ulong_small by lia. rewrite gtb_true by lia.
  replace (7 <? DataSize msg - 4) with true by (symmetry; apply Z.ltb_lt; lia).
  cbn [PCIFrameName_eqb]. fields_simpl.
  destruct (Z.eqb_spec (tx w (writes w)) 1) as [Hc | Hc]; cbn [negb];
    eexists; (split; [reflexivity |]); fields_simpl; repeat split;
    try reflexivity; try (intros; contradiction).
Qed.

(** The turn in [FLOW_CONTROL_STATE] begins with a read of the wrapped
    channel; unless what is read is a Flow Control for the transfer, the turn
    fails with nothing else done. *)
Lemma writeMsg_flow_control_reads (t : ISO15765Transfer) (w : World) :
  exists ok t' tail,
    writeMsg_flow_control t w
    = (ok, t',
       mkWorld (clock w) (ticks w) (rx w) (S (reads w)) (tx w) (writes w)
               (mChannelConfiguration w),
       EvRead (fst (rx w (reads w))) (snd (rx w (reads w))) :: tail) /\
    (~ flow_control_for t (rx w (reads w)) -> ok = false /\ tail = []) /\
    (flow_control_for t (rx w (reads w)) ->
     ok = true /\ tail = [EvSleep (load (Data (snd (rx w (reads w)))) 6)] /\
     mState t' = BLOCK_STATE /\ mOffset t' = mOffset t /\ mSequence t' = mSequence t /\
     mBs t' = BS (snd (rx w (reads w))) /\
     mMaskPid t' = mMaskPid t /\ mPatternPid t' = mPatternPid t).
Proof.
  unfold writeMsg_flow_control, chan_readMsgs, flow_control_for, BS,
    J2534_DATA_OFFSET, J2534_PCI_SIZE, J2534_BS_SIZE.
  destruct (rx w (reads w)) as [c m]. cbn [fst snd]. fields_simpl.
  destruct (Z.eqb_spec c 1) as [Hc | Hc]; cbn [negb].
  2:{ do 3 eexists. split; [reflexivity |]. split; [intros _; now split |].
      intros (? & _). contradiction. }
  subst c.
  destruct (Z.ltb_spec (DataSize m) 4) as [Hs | Hs].
  { do 3 eexists. split; [reflexivity |]. split; [intros _; now split |].
    intros (_ & ? & _). lia. }
  destruct (Z.eqb_spec (Z.land (data2pid (Data m)) (mMaskPid t)) (mPatternPid t))
    as [Hp | Hp]; cbn [negb].
  2:{ do 3 eexists. split; [reflexivity |]. split; [intros _; now split |].
      intros (_ & _ & ? & _). contradiction. }
  destruct (getFrameName (Data m 4)) eqn:Hk; cbn [PCIFrameName_eqb negb];
    do 3 eexists; (split; [reflexivity |]);
    try (split; [intros _; now split | intros (_ & _ & _ & ?); discriminate]).
  split; [intros H; exfalso; apply H; now repeat split |].
  intros _. fields_simpl. now repeat split.
Qed.

(** The turn in [BLOCK_STATE] when the wrapped channel takes the frame. *)
Lemma writeMsg_block_taken (msg : PASSTHRU_MSG) (t : ISO15765Transfer) (w : World) :
  mState t = BLOCK_STATE -> tx w (writes w) = 1 ->
  exists t' tail,
    writeMsg_block msg t w
    = (true, t',
       mkWorld (clock w) (ticks w) (rx w) (reads w) (tx w) (S (writes w))
               (mChannelConfiguration w),
       EvWrite (consecutive_frame msg t) 1 :: tail) /\
    mOffset t' = mOffset t + getRemainingSize msg (mOffset t) /\
    mSequence t' = uint32 (mSequence t + 1) /\
    mBs t' = ulong (mBs t - 1) /\
    mMaskPid t' = mMaskPid t /\ mPatternPid t' = mPatternPid t /\
    ((mBs t' = 0 /\ mState t' = FLOW_CONTROL_STATE /\ tail = []) \/
     (mBs t' <> 0 /\ mState t' = BLOCK_STATE /\ tail = [EvSleep (mStmin t)])).
Proof.
  intros Hst Hc. unfold writeMsg_block, consecutive_frame, chan_writeMsgs.
  rewrite Hc. cbn [Z.eqb Pos.eqb negb]. fields_simpl.
  destruct (Z.eqb_spec (ulong (mBs t - 1)) 0) as [Hb | Hb]; fields_simpl;
    rewrite ?Hst; fields_simpl; do 2 eexists; (split; [reflexivity |]); fields_simpl;
    (do 5 (split; [reflexivity |])); [left | right]; now repeat split.
Qed.

Lemma cooperative_same (t t' : ISO15765Transfer) (w w' : World) :
  cooperative t w ->
  mMaskPid t' = mMaskPid t -> mPatternPid t' = mPatternPid t ->
  clock w' = clock w -> rx w' = rx w -> tx w' = tx w ->
  cooperative t' w'.
Proof.
  intros (Hclock & Htx & Hrx) Hm Hp Hc Hr Ht.
  unfold cooperative, takes_all, flow_control_for. rewrite Hm, Hp, Hc, Hr, Ht.
  split; [exact Hclock |]. split; [exact Htx | exact Hrx].
Qed.

(** The loop of [writeMsg] with a peer that answers: it goes through, sends
    every frame that is left and reads the wrapped channel exactly when a
    block is used up with frames still to send. *)
Lemma writeMsg_loop_cooperative (msg : PASSTHRU_MSG) (fuel : nat) :
  DataSize msg < 2 ^ 64 ->
  forall (t : ISO15765Transfer) (w : World),
    flying msg t -> cooperative t w ->
    turns_left msg t < Z.of_nat fuel -> 0 <= mBs t < 2 ^ 64 ->
    exists t' w' evs,
      writeMsg_loop fuel msg t w = Some (true, t', w', evs) /\
      mState t' = START_STATE /\ idle t' /\
      Z.of_nat (length (written evs)) = frames_left msg (mOffset t) /\
      paced_by_block_size evs /\
      (DataSize msg <= mOffset t -> evs = []) /\
      (mState t = FLOW_CONTROL_STATE -> mOffset t < DataSize msg ->
       exists rest, evs = EvRead 1 (snd (rx w (reads w))) :: rest) /\
      (mState t = BLOCK_STATE ->
       if (mBs t =? 0) || (frames_left msg (mOffset t) <=? mBs t)
       then has_read evs = false
       else has_read evs = true /\ writes_before_read evs = mBs t).
Proof.
  intros Hd. induction fuel as [| fuel IH]; intros t w Hf Hco Hm Hbs.
  - destruct Hf as [_ Ho]. unfold turns_left in Hm. destruct (mState t); lia.
  - rewrite writeMsg_loop_S.
    assert (Hcast : size_t (mOffset t) = mOffset t).
    { destruct Hf as [_ Ho]. unfold size_t. apply Z.mod_small. lia. }
    rewrite Hcast.
    destruct (Z.gtb_spec (DataSize msg) (mOffset t)) as [Hlt | Hge].
    2:{ assert (Ho : mOffset t = DataSize msg) by (destruct Hf as [_ Ho]; lia).
        exists (clear t), w, []. split; [reflexivity |]. split; [reflexivity |].
        split; [now repeat split |].
        split; [rewrite Ho, frames_left_end; reflexivity |].
        split; [exact I |]. split; [reflexivity |]. split; [intros; lia |].
        intros _. rewrite Ho, frames_left_end.
        replace (0 <=? mBs t) with true by (symmetry; apply Z.leb_le; lia).
        now rewrite orb_true_r. }
    pose proof Hco as (Hclock & Htx & Hrx).
    unfold steady_remaining.
    assert (0 <= ulong (clock w (ticks w))) by (apply Z.mod_pos_bound; lia).
    pose proof (Hclock (ticks w)).
    replace (ulong (clock w (ticks w)) <=? 0) with false
      by (symmetry; apply Z.leb_gt; lia).
    destruct (frames_left_step msg (mOffset t) Hd ltac:(destruct Hf; lia))
      as (Hstep & Hpos).
    unfold writeMsg_step.
    destruct (mState t) eqn:Hst; [destruct Hf as [Hf _]; contradiction | |].
    + (* a Flow Control is read *)
      match goal with
      | |- context [writeMsg_flow_control t ?w1] =>
          destruct (writeMsg_flow_control_reads t w1) as (ok & t2 & tail & -> & _ & Hgood)
      end.
      cbn [clock ticks rx reads tx writes mChannelConfiguration] in *.
      destruct (Hgood (Hrx (reads w)))
        as (-> & -> & Hs2 & Ho2 & Hq2 & Hb2 & Hmask & Hpat).
      destruct (Hrx (reads w)) as (Hone & _). rewrite Hone.
      match goal with
      | |- context [writeMsg_loop fuel msg t2 ?w2] =>
          destruct (IH t2 w2) as (t' & w' & evs & -> & Hs' & Hi' & Hlen & Hp & _ & _ & Hblk)
      end.
      * destruct Hf as [_ Ho]. split; [rewrite Hs2; discriminate | lia].
      * now apply (cooperative_same t t2 w).
      * unfold turns_left in Hm |- *. rewrite Hst in Hm. rewrite Hs2, Ho2. lia.
      * rewrite Hb2. pose proof (load_bounds (Data (snd (rx w (reads w)))) 5).
        unfold BS, J2534_DATA_OFFSET, J2534_PCI_SIZE. change (4 + 1) with 5. lia.
      * do 3 eexists. split; [reflexivity |]. split; [exact Hs' |]. split; [exact Hi' |].
        cbn [app]. specialize (Hblk Hs2). rewrite Hb2, Ho2 in Hblk. rewrite Ho2 in Hlen.
        split; [exact Hlen |].
        split.
        { cbn [paced_by_block_size]. split; [| exact Hp].
          change (written (EvSleep _ :: evs)) with (written evs).
          cbn [has_read existsb orb writes_before_read]. fold (has_read evs).
          rewrite Hlen. exact Hblk. }
        split; [intros; lia |]. split; [| discriminate].
        intros _ _. eexists. reflexivity.
    + (* a Consecutive Frame is written *)
      match goal with
      | |- context [writeMsg_block msg t ?w1] =>
          destruct (writeMsg_block_taken msg t w1 Hst (Htx _))
            as (t2 & tail & -> & Ho2 & Hq2 & Hb2 & Hmask & Hpat & Hcase)
      end.
      cbn [clock ticks rx reads tx writes mChannelConfiguration] in *.
      pose proof (getRemainingSize_inside msg (mOffset t) ltac:(destruct Hf; lia) Hd)
        as Hsz.
      assert (Hf2 : flying msg t2).
      { destruct Hf as [_ Ho]. split; [| lia].
        destruct Hcase as [(_ & -> & _) | (_ & -> & _)]; discriminate. }
      assert (Hrange : 0 <= mBs t2 < 2 ^ 64)
        by (rewrite Hb2; apply Z.mod_pos_bound; lia).
      match goal with
      | |- context [writeMsg_loop fuel msg t2 ?w2] =>
          destruct (IH t2 w2)
            as (t' & w' & evs & -> & Hs' & Hi' & Hlen & Hp & Hend & Hfc & Hblk)
      end.
      * exact Hf2.
      * now apply (cooperative_same t t2 w).
      * unfold turns_left in Hm |- *. rewrite Hst in Hm. rewrite Ho2.
        destruct (mState t2); lia.
      * exact Hrange.
      * do 3 eexists. split; [reflexivity |]. split; [exact Hs' |]. split; [exact Hi' |].
        rewrite Ho2, Hstep in Hlen.
        assert (Hw : written ((EvWrite (consecutive_frame msg t) 1 :: tail) ++ evs)
                     = consecutive_frame msg t :: written evs)
          by (destruct Hcase as [(_ & _ & ->) | (_ & _ & ->)]; reflexivity).
        assert (Hr : has_read ((EvWrite (consecutive_frame msg t) 1 :: tail) ++ evs)
                     = has_read evs)
          by (destruct Hcase as [(_ & _ & ->) | (_ & _ & ->)]; reflexivity).
        assert (Hc : writes_before_read
                       ((EvWrite (consecutive_frame msg t) 1 :: tail) ++ evs)
                     = 1 + writes_before_read evs)
          by (destruct Hcase as [(_ & _ & ->) | (_ & _ & ->)]; reflexivity).
        split; [rewrite Hw; cbn [length]; lia |].
        split; [destruct Hcase as [(_ & _ & ->) | (_ & _ & ->)]; exact Hp |].
        split; [intros; lia |]. split; [discriminate |].
        intros _. rewrite Hr, Hc. rewrite Ho2, Hstep in Hblk.
        destruct (Z.eqb_spec (mBs t) 0) as [Hz | Hnz]; cbn [orb].
        { (* no limit: the counter wraps *)
          assert (Hb2' : mBs t2 = 2 ^ 64 - 1) by (rewrite Hb2, Hz; reflexivity).
          destruct Hcase as [(Hz2 & _) | (_ & Hs2 & _)]; [lia |].
          specialize (Hblk Hs2). rewrite Hb2' in Hblk.
          change (2 ^ 64 - 1 =? 0) with false in Hblk. cbn [orb] in Hblk.
          replace (frames_left msg (mOffset t) - 1 <=? 2 ^ 64 - 1) with true in Hblk
            by (symmetry; apply Z.leb_le; lia).
          exact Hblk. }
        assert (Hb2' : mBs t2 = mBs t - 1) by (rewrite Hb2; apply ulong_small; lia).
        destruct Hcase as [(Hz2 & Hs2 & _) | (Hnz2 & Hs2 & _)].
        { (* the block is used up *)
          assert (Hone : mBs t = 1) by lia. rewrite Hone.
          destruct (Z.leb_spec (frames_left msg (mOffset t)) 1) as [Hle | Hgt].
          - rewrite Hend; [reflexivity |].
            assert (Hfl : frames_left msg (mOffset t2) = 0) by (rewrite Ho2, Hstep; lia).
            destruct (Z.le_gt_cases (DataSize msg) (mOffset t2)) as [Hdone | Hmore];
              [exact Hdone |].
            destruct (frames_left_step msg (mOffset t2) Hd
                        ltac:(destruct Hf2; lia)) as (_ & Hp2). lia.
          - assert (Hmore : mOffset t2 < DataSize msg).
            { destruct (Z.le_gt_cases (DataSize msg) (mOffset t2)) as [Hdone | Hmore];
                [| lia].
              assert (mOffset t2 = DataSize msg) by (destruct Hf2; lia).
              assert (frames_left msg (mOffset t2) = 0)
                by (rewrite H1; apply frames_left_end).
              rewrite Ho2, Hstep in H2. lia. }
            destruct (Hfc Hs2 Hmore) as (rest & ->). split; reflexivity. }
        { specialize (Hblk Hs2). rewrite Hb2' in Hblk.
          replace (mBs t - 1 =? 0) with false in Hblk
            by (symmetry; apply Z.eqb_neq; lia).
          cbn [orb] in Hblk.
          destruct (Z.leb_spec (frames_left msg (mOffset t)) (mBs t)) as [Hle | Hgt].
          - replace (frames_left msg (mOffset t) - 1 <=? mBs t - 1) with true in Hblk
              by (symmetry; apply Z.leb_le; lia).
            exact Hblk.
          - replace (frames_left msg (mOffset t) - 1 <=? mBs t - 1) with false in Hblk
              by (symmetry; apply Z.leb_gt; lia).
            destruct Hblk as [Hr' Hc']. split; [exact Hr' | lia]. }
Qed.
(** The first turn of a write of 8 payload bytes or more: the First Frame
    goes to the wrapped channel, and when it is taken the loop goes on from
    [FLOW_CONTROL_STATE] at offset 10 with sequence counter 1. *)
Lemma writeMsg_first_turns (msg : PASSTHRU_MSG) (t : ISO15765Transfer) (w : World) :
  mState t = START_STATE -> idle t ->
  12 <= DataSize msg < 2 ^ 64 ->
  ulong (clock w (ticks w)) <> 0 ->
  (tx w (writes w) <> 1 /\
   exists t1 w1,
     writeMsg msg t w
     = Some (Returned false, clear t1, w1,
             [EvWrite (first_frame msg t) (tx w (writes w))])) \/
  (tx w (writes w) = 1 /\
   exists t1 r t3 w3 evs3,
     mState t1 = FLOW_CONTROL_STATE /\ mOffset t1 = 10 /\ mSequence t1 = 1 /\
     mBs t1 = 0 /\ mMaskPid t1 = mMaskPid t /\ mPatternPid t1 = mPatternPid t /\
     writeMsg_loop (S (Z.to_nat (2 * DataSize msg))) msg t1
       (mkWorld (clock w) (S (ticks w)) (rx w) (reads w) (tx w) (S (writes w))
                (mChannelConfiguration w))
     = Some (r, t3, w3, evs3) /\
     writeMsg msg t w = Some (Returned r, t3, w3, EvWrite (first_frame msg t) 1 :: evs3)).
Proof.
  intros Hst (Hoff & Hseq & Hbs & _) Hsize Hclock.
  unfold writeMsg, J2534_DATA_OFFSET.
  replace (DataSize msg <? 4) with false by (symmetry; apply Z.ltb_ge; lia).
  rewrite Hst. fields_simpl.
  unfold writeMsg_fuel. rewrite writeMsg_loop_S, Hoff.
  change (size_t 0) with 0. rewrite gtb_true by lia.
  unfold steady_remaining.
  assert (0 <= ulong (clock w (ticks w))) by (apply Z.mod_pos_bound; lia).
  replace (ulong (clock w (ticks w)) <=? 0) with false
    by (symmetry; apply Z.leb_gt; lia).
  unfold writeMsg_step. rewrite Hst.
  match goal with
  | |- context [writeMsg_start msg t ?w1] =>
      destruct (writeMsg_start_first_env msg t w1 ltac:(lia))
        as (t1 & -> & Hq1 & Ho1 & Hb1 & Hmask & Hpat & Hs1)
  end.
  cbn [clock ticks rx reads tx writes mChannelConfiguration] in *.
  destruct (Z.eqb_spec (tx w (writes w)) 1) as [Hc | Hc].
  - specialize (Hs1 Hc). right. split; [exact Hc |]. rewrite Hc.
    match goal with
    | |- context [writeMsg_loop ?fuel msg t1 ?w2] =>
        destruct (writeMsg_loop_total msg fuel t1 w2) as [[[[r t3] w3] evs3] Hrec]
    end.
    + lia.
    + split; [rewrite Hs1; discriminate | lia].
    + unfold turns_left. rewrite Hs1, Ho1. lia.
    + rewrite Hrec. exists t1, r, t3, w3, evs3.
      rewrite Hq1, Hseq, Hb1, Hbs. repeat split; auto.
  - left. split; [exact Hc |]. do 2 eexists. reflexivity.
Qed.

(** A transfer that waits for a Flow Control with something left to send and
    time left reads the wrapped channel next; unless what it reads is a Flow
    Control for it, the write ends there with [false]. *)
Lemma writeMsg_loop_awaits_read (msg : PASSTHRU_MSG) (fuel : nat) (t : ISO15765Transfer)
    (w : World) r t' w' evs :
  mState t = FLOW_CONTROL_STATE ->
  0 <= mOffset t < DataSize msg -> DataSize msg < 2 ^ 64 ->
  ulong (clock w (ticks w)) <> 0 ->
  writeMsg_loop fuel msg t w = Some (r, t', w', evs) ->
  exists rest,
    evs = EvRead (fst (rx w (reads w))) (snd (rx w (reads w))) :: rest /\
    (~ flow_control_for t (rx w (reads w)) -> rest = [] /\ r = false).
Proof.
  intros Hst Ho Hd Hclock. destruct fuel as [| fuel]; [discriminate |].
  rewrite writeMsg_loop_S.
  assert (Hcast : size_t (mOffset t) = mOffset t)
    by (unfold size_t; apply Z.mod_small; lia).
  rewrite Hcast, gtb_true by lia.
  unfold steady_remaining.
  assert (0 <= ulong (clock w (ticks w))) by (apply Z.mod_pos_bound; lia).
  replace (ulong (clock w (ticks w)) <=? 0) with false
    by (symmetry; apply Z.leb_gt; lia).
  unfold writeMsg_step. rewrite Hst.
  match goal with
  | |- context [writeMsg_flow_control t ?w1] =>
      destruct (writeMsg_flow_control_reads t w1) as (ok & t2 & tail & -> & Hbad & _)
  end.
  cbn [clock ticks rx reads tx writes mChannelConfiguration] in *.
  destruct ok.
  - match goal with
    | |- context [writeMsg_loop fuel msg t2 ?w2] =>
        destruct (writeMsg_loop fuel msg t2 w2) as [[[[r3 t3] w3] evs3] |]
    end; [| discriminate].
    intros H1; injection H1 as _ _ _ <-. eexists. split; [reflexivity |].
    intros Hn. destruct (Hbad Hn). discriminate.
  - intros H1; injection H1 as <- _ _ <-. exists tail. split; [reflexivity |].
    intros Hn. destruct (Hbad Hn) as [_ ->]. now split.
Qed.

(** A write of 8 payload bytes or more to a peer that answers. *)
Lemma writeMsg_cooperative (msg : PASSTHRU_MSG) (t : ISO15765Transfer) (w : World) :
  mState t = START_STATE -> idle t ->
  12 <= DataSize msg < 2 ^ 64 ->
  cooperative t w ->
  exists t' w' rest,
    writeMsg msg t w
    = Some (Returned true, t', w',
            EvWrite (first_frame msg t) 1 :: EvRead 1 (snd (rx w (reads w))) :: rest) /\
    mState t' = START_STATE /\ idle t' /\
    Z.of_nat (length (written rest)) = frames_left msg 10 /\
    paced_by_block_size (EvRead 1 (snd (rx w (reads w))) :: rest) /\
    segmented msg 10 1 (written rest).
Proof.
  intros Hst Hidle Hsize Hco.
  pose proof Hco as (Hclock & Htx & Hrx).
  destruct (writeMsg_first_turns msg t w Hst Hidle Hsize (Hclock _))
    as [[Hc _] | (_ & t1 & r & t3 & w3 & evs3 & Hs1 & Ho1 & Hq1 & Hb1 & Hmask & Hpat &
                  Hrec & ->)];
    [now rewrite Htx in Hc |].
  assert (Hf1 : flying msg t1) by (split; [rewrite Hs1; discriminate | lia]).
  match type of Hrec with
  | writeMsg_loop ?fuel msg t1 ?w2 = _ =>
      destruct (writeMsg_loop_cooperative msg fuel ltac:(lia) t1 w2 Hf1)
        as (t' & w' & evs & Hrun & Hs' & Hi' & Hlen & Hp & _ & Hfc & _)
  end.
  - now apply (cooperative_same t t1 w).
  - unfold turns_left. rewrite Hs1, Ho1. lia.
  - lia.
  - rewrite Hrun in Hrec. injection Hrec as <- <- <- <-.
    pose proof (writeMsg_loop_segmented _ _ _ _ _ _ _ (proj2 Hsize) Hf1 Hrun) as Hseg.
    rewrite Ho1, Hq1 in Hseg. rewrite Ho1 in Hlen.
    destruct (Hfc Hs1 ltac:(lia)) as (rest & ->). cbn [rx reads] in *.
    exists t', w', rest. split; [reflexivity |].
    split; [exact Hs' |]. split; [exact Hi' |].
    split; [exact Hlen |]. split; [exact Hp | exact Hseg].
Qed.

(** C5. A message whose payload has 8 to 4095 bytes, written by an idle
    transfer before the deadline.  The first event is the write of a First
    Frame whose 12-bit length (low nibble of the PCI byte above byte 5) is
    the payload length, followed by the first 6 payload bytes.  Once the
    wrapped channel has taken it and the deadline has not passed, the next
    event is a read of the wrapped channel, the wait for the Flow Control:
    nothing more is sent unless a Flow Control for the transfer is read.  The
    frames written after the First Frame carry the PCI bytes [0x21], [0x22],
    ..., [0x2F], [0x20], [0x21], ...: the [k]-th of them (from 0) has
    sequence nibble [(k + 1) mod 16].  With a peer that answers, the write
    succeeds and these frames are all the Consecutive Frames of the message,
    7 payload bytes at a time from offset 10 on. *)
Theorem writeMsg_multi_frame (msg : PASSTHRU_MSG) (t : ISO15765Transfer) (w : World) :
  mState t = START_STATE -> idle t ->
  8 <= DataSize msg - 4 <= 4095 ->
  ulong (clock w (ticks w)) <> 0 ->
  exists r t' w' ff c rest,
    writeMsg msg t w = Some (Returned r, t', w', EvWrite ff c :: rest) /\
    getFrameName (Data ff 4) = FirstFrame /\
    Z.land (Data ff 4) 0x0F * 256 + Data ff 5 = DataSize msg - 4 /\
    0 <= Data ff 5 < 256 /\
    (forall i, 0 <= i < 6 -> Data ff (6 + i) = Data msg (4 + i)) /\
    (forall i, 0 <= i < 4 -> Data ff i = Data msg i) /\
    (rest = [] \/ exists c' m rest', rest = EvRead c' m :: rest') /\
    (forall k f, nth_error (written rest) k = Some f ->
                 getFrameName (Data f 4) = ConsecutiveFrame /\
                 Z.land (Data f 4) 0x0F = (Z.of_nat k + 1) mod 16) /\
    c = tx w (writes w) /\
    (c = 1 -> ulong (clock w (S (ticks w))) <> 0 ->
     exists rest',
       rest = EvRead (fst (rx w (reads w))) (snd (rx w (reads w))) :: rest' /\
       (~ flow_control_for t (rx w (reads w)) -> rest' = [] /\ r = false)) /\
    (cooperative t w ->
     r = true /\ mState t' = START_STATE /\
     Z.of_nat (length (written rest)) = frames_left msg 10 /\
     segmented msg 10 1 (written rest)).
Proof.
  intros Hst Hidle Hsize Hclock.
  destruct (first_frame_shape msg t Hsize) as (Hk & Hl & Hb & Hpay & Hid).
  destruct (writeMsg_first_turns msg t w Hst Hidle ltac:(lia) Hclock)
    as [(Hc & t1 & w1 & Hrun) |
        (Hc & t1 & r & t3 & w3 & evs3 & Hs1 & Ho1 & Hq1 & Hb1 & Hmask & Hpat &
         Hrec & Hrun)].
  - exists false, (clear t1), w1, (first_frame msg t), (tx w (writes w)), [].
    split; [exact Hrun |]. do 5 (split; [assumption |]).
    split; [now left |]. split; [intros [| k] f; discriminate |].
    split; [reflexivity |]. split; [intros; contradiction |].
    intros (_ & Htx & _). now rewrite Htx in Hc.
  - exists r, t3, w3, (first_frame msg t), 1, evs3.
    split; [exact Hrun |]. do 5 (split; [assumption |]).
    split; [exact (writeMsg_loop_awaits _ _ _ _ _ _ _ _ Hs1 Hrec) |].
    assert (Hst1 : mState t1 <> START_STATE) by (rewrite Hs1; discriminate).
    split.
    { intros k f Hf.
      rewrite (writeMsg_loop_sequence _ _ _ _ _ _ _ _ Hst1 Hrec _ _ Hf), Hq1.
      replace (1 + Z.of_nat k) with (Z.of_nat k + 1) by lia. apply cf_pci_nibble. }
    split; [now symmetry |]. split.
    { intros _ Hclock2.
      assert (Ho1' : 0 <= mOffset t1 < DataSize msg) by lia.
      assert (Hd : DataSize msg < 2 ^ 64) by lia.
      match type of Hrec with
      | writeMsg_loop ?fuel msg t1 ?w2 = _ =>
          destruct (writeMsg_loop_awaits_read msg fuel t1 w2 r t3 w3 evs3
                      Hs1 Ho1' Hd Hclock2 Hrec) as (rest' & Hrest & Hbad)
      end.
      cbn [rx reads] in *. exists rest'. split; [exact Hrest |].
      intros Hn. apply Hbad. unfold flow_control_for in *. now rewrite Hmask, Hpat. }
    intros Hco.
    destruct (writeMsg_cooperative msg t w Hst Hidle ltac:(lia) Hco)
      as (t' & w' & rest & Hrun' & Hs' & _ & Hlen & _ & Hseg).
    rewrite Hrun' in Hrun. injection Hrun as <- <- <- <-.
    split; [reflexivity |]. split; [exact Hs' |].
    change (written (EvRead 1 (snd (rx w (reads w))) :: rest)) with (written rest).
    split; [exact Hlen | exact Hseg].
Qed.
(** C6. In every write, two successive reads of the wrapped channel (the
    receptions of Flow Control frames) have between them exactly as many
    written frames as the block size [BS] of the first of the two, which is
    positive, and these frames are Consecutive Frames; and after the read of
    a Flow Control with block size 0 the wrapped channel is not read again.
    With a peer that answers, a write of 8 payload bytes or more succeeds,
    sends after the First Frame and a first Flow Control all the Consecutive
    Frames of the message, and after every Flow Control: when its block size
    is 0 or covers the frames still to send, these are all sent without
    another read; otherwise exactly [BS] frames are sent and then the wrapped
    channel is read for the next Flow Control. *)
Theorem writeMsg_block_size_pacing (msg : PASSTHRU_MSG) (t : ISO15765Transfer)
    (w : World) :
  DataSize msg < 2 ^ 64 ->
  exists r t' w' evs,
    writeMsg msg t w = Some (r, t', w', evs) /\
    (forall pre c fc mid c' fc' post,
        evs = pre ++ EvRead c fc :: mid ++ EvRead c' fc' :: post ->
        has_read mid = false ->
        0 < BS fc /\
        Z.of_nat (length (written mid)) = BS fc /\
        (forall f, In f (written mid) -> getFrameName (Data f 4) = ConsecutiveFrame)) /\
    (forall pre c fc post,
        evs = pre ++ EvRead c fc :: post ->
        BS fc = 0 ->
        has_read post = false) /\
    (mState t = START_STATE -> idle t -> 12 <= DataSize msg -> cooperative t w ->
     r = Returned true /\
     exists ff rest,
       evs = EvWrite ff 1 :: EvRead 1 (snd (rx w (reads w))) :: rest /\
       getFrameName (Data ff 4) = FirstFrame /\
       segmented msg 10 1 (written rest) /\
       Z.of_nat (length (written rest)) = frames_left msg 10 /\
       forall pre c fc post,
         EvRead 1 (snd (rx w (reads w))) :: rest = pre ++ EvRead c fc :: post ->
         Z.of_nat (length (written pre)) + Z.of_nat (length (written post))
         = frames_left msg 10 /\
         (BS fc = 0 \/ Z.of_nat (length (written post)) <= BS fc ->
          has_read post = false) /\
         (0 < BS fc < Z.of_nat (length (written post)) ->
          exists mid c' fc' post',
            post = mid ++ EvRead c' fc' :: post' /\ has_read mid = false /\
            Z.of_nat (length (written mid)) = BS fc)).
Proof.
  intros Hd.
  destruct (writeMsg_total msg t w Hd) as [[[[r t'] w'] evs] Hw].
  exists r, t', w', evs. split; [exact Hw |].
  split; [| split].
  - destruct (writeMsg_events _ _ _ _ _ _ _ Hd Hw)
      as [-> | (f0 & c0 & rest & -> & Hp & Hcf)];
      [intros [| e pre]; discriminate |].
    intros [| e pre] c fc mid c' fc' post; [discriminate |].
    intros [= _ ->] Hmid.
    assert (Hr : has_read (mid ++ EvRead c' fc' :: post) = true).
    { rewrite has_read_app. cbn. apply orb_true_r. }
    destruct (paced_split _ _ _ _ Hp Hr) as [Hpos Hcount].
    rewrite writes_before_read_count in Hcount by exact Hmid.
    split; [exact Hpos |]. split; [exact Hcount |].
    intros f Hin. apply Hcf.
    rewrite written_app. apply in_or_app. right.
    change (EvRead c fc :: mid ++ EvRead c' fc' :: post)
      with ([EvRead c fc] ++ mid ++ EvRead c' fc' :: post).
    rewrite !written_app. apply in_or_app. right. apply in_or_app. now left.
  - destruct (writeMsg_events _ _ _ _ _ _ _ Hd Hw)
      as [-> | (f0 & c0 & rest & -> & Hp & Hcf)];
      [intros [| e pre]; discriminate |].
    intros [| e pre] c fc post; [discriminate |].
    intros [= _ ->] Hz.
    destruct (has_read post) eqn:Hr; [| reflexivity].
    destruct (paced_split _ _ _ _ Hp Hr) as [Hpos _]. lia.
  - intros Hst Hidle Hsize Hco.
    destruct (writeMsg_cooperative msg t w Hst Hidle ltac:(lia) Hco)
      as (t2 & w2 & rest & Hrun & _ & _ & Hlen & Hp & Hseg).
    rewrite Hrun in Hw. injection Hw as <- <- <- <-.
    split; [reflexivity |]. exists (first_frame msg t), rest.
    split; [reflexivity |].
    split.
    { unfold first_frame.
      rewrite pad_if_requested_low by (fields_simpl; lia).
      fields_simpl. unfold memcpy, store, J2534_DATA_OFFSET, J2534_PCI_SIZE.
      change (6 <=? 4) with false. change (4 =? 4 + 1) with false. cbn [andb].
      rewrite Z.eqb_refl.
      rewrite ff_pci_general by lia.
      apply first_frame_kind. apply Z.mod_pos_bound. lia. }
    split; [exact Hseg |]. split; [exact Hlen |].
    intros pre c fc post Heq.
    assert (Hsum : Z.of_nat (length (written pre)) + Z.of_nat (length (written post))
                   = frames_left msg 10).
    { rewrite <- Hlen.
      change (written rest) with (written (EvRead 1 (snd (rx w (reads w))) :: rest)).
      rewrite Heq, written_app.
      change (written (EvRead c fc :: post)) with (written post).
      rewrite length_app. lia. }
    split; [exact Hsum |].
    rewrite Heq in Hp. apply paced_by_block_size_at in Hp.
    pose proof (load_bounds (Data fc) (J2534_DATA_OFFSET + J2534_PCI_SIZE)) as Hb.
    fold (BS fc) in Hb.
    destruct (Z.eqb_spec (BS fc) 0) as [Hz | Hnz]; cbn [orb] in Hp.
    { split; [intros _; exact Hp | lia]. }
    destruct (Z.leb_spec (Z.of_nat (length (written post))) (BS fc)) as [Hle | Hgt].
    { split; [intros _; exact Hp | lia]. }
    destruct Hp as [Hr Hcount]. split; [lia |]. intros _.
    destruct (has_read_split post Hr) as (mid & c' & fc' & post' & -> & Hmid).
    exists mid, c', fc', post'. split; [reflexivity |]. split; [exact Hmid |].
    now rewrite writes_before_read_count in Hcount by exact Hmid.
Qed.
End Cooperative.

Lemma world_fc_cooperative (bs : Z) : cooperative transfer_7E0 (world_fc bs).
Proof.
  split; [| split].
  - intros n. vm_compute. discriminate.
  - intros k. reflexivity.
  - intros n. unfold flow_control_for, world_fc. cbn [rx fst snd].
    split; [reflexivity |]. split; [vm_compute; discriminate |].
    split; reflexivity.
Qed.

Lemma writeMsg_multi_frame_witness :
  exists t' w' ff rest,
    @writeMsg sae_j2534 msg_20 transfer_7E0 (world_fc 0)
    = Some (Returned true, t', w', EvWrite ff 1 :: EvRead 1 (fc_frame 0 0) :: rest) /\
    getFrameName (Data ff 4) = FirstFrame /\
    Z.land (Data ff 4) 0x0F * 256 + Data ff 5 = 20 /\
    Z.of_nat (length (written rest)) = 2 /\
    (forall k f, nth_error (written rest) k = Some f ->
                 getFrameName (Data f 4) = ConsecutiveFrame /\
                 Z.land (Data f 4) 0x0F = (Z.of_nat k + 1) mod 16).
Proof.
  destruct (@writeMsg_multi_frame sae_j2534 msg_20 transfer_7E0 (world_fc 0))
    as (r & t' & w' & ff & c & rest & Hrun & Hkind & Hlen & _ & _ & _ & _ & Hseq &
        Hc & Hread & Hco).
  - reflexivity.
  - repeat split.
  - vm_compute. split; discriminate.
  - vm_compute. discriminate.
  - destruct (Hco (world_fc_cooperative 0)) as (-> & _ & Hn & _).
    change (tx (world_fc 0) (writes (world_fc 0))) with 1 in Hc. subst c.
    destruct (Hread eq_refl) as (rest' & -> & _); [vm_compute; discriminate |].
    exists t', w', ff, rest'. split; [exact Hrun |].
    split; [exact Hkind |]. split; [exact Hlen |].
    split; [exact Hn | exact Hseq].
Defined.

Lemma writeMsg_block_size_pacing_witness :
  exists t' w' ff mid c' fc' post,
    @writeMsg sae_j2534 msg_20 transfer_7E0 (world_fc 1)
    = Some (Returned true, t', w',
            EvWrite ff 1 :: EvRead 1 (fc_frame 1 0) :: mid ++ EvRead c' fc' :: post) /\
    has_read mid = false /\ Z.of_nat (length (written mid)) = 1.
Proof.
  assert (H : DataSize msg_20 < 2 ^ 64) by (vm_compute; reflexivity).
  destruct (@writeMsg_block_size_pacing sae_j2534 msg_20 transfer_7E0 (world_fc 1) H)
    as (r & t' & w' & evs & Hrun & _ & _ & Hco).
  destruct Hco as (-> & ff & rest & -> & _ & _ & Hn & Hall).
  - reflexivity.
  - repeat split.
  - vm_compute. discriminate.
  - apply world_fc_cooperative.
  - destruct (Hall [] 1 (fc_frame 1 0) rest eq_refl) as (_ & _ & Hblock).
    destruct Hblock as (mid & c' & fc' & post & -> & Hmid & Hlen).
    + rewrite Hn. vm_compute. split; reflexivity.
    + exists t', w', ff, mid, c', fc', post.
      split; [exact Hrun |]. split; [exact Hmid | exact Hlen].
Defined.

(** ** The inbound path: what [readMsg] does and does not do *)

Section Inbound.
Context {K : J2534}.

(** X8. The Flow Control frame: 12 bytes for the identifier [mFlowControlPid],
    PCI byte [0x30], then the block size and the separation time that the
    transfer has just taken from the configuration, each cut to one byte, and
    zeroes.  The call succeeds exactly when the wrapped channel reports one
    frame written, and touches neither the state nor the offset. *)
Theorem sendFlowControlMessage_frame (t : ISO15765Transfer) (w : World) :
  exists f c t' w',
    sendFlowControlMessage t w = (c =? 1, t', w', [EvWrite f c]) /\
    c = tx w (writes w) /\
    ProtocolID f = CAN /\ TxFlags f = 0 /\ DataSize f = 12 /\
    Data f 0 = Z.land (Z.shiftr (mFlowControlPid t) 24) 0x1F /\
    Data f 1 = Z.land (Z.shiftr (mFlowControlPid t) 16) 0xFF /\
    Data f 2 = Z.land (Z.shiftr (mFlowControlPid t) 8) 0xFF /\
    Data f 3 = Z.land (mFlowControlPid t) 0xFF /\
    Data f 4 = 0x30 /\
    Data f 5 = mBs t' mod 256 /\
    Data f 6 = mStmin t' mod 256 /\
    (forall i, 7 <= i < 12 -> Data f i = 0) /\
    mBs t' = getValue (mChannelConfiguration w) ISO15765_BS 0 /\
    mStmin t' = getValue (mChannelConfiguration w) ISO15765_STMIN 0 /\
    mState t' = mState t /\ mOffset t' = mOffset t /\ mSequence t' = mSequence t.
Proof.
  unfold sendFlowControlMessage, chan_writeMsgs.
  match goal with
  | |- context [EvWrite ?m (tx w (writes w))] => set (f := m)
  end.
  exists f, (tx w (writes w)).
  destruct (pid2Data_bytes (mFlowControlPid t) (fun _ => 0)) as (B0 & B1 & B2 & B3).
  assert (Hlow : forall i, 0 <= i < 4 ->
                   Data f i = pid2Data (mFlowControlPid t) (fun _ => 0) i).
  { intros i Hi. subst f. unfold paddingMessage, CAN_DATA_SIZE, J2534_DATA_OFFSET,
      J2534_PCI_SIZE, J2534_BS_SIZE, J2534_STMIN_SIZE. cbn [DataSize Data]. fields_simpl.
    change (to_int (4 + 1 + 1 + 1)) with (4 + 1 + 1 + 1).
    destruct (Z.leb_spec (4 + 1 + 1 + 1) i); [lia |]. cbn [andb]. unfold store.
    destruct (Z.eqb_spec i (4 + 1 + 1)); [lia |].
    destruct (Z.eqb_spec i (4 + 1)); [lia |].
    destruct (Z.eqb_spec i 4); [lia |]. reflexivity. }
  destruct (Z.eqb_spec (tx w (writes w)) 1) as [Hc | Hc]; cbn [negb];
    do 2 eexists; (split; [reflexivity |]); fields_simpl;
    (split; [reflexivity |]); (split; [reflexivity |]); (split; [reflexivity |]);
    (split; [reflexivity |]);
    (split; [rewrite Hlow by lia; exact B0 |]);
    (split; [rewrite Hlow by lia; exact B1 |]);
    (split; [rewrite Hlow by lia; exact B2 |]);
    (split; [rewrite Hlow by lia; exact B3 |]);
    (split; [reflexivity |]); (split; [reflexivity |]); (split; [reflexivity |]);
    (split; [| now repeat split]);
    intros i Hi; subst f; unfold paddingMessage, CAN_DATA_SIZE, J2534_DATA_OFFSET,
      J2534_PCI_SIZE, J2534_BS_SIZE, J2534_STMIN_SIZE; cbn [DataSize Data];
    change (to_int (4 + 1 + 1 + 1)) with (4 + 1 + 1 + 1);
    (destruct (Z.leb_spec (4 + 1 + 1 + 1) i); [| lia]);
    (destruct (Z.ltb_spec i (8 + 4)); [| lia]); reflexivity.
Qed.

Lemma readMsg_finish_effects (t : ISO15765Transfer) (out_msg : PASSTHRU_MSG) (w : World)
    (evs : list Event) b t' out' w' evs' :
  readMsg_finish t out_msg w evs = (b, t', out', w', evs') ->
  evs' = evs /\ (b = false -> out' = out_msg /\ t' = t) /\
  (b = true -> out' = mMessage t /\ mState t' = START_STATE /\ idle t').
Proof.
  unfold readMsg_finish.
  destruct (size_t (mOffset t) >=? DataSize (mMessage t)); intros H; tuple_eq H; subst;
    (split; [reflexivity |]); split; intros; try discriminate; now repeat split.
Qed.

(** X9. Whatever [readMsg] is given, it never reads the wrapped channel and never
    sleeps: it writes nothing, or one Flow Control frame.  When it returns
    [false] the caller's message is as it was; when it returns [true] the
    transfer has been cleared. *)
Theorem readMsg_effects (t : ISO15765Transfer) (in_msg out_msg : PASSTHRU_MSG) (w : World) :
  exists b t' out' w' evs,
    readMsg t in_msg out_msg w = (b, t', out', w', evs) /\
    (evs = [] \/ exists f c, evs = [EvWrite f c] /\ Data f 4 = 0x30 /\ DataSize f = 12) /\
    (b = false -> out' = out_msg) /\
    (b = true -> mState t' = START_STATE /\ idle t').
Proof.
  assert (Hfail : forall (t0 : ISO15765Transfer) (w0 : World) (evs0 : list Event),
             (evs0 = [] \/ exists f c, evs0 = [EvWrite f c] /\ Data f 4 = 0x30 /\
                                       DataSize f = 12) ->
             exists b t' out' w' evs,
               (false, clear t0, out_msg, w0, evs0) = (b, t', out', w', evs) /\
               (evs = [] \/ exists f c, evs = [EvWrite f c] /\ Data f 4 = 0x30 /\
                                        DataSize f = 12) /\
               (b = false -> out' = out_msg) /\
               (b = true -> mState t' = START_STATE /\ idle t')).
  { intros t0 w0 evs0 Hev. do 5 eexists. split; [reflexivity |].
    split; [exact Hev |]. split; [reflexivity | discriminate]. }
  assert (Hfin : forall (t0 : ISO15765Transfer) (w0 : World) (evs0 : list Event),
             (evs0 = [] \/ exists f c, evs0 = [EvWrite f c] /\ Data f 4 = 0x30 /\
                                       DataSize f = 12) ->
             exists b t' out' w' evs,
               readMsg_finish t0 out_msg w0 evs0 = (b, t', out', w', evs) /\
               (evs = [] \/ exists f c, evs = [EvWrite f c] /\ Data f 4 = 0x30 /\
                                        DataSize f = 12) /\
               (b = false -> out' = out_msg) /\
               (b = true -> mState t' = START_STATE /\ idle t')).
  { intros t0 w0 evs0 Hev.
    destruct (readMsg_finish t0 out_msg w0 evs0) as [[[[b t'] out'] w'] evs] eqn:E.
    apply readMsg_finish_effects in E as (-> & Hf & Ht).
    exists b, t', out', w', evs0. split; [reflexivity |]. split; [exact Hev |].
    split; [intros Hb; now apply Hf | intros Hb; now apply Ht]. }
  assert (Hfc : forall t0, exists (ok : bool) (t1 : ISO15765Transfer) (w1 : World)
                                  (evs1 : list Event),
               sendFlowControlMessage t0 w = (ok, t1, w1, evs1) /\
               exists f c, evs1 = [EvWrite f c] /\ Data f 4 = 0x30 /\ DataSize f = 12).
  { intros t0.
    destruct (sendFlowControlMessage_frame t0 w)
      as (f & c & t1 & w1 & Hs & _ & _ & _ & Hds & _ & _ & _ & _ & Hpci & _).
    exists (c =? 1), t1, w1, [EvWrite f c]. split; [exact Hs |]. now exists f, c. }
  unfold readMsg.
  destruct (DataSize in_msg <? J2534_DATA_OFFSET); [apply Hfail; now left |].
  destruct (negb (_ =? mPatternPid t)); [apply Hfail; now left |].
  destruct (mState t).
  - destruct (getFrameName (Data in_msg J2534_DATA_OFFSET));
      try (apply Hfail; now left).
    + apply Hfin. now left.
    + match goal with
      | |- context [sendFlowControlMessage ?t0 w] =>
          destruct (Hfc t0) as (ok & t1 & w1 & evs1 & -> & Hev)
      end.
      destruct ok; cbn [negb]; [apply Hfin | apply Hfail]; now right.
  - apply Hfail. now left.
  - destruct (negb (_ =? mSequence t mod 0x10)); [apply Hfail; now left |].
    fields_simpl.
    destruct (ulong (mBs t - 1) =? 0).
    + match goal with
      | |- context [sendFlowControlMessage ?t0 w] =>
          destruct (Hfc t0) as (ok & t1 & w1 & evs1 & -> & Hev)
      end.
      destruct ok; cbn [negb]; [apply Hfin | apply Hfail]; now right.
    + apply Hfin. now left.
Qed.

End Inbound.

(** ** The filter registry and the batches *)

Lemma find_if_Some {A : Type} (p : A -> bool) (l : list A) (k : nat) :
  find_if p l = Some k ->
  exists x, nth_error l k = Some x /\ p x = true /\
            forall j y, (j < k)%nat -> nth_error l j = Some y -> p y = false.
Proof.
  revert k. induction l as [| a l IH]; intros k; cbn [find_if]; [discriminate |].
  destruct (p a) eqn:Hp.
  - intros [= <-]. exists a. split; [reflexivity |]. split; [exact Hp |]. intros j y Hj. lia.
  - destruct (find_if p l) as [k' |]; [| discriminate].
    intros [= <-]. destruct (IH k' eq_refl) as (x & Hn & Hx & Hfirst).
    exists x. split; [exact Hn |]. split; [exact Hx |].
    intros [| j] y Hj; cbn [nth_error].
    + now intros [= <-].
    + apply Hfirst. lia.
Qed.

Lemma find_if_None {A : Type} (p : A -> bool) (l : list A) :
  find_if p l = None -> forall x, In x l -> p x = false.
Proof.
  induction l as [| a l IH]; cbn [find_if]; [intros _ x [] |].
  destruct (p a) eqn:Hp; [discriminate |].
  destruct (find_if p l); [discriminate |].
  intros _ x [<- | Hin]; [exact Hp | now apply IH].
Qed.

Lemma find_if_first {A : Type} (p : A -> bool) (l : list A) (k : nat) (x : A) :
  nth_error l k = Some x -> p x = true ->
  (forall j y, (j < k)%nat -> nth_error l j = Some y -> p y = false) ->
  find_if p l = Some k.
Proof.
  revert k. induction l as [| a l IH]; intros [| k]; cbn [nth_error find_if];
    try discriminate.
  - intros [= ->] Hx _. now rewrite Hx.
  - intros Hn Hx Hfirst.
    rewrite (Hfirst 0%nat a ltac:(lia) eq_refl).
    rewrite (IH k Hn Hx); [reflexivity |].
    intros j y Hj Hy. apply (Hfirst (S j) y); [lia | exact Hy].
Qed.

Lemma find_if_nobody {A : Type} (p : A -> bool) (l : list A) :
  (forall x, In x l -> p x = false) -> find_if p l = None.
Proof.
  induction l as [| a l IH]; intros H; cbn [find_if]; [reflexivity |].
  rewrite (H a (or_introl eq_refl)), IH; [reflexivity |].
  intros x Hx. apply H. now right.
Qed.

(** X11. The two lookups return the first filter of the registry, in
    insertion order, that matches: by masked pattern for a received frame, by
    flow-control identifier for a message to send.  A lookup answers with
    position [k] exactly when the filter at [k] matches and none before it
    does, and with nothing exactly when no filter of the registry matches. *)
Theorem lookups_first_match (ch : ChannelISO15765) (msg : PASSTHRU_MSG) :
  (forall k,
     getTransferByPattern ch msg = Some k <->
     exists f, nth_error (mMessageFilters ch) k = Some f /\
               Z.land (data2pid (Data msg)) (mMaskPid (mTransfer f))
               = mPatternPid (mTransfer f) /\
               forall j g, (j < k)%nat -> nth_error (mMessageFilters ch) j = Some g ->
                           Z.land (data2pid (Data msg)) (mMaskPid (mTransfer g))
                           <> mPatternPid (mTransfer g)) /\
  (getTransferByPattern ch msg = None <->
   forall f, In f (mMessageFilters ch) ->
             Z.land (data2pid (Data msg)) (mMaskPid (mTransfer f))
             <> mPatternPid (mTransfer f)) /\
  (forall k,
     getTransferByFlowControl ch msg = Some k <->
     exists f, nth_error (mMessageFilters ch) k = Some f /\
               mFlowControlPid (mTransfer f) = data2pid (Data msg) /\
               forall j g, (j < k)%nat -> nth_error (mMessageFilters ch) j = Some g ->
                           mFlowControlPid (mTransfer g) <> data2pid (Data msg)) /\
  (getTransferByFlowControl ch msg = None <->
   forall f, In f (mMessageFilters ch) ->
             mFlowControlPid (mTransfer f) <> data2pid (Data msg)).
Proof.
  unfold getTransferByPattern, getTransferByFlowControl. cbn zeta.
  split; [| split; [| split]].
  - intros k. split.
    + intros H. apply find_if_Some in H as (f & Hn & Hp & Hfirst). exists f.
      split; [exact Hn |]. split; [apply Z.eqb_eq in Hp; now symmetry |].
      intros j g Hj Hg Heq. specialize (Hfirst j g Hj Hg). cbn beta in Hfirst.
      rewrite Heq, Z.eqb_refl in Hfirst. discriminate.
    + intros (f & Hn & Hp & Hfirst). apply (find_if_first _ _ _ f Hn).
      * apply Z.eqb_eq. now symmetry.
      * intros j g Hj Hg. apply Z.eqb_neq. intros Heq.
        apply (Hfirst j g Hj Hg). now symmetry.
  - split.
    + intros H f Hf Heq. apply (find_if_None _ _ H) in Hf. cbn beta in Hf.
      rewrite Heq, Z.eqb_refl in Hf. discriminate.
    + intros H. apply find_if_nobody. intros f Hf. apply Z.eqb_neq. intros Heq.
      apply (H f Hf). now symmetry.
  - intros k. split.
    + intros H. apply find_if_Some in H as (f & Hn & Hp & Hfirst). exists f.
      split; [exact Hn |]. split; [now apply Z.eqb_eq in Hp |].
      intros j g Hj Hg Heq. specialize (Hfirst j g Hj Hg). cbn beta in Hfirst.
      rewrite Heq, Z.eqb_refl in Hfirst. discriminate.
    + intros (f & Hn & Hp & Hfirst). apply (find_if_first _ _ _ f Hn).
      * now apply Z.eqb_eq.
      * intros j g Hj Hg. apply Z.eqb_neq. exact (Hfirst j g Hj Hg).
  - split.
    + intros H f Hf Heq. apply (find_if_None _ _ H) in Hf. cbn beta in Hf.
      rewrite Heq, Z.eqb_refl in Hf. discriminate.
    + intros H. apply find_if_nobody. intros f Hf. apply Z.eqb_neq. exact (H f Hf).
Qed.

Lemma set_transfer_handles (k : nat) (t : ISO15765Transfer)
    (l : list MessageFilterISO15765) :
  map mMessageFilter (set_transfer k t l) = map mMessageFilter l.
Proof.
  revert k. induction l as [| f l IH]; intros [| k]; cbn; try reflexivity.
  now rewrite IH.
Qed.

Section Batches.
Context {K : J2534}.

Lemma writeMsgs_loop_bounds (pMsg : list PASSTHRU_MSG) :
  (forall m, In m pMsg -> DataSize m < 2 ^ 64) ->
  forall (ch : ChannelISO15765) (NumMsgs i count : Z) (w : World),
    0 <= count <= i -> i <= NumMsgs -> NumMsgs < 2 ^ 64 ->
    exists r ch' count' w' evs,
      writeMsgs_loop ch pMsg NumMsgs i count w = Some (r, ch', count', w', evs) /\
      count <= count' /\ count' - count <= NumMsgs - i /\
      count' - count <= Z.of_nat (length pMsg) /\
      (r = Returned true \/ r = Threw ERR_INVALID_MSG) /\
      map mMessageFilter (mMessageFilters ch') = map mMessageFilter (mMessageFilters ch).
Proof.
  induction pMsg as [| msg pMsg IH]; intros Hds ch NumMsgs i count w Hc Hi Hn.
  - do 5 eexists. split; [reflexivity |]. cbn [length]. repeat split; auto; lia.
  - assert (Hds' : forall m, In m pMsg -> DataSize m < 2 ^ 64)
      by (intros m Hm; apply Hds; now right).
    assert (Hstop : forall (w0 : World),
               exists r ch' count' w' evs,
                 Some (Returned true, ch, count, w0, @nil Event)
                 = Some (r, ch', count', w', evs) /\
                 count <= count' /\ count' - count <= NumMsgs - i /\
                 count' - count <= Z.of_nat (length (msg :: pMsg)) /\
                 (r = Returned true \/ r = Threw ERR_INVALID_MSG) /\
                 map mMessageFilter (mMessageFilters ch')
                 = map mMessageFilter (mMessageFilters ch)).
    { intros w0. do 5 eexists. split; [reflexivity |]. cbn [length].
      repeat split; auto; lia. }
    cbn [writeMsgs_loop].
    destruct (Z.ltb_spec i NumMsgs) as [Hlt | Hge]; [| apply Hstop].
    destruct (steady_remaining w) as [Timeout w1].
    destruct (Timeout <=? 0); [apply Hstop |].
    assert (Hcont : forall (ch0 : ChannelISO15765) (count0 : Z) (w0 : World)
                           (evs0 : list Event),
               map mMessageFilter (mMessageFilters ch0)
               = map mMessageFilter (mMessageFilters ch) ->
               count <= count0 <= count + 1 ->
               exists r ch' count' w' evs,
                 match writeMsgs_loop ch0 pMsg NumMsgs (ulong (i + 1)) count0 w0 with
                 | Some (r, ch1, count1, w2, evs') =>
                     Some (r, ch1, count1, w2, evs0 ++ evs')
                 | None => None
                 end = Some (r, ch', count', w', evs) /\
                 count <= count' /\ count' - count <= NumMsgs - i /\
                 count' - count <= Z.of_nat (length (msg :: pMsg)) /\
                 (r = Returned true \/ r = Threw ERR_INVALID_MSG) /\
                 map mMessageFilter (mMessageFilters ch')
                 = map mMessageFilter (mMessageFilters ch)).
    { intros ch0 count0 w0 evs0 Hh Hc0.
      rewrite ulong_small by lia.
      destruct (IH Hds' ch0 NumMsgs (i + 1) count0 w0)
        as (r & ch' & count' & w' & evs & -> & H1 & H2 & H3 & H4 & H5); try lia.
      exists r, ch', count', w', (evs0 ++ evs). split; [reflexivity |].
      cbn [length]. rewrite H5, Hh. repeat split; auto; lia. }
    destruct (getTransferByFlowControl ch msg) as [k |];
      [| apply Hcont; [reflexivity | lia]].
    destruct (nth_error (mMessageFilters ch) k) as [f |];
      [| apply Hcont; [reflexivity | lia]].
    destruct (writeMsg_total msg (mTransfer f) w1 (Hds msg (or_introl eq_refl)))
      as [[[[r t'] w2] evs2] Hw].
    rewrite Hw. destruct r as [b | e].
    + apply Hcont; [cbn [mMessageFilters]; apply set_transfer_handles |].
      destruct b; [rewrite ulong_small by lia |]; lia.
    + apply writeMsg_throw_inv in Hw as (_ & -> & _).
      do 5 eexists. split; [reflexivity |]. cbn [length mMessageFilters].
      rewrite set_transfer_handles. repeat split; auto; lia.
Qed.

(** X12. [writeMsgs] comes back for every batch: the count it reports is at most
    the number of messages asked for and at most the length of the array,
    the registry keeps its filters, and the only exception that escapes is
    [ERR_INVALID_MSG]. *)
Theorem writeMsgs_returns (ch : ChannelISO15765) (pMsg : list PASSTHRU_MSG)
    (NumMsgs : Z) (w : World) :
  (forall m, In m pMsg -> DataSize m < 2 ^ 64) ->
  0 <= NumMsgs < 2 ^ 64 ->
  exists r ch' count w' evs,
    writeMsgs ch pMsg NumMsgs w = Some (r, ch', count, w', evs) /\
    0 <= count <= NumMsgs /\ count <= Z.of_nat (length pMsg) /\
    (r = Returned true \/ r = Threw ERR_INVALID_MSG) /\
    map mMessageFilter (mMessageFilters ch') = map mMessageFilter (mMessageFilters ch).
Proof.
  intros Hds Hn. unfold writeMsgs.
  destruct (writeMsgs_loop_bounds pMsg Hds ch NumMsgs 0 0 w)
    as (r & ch' & count & w' & evs & Hrun & H1 & H2 & H3 & H4 & H5); try lia.
  exists r, ch', count, w', evs. repeat split; auto; lia.
Qed.

Lemma writeMsgs_loop_unrouted (ch : ChannelISO15765) (pMsg : list PASSTHRU_MSG) :
  (forall m, In m pMsg -> getTransferByFlowControl ch m = None) ->
  forall (NumMsgs i count : Z) (w : World),
    exists w', writeMsgs_loop ch pMsg NumMsgs i count w
               = Some (Returned true, ch, count, w', []).
Proof.
  induction pMsg as [| msg pMsg IH]; intros Hno NumMsgs i count w.
  - eexists. reflexivity.
  - cbn [writeMsgs_loop].
    destruct (i <? NumMsgs); [| eexists; reflexivity].
    destruct (steady_remaining w) as [Timeout w1].
    destruct (Timeout <=? 0); [eexists; reflexivity |].
    rewrite (Hno msg (or_introl eq_refl)).
    destruct (IH (fun m Hm => Hno m (or_intror Hm)) NumMsgs (ulong (i + 1)) count w1)
      as [w' ->].
    eexists. reflexivity.
Qed.

(** X13. Messages whose identifier is the flow-control identifier of no filter
    are passed over in silence: nothing is written, no transfer is touched,
    the count is 0 and nothing is thrown, also for a message shorter than 4
    bytes. *)
Theorem writeMsgs_unrouted (ch : ChannelISO15765) (pMsg : list PASSTHRU_MSG)
    (NumMsgs : Z) (w : World) :
  (forall m, In m pMsg -> getTransferByFlowControl ch m = None) ->
  exists w', writeMsgs ch pMsg NumMsgs w = Some (Returned true, ch, 0, w', []).
Proof.
  intros Hno. apply writeMsgs_loop_unrouted. exact Hno.
Qed.

End Batches.

(** ** The batch read comes back *)

Section BatchRead.
Context {K : J2534}.

(** [readMsg] leaves the clock and the inbound side of the wrapped channel
    as they are. *)
Lemma readMsg_world (t : ISO15765Transfer) (in_msg out_msg : PASSTHRU_MSG) (w : World)
    b t' out' w' evs :
  readMsg t in_msg out_msg w = (b, t', out', w', evs) ->
  clock w' = clock w /\ ticks w' = ticks w /\ rx w' = rx w /\ reads w' = reads w.
Proof.
  assert (Hfc : forall t0 ok t1 w1 evs1,
             sendFlowControlMessage t0 w = (ok, t1, w1, evs1) ->
             clock w1 = clock w /\ ticks w1 = ticks w /\ rx w1 = rx w /\
             reads w1 = reads w).
  { intros t0 ok t1 w1 evs1. unfold sendFlowControlMessage, chan_writeMsgs.
    destruct (negb (tx w (writes w) =? 1)); intros H; tuple_eq H; subst w1;
      now repeat split. }
  assert (Hfin : forall (t0 : ISO15765Transfer) (w0 : World) (evs0 : list Event),
             clock w0 = clock w /\ ticks w0 = ticks w /\ rx w0 = rx w /\
             reads w0 = reads w ->
             readMsg_finish t0 out_msg w0 evs0 = (b, t', out', w', evs) ->
             clock w' = clock w /\ ticks w' = ticks w /\ rx w' = rx w /\
             reads w' = reads w).
  { intros t0 w0 evs0 Hw0. unfold readMsg_finish.
    destruct (size_t (mOffset t0) >=? DataSize (mMessage t0)); intros H; tuple_eq H;
      now subst w'. }
  assert (Hfail : forall (t0 : ISO15765Transfer) (w0 : World) (evs0 : list Event),
             clock w0 = clock w /\ ticks w0 = ticks w /\ rx w0 = rx w /\
             reads w0 = reads w ->
             (false, t0, out_msg, w0, evs0) = (b, t', out', w', evs) ->
             clock w' = clock w /\ ticks w' = ticks w /\ rx w' = rx w /\
             reads w' = reads w).
  { intros t0 w0 evs0 Hw0 H. tuple_eq H. now subst w'. }
  assert (Hw : clock w = clock w /\ ticks w = ticks w /\ rx w = rx w /\ reads w = reads w)
    by now repeat split.
  unfold readMsg.
  destruct (DataSize in_msg <? J2534_DATA_OFFSET); [now apply Hfail |].
  destruct (negb (_ =? mPatternPid t)); [now apply Hfail |].
  destruct (mState t).
  - destruct (getFrameName (Data in_msg J2534_DATA_OFFSET));
      try (now apply Hfail); [now apply Hfin |].
    destruct (sendFlowControlMessage _ w) as [[[ok t1] w1] evs1] eqn:E.
    apply Hfc in E. destruct ok; cbn [negb]; [now apply Hfin | now apply Hfail].
  - now apply Hfail.
  - destruct (negb (_ =? mSequence t mod 0x10)); [now apply Hfail |].
    fields_simpl.
    destruct (ulong (mBs t - 1) =? 0); [| now apply Hfin].
    destruct (sendFlowControlMessage _ w) as [[[ok t1] w1] evs1] eqn:E.
    apply Hfc in E. destruct ok; cbn [negb]; [now apply Hfin | now apply Hfail].
Qed.

Lemma readMsgs_loop_dry (NumMsgs : Z) (k : nat) :
  NumMsgs < 2 ^ 64 ->
  forall (ch : ChannelISO15765) (pMsg : list PASSTHRU_MSG) (i : Z) (w : World),
    0 <= i <= NumMsgs ->
    fst (rx w (reads w + k)%nat) <> 1 ->
    exists ch' pMsg' count w' evs,
      readMsgs_loop (S k) ch pMsg NumMsgs i i w = Some (ch', pMsg', count, w', evs) /\
      i <= count <= NumMsgs /\ count - i <= Z.of_nat k /\
      map mMessageFilter (mMessageFilters ch') = map mMessageFilter (mMessageFilters ch).
Proof.
  intros Hn. induction k as [| k IH]; intros ch pMsg i w Hi Hdry.
  - cbn [readMsgs_loop].
    destruct (i <? NumMsgs); [| do 5 eexists; split; [reflexivity |]; repeat split; try reflexivity; lia].
    unfold steady_remaining.
    match goal with
    | |- context [if ?c then _ else _] => destruct c
    end; [do 5 eexists; split; [reflexivity |]; repeat split; try reflexivity; lia |].
    unfold chan_readMsgs. cbn [rx reads].
    rewrite Nat.add_0_r in Hdry.
    destruct (rx w (reads w)) as [c m]. cbn [fst] in Hdry.
    destruct (Z.eqb_spec c 1); [contradiction |]. cbn [negb].
    do 5 eexists. split; [reflexivity |]. repeat split; try reflexivity; lia.
  - pose (fuel := S k). change (S (S k)) with (S fuel). cbn [readMsgs_loop].
    destruct (Z.ltb_spec i NumMsgs) as [Hlt | Hge];
      [| do 5 eexists; split; [reflexivity |]; repeat split; try reflexivity; lia].
    unfold steady_remaining at 1.
    match goal with
    | |- context [if ?c then _ else _] => destruct c
    end; [do 5 eexists; split; [reflexivity |]; repeat split; try reflexivity; lia |].
    unfold chan_readMsgs. cbn [rx reads].
    destruct (rx w (reads w)) as [c m].
    destruct (Z.eqb_spec c 1);
      [| cbn [negb]; do 5 eexists; split; [reflexivity |]; repeat split; try reflexivity; lia].
    cbn [negb]. unfold steady_remaining.
    cbn [clock ticks rx reads tx writes mChannelConfiguration].
    match goal with
    | |- context [readMsg _ m _ ?w3] => set (w3' := w3)
    end.
    assert (Hcont : forall (ch0 : ChannelISO15765) (pMsg0 : list PASSTHRU_MSG) (i0 : Z)
                           (w0 : World) (evs0 evs1 : list Event),
               rx w0 = rx w -> reads w0 = S (reads w) ->
               i <= i0 <= i + 1 -> i0 <= NumMsgs ->
               map mMessageFilter (mMessageFilters ch0)
               = map mMessageFilter (mMessageFilters ch) ->
               exists ch' pMsg' count w' evs,
                 match readMsgs_loop fuel ch0 pMsg0 NumMsgs i0 i0 w0 with
                 | Some (ch1, pMsg1, count1, w4, evs'') =>
                     Some (ch1, pMsg1, count1, w4, evs0 ++ evs1 ++ evs'')
                 | None => None
                 end = Some (ch', pMsg', count, w', evs) /\
                 i <= count <= NumMsgs /\ count - i <= Z.of_nat (S k) /\
                 map mMessageFilter (mMessageFilters ch')
                 = map mMessageFilter (mMessageFilters ch)).
    { intros ch0 pMsg0 i0 w0 evs0 evs1 Hrx Hreads Hi0 Hi0' Hh. subst fuel.
      destruct (IH ch0 pMsg0 i0 w0) as (ch' & pMsg' & count & w' & evs & -> & H1 & H2 & H3).
      - lia.
      - rewrite Hrx, Hreads. replace (S (reads w) + k)%nat with (reads w + S k)%nat by lia.
        exact Hdry.
      - do 5 eexists. split; [reflexivity |]. rewrite H3, Hh. repeat split; lia. }
    destruct (getTransferByPattern ch m) as [j |];
      [| apply Hcont; try reflexivity; lia].
    destruct (nth_error (mMessageFilters ch) j) as [f |];
      [| apply Hcont; try reflexivity; lia].
    destruct (readMsg (mTransfer f) m (hd m pMsg) w3') as [[[[done t] out_msg] w4] evs2]
      eqn:Hread.
    apply readMsg_world in Hread as (_ & _ & Hrx & Hreads).
    destruct done.
    + rewrite !(ulong_small (i + 1)) by lia.
      apply Hcont; try assumption; try lia. apply set_transfer_handles.
    + apply Hcont; try assumption; try lia. apply set_transfer_handles.
Qed.

(** X15. When the wrapped channel delivers nothing at its [k+1]-th read,
    [readMsgs] comes back within [k+1] turns: the count it reports is at most
    the capacity asked for and at most the number of frames it has read,
    nothing is stored past the first slot, and the registry keeps its
    filters. *)
Theorem readMsgs_returns (ch : ChannelISO15765) (pMsg : list PASSTHRU_MSG)
    (NumMsgs : Z) (w : World) (k : nat) :
  0 <= NumMsgs < 2 ^ 64 ->
  fst (rx w (reads w + k)%nat) <> 1 ->
  exists ch' pMsg' count w' evs,
    readMsgs (S k) ch pMsg NumMsgs w = Some (ch', pMsg', count, w', evs) /\
    0 <= count <= NumMsgs /\ count <= Z.of_nat k /\
    tl pMsg' = tl pMsg /\
    map mMessageFilter (mMessageFilters ch') = map mMessageFilter (mMessageFilters ch).
Proof.
  intros Hn Hdry. unfold readMsgs.
  destruct (readMsgs_loop_dry NumMsgs k ltac:(lia) ch pMsg 0 w ltac:(lia) Hdry)
    as (ch' & pMsg' & count & w' & evs & Hrun & H1 & H2 & H3).
  exists ch', pMsg', count, w', evs. split; [exact Hrun |].
  split; [lia |]. split; [lia |]. split; [| exact H3].
  exact (readMsgs_loop_keeps_tail _ _ _ _ _ _ _ _ _ _ _ _ Hrun).
Qed.

Lemma readMsgs_loop_unrouted (ch : ChannelISO15765) (NumMsgs : Z) (k : nat) :
  forall (pMsg : list PASSTHRU_MSG) (i count : Z) (w : World),
    (forall j, (j < k)%nat ->
               getTransferByPattern ch (snd (rx w (reads w + j)%nat)) = None) ->
    fst (rx w (reads w + k)%nat) <> 1 ->
    exists w' evs,
      readMsgs_loop (S k) ch pMsg NumMsgs i count w = Some (ch, pMsg, count, w', evs) /\
      written evs = [] /\
      (i < NumMsgs -> (forall n, ulong (clock w n) <> 0) ->
       (forall j, (j < k)%nat -> fst (rx w (reads w + j)%nat) = 1) ->
       reads w' = (reads w + S k)%nat).
Proof.
  induction k as [| k IH]; intros pMsg i count w Hno Hdry.
  - cbn [readMsgs_loop].
    destruct (Z.ltb_spec i NumMsgs) as [Hi | Hi];
      [| do 2 eexists; split; [reflexivity |]; split; [reflexivity | lia]].
    unfold steady_remaining.
    destruct (Z.leb_spec (ulong (clock w (ticks w))) 0) as [Hc | Hc].
    { do 2 eexists. split; [reflexivity |]. split; [reflexivity |].
      intros _ Hclock _. exfalso. apply (Hclock (ticks w)).
      pose proof (Z.mod_pos_bound (clock w (ticks w)) (2 ^ 64) ltac:(lia)).
      unfold ulong in *. lia. }
    unfold chan_readMsgs. cbn [rx reads].
    rewrite Nat.add_0_r in Hdry.
    destruct (rx w (reads w)) as [c m]. cbn [fst] in Hdry.
    destruct (Z.eqb_spec c 1); [contradiction |]. cbn [negb].
    do 2 eexists. split; [reflexivity |]. split; [reflexivity |].
    intros _ _ _. cbn [reads]. lia.
  - pose (fuel := S k). change (S (S k)) with (S fuel). cbn [readMsgs_loop].
    destruct (Z.ltb_spec i NumMsgs) as [Hi | Hi];
      [| do 2 eexists; split; [reflexivity |]; split; [reflexivity | lia]].
    unfold steady_remaining at 1.
    destruct (Z.leb_spec (ulong (clock w (ticks w))) 0) as [Hc | Hc].
    { do 2 eexists. split; [reflexivity |]. split; [reflexivity |].
      intros _ Hclock _. exfalso. apply (Hclock (ticks w)).
      pose proof (Z.mod_pos_bound (clock w (ticks w)) (2 ^ 64) ltac:(lia)).
      unfold ulong in *. lia. }
    unfold chan_readMsgs. cbn [rx reads].
    pose proof (Hno 0%nat ltac:(lia)) as Hno0. rewrite Nat.add_0_r in Hno0.
    assert (Hfirst : (forall j, (j < S k)%nat -> fst (rx w (reads w + j)%nat) = 1) ->
                     fst (rx w (reads w)) = 1).
    { intros H. rewrite <- (Nat.add_0_r (reads w)). apply H. lia. }
    destruct (rx w (reads w)) as [c m]. cbn [snd] in Hno0. cbn [fst] in Hfirst.
    destruct (Z.eqb_spec c 1) as [Hc1 | Hc1].
    2:{ cbn [negb]. do 2 eexists. split; [reflexivity |]. split; [reflexivity |].
        intros _ _ Hall. exfalso. apply Hc1. now apply Hfirst. }
    cbn [negb]. unfold steady_remaining.
    cbn [clock ticks rx reads tx writes mChannelConfiguration].
    rewrite Hno0. subst fuel.
    match goal with
    | |- context [readMsgs_loop (S k) ch pMsg NumMsgs i count ?w3] =>
        destruct (IH pMsg i count w3) as (w' & evs & -> & Hev & Hreads)
    end.
    + cbn [rx reads]. intros j Hj.
      replace (S (reads w) + j)%nat with (reads w + S j)%nat by lia.
      apply Hno. lia.
    + cbn [rx reads]. replace (S (reads w) + k)%nat with (reads w + S k)%nat by lia.
      exact Hdry.
    + do 2 eexists. split; [reflexivity |]. cbn [app]. split; [exact Hev |].
      intros _ Hclock Hall. cbn [clock rx reads] in Hreads.
      rewrite Hreads; [lia | exact Hi | exact Hclock |].
      intros j Hj. replace (S (reads w) + j)%nat with (reads w + S j)%nat by lia.
      apply Hall. lia.
Qed.

(** X16. Frames that match no filter are dropped.  When the frames the
    wrapped channel delivers at the next [k] reads match no filter of the
    registry, and the read after them delivers nothing, [readMsgs] stores
    nothing, writes nothing, changes no transfer and reports 0; and with a
    slot asked for and time left it has taken all [k] frames off the wrapped
    channel, [k + 1] reads in all. *)
Theorem readMsgs_unrouted (ch : ChannelISO15765) (pMsg : list PASSTHRU_MSG)
    (NumMsgs : Z) (w : World) (k : nat) :
  (forall j, (j < k)%nat ->
             getTransferByPattern ch (snd (rx w (reads w + j)%nat)) = None) ->
  fst (rx w (reads w + k)%nat) <> 1 ->
  exists w' evs,
    readMsgs (S k) ch pMsg NumMsgs w = Some (ch, pMsg, 0, w', evs) /\
    written evs = [] /\
    (0 < NumMsgs -> (forall n, ulong (clock w n) <> 0) ->
     (forall j, (j < k)%nat -> fst (rx w (reads w + j)%nat) = 1) ->
     reads w' = (reads w + S k)%nat).
Proof.
  intros Hno Hdry. unfold readMsgs.
  exact (readMsgs_loop_unrouted ch NumMsgs k pMsg 0 0 w Hno Hdry).
Qed.
End BatchRead.

(** ** Starting and stopping filters *)

Lemma find_if_app {A : Type} (p : A -> bool) (l1 l2 : list A) :
  find_if p (l1 ++ l2)
  = match find_if p l1 with
    | Some k => Some k
    | None => option_map (fun k => (length l1 + k)%nat) (find_if p l2)
    end.
Proof.
  induction l1 as [| a l1 IH]; cbn [app find_if length].
  - destruct (find_if p l2); reflexivity.
  - destruct (p a); [reflexivity |]. rewrite IH.
    destruct (find_if p l1); [reflexivity |].
    destruct (find_if p l2); reflexivity.
Qed.

Lemma find_if_erase {A : Type} (p : A -> bool) (l : list A) (k : nat) :
  find_if p l = Some k ->
  exists l1 x l2,
    l = l1 ++ x :: l2 /\ p x = true /\ (forall y, In y l1 -> p y = false) /\
    erase_at k l = l1 ++ l2.
Proof.
  revert k. induction l as [| a l IH]; intros k; cbn [find_if]; [discriminate |].
  destruct (p a) eqn:Hp.
  - intros [= <-]. exists [], a, l. now repeat split.
  - destruct (find_if p l) as [k' |]; [| discriminate].
    intros [= <-]. destruct (IH k' eq_refl) as (l1 & x & l2 & -> & Hx & Hl1 & He).
    exists (a :: l1), x, l2. cbn [app erase_at]. rewrite He.
    repeat split; auto. intros y [<- | Hy]; [exact Hp | now apply Hl1].
Qed.

Section MsgFilterProps.
Context {K : J2534}.
Context {F : J2534Filter}.


(** X18. Stopping a filter takes the first filter of the registry that is the one
    pointed to out of the list and leaves the others in their order; when
    the registry has no such filter it is left as it is and the call goes to
    the wrapped channel. *)
Theorem stopMsgFilter_erases_first (ch : ChannelISO15765)
    (is_it : MessageFilterISO15765 -> bool) :
  (snd (stopMsgFilter ch is_it) = true /\
   fst (stopMsgFilter ch is_it) = ch /\
   forall f, In f (mMessageFilters ch) -> is_it f = false) \/
  (snd (stopMsgFilter ch is_it) = false /\
   exists l1 f l2,
     mMessageFilters ch = l1 ++ f :: l2 /\ is_it f = true /\
     (forall g, In g l1 -> is_it g = false) /\
     mMessageFilters (fst (stopMsgFilter ch is_it)) = l1 ++ l2).
Proof.
  unfold stopMsgFilter.
  destruct (find_if is_it (mMessageFilters ch)) as [k |] eqn:E.
  - right. split; [reflexivity |]. cbn [fst mMessageFilters].
    exact (find_if_erase _ _ _ E).
  - left. split; [reflexivity |]. split; [reflexivity |]. exact (find_if_None _ _ E).
Qed.

(** X19. Starting a flow-control filter and stopping the filter that was handed
    back gives the registry back as it was. *)
Theorem start_then_stop
    (mChannel_startMsgFilter :
       Z -> option PASSTHRU_MSG -> option PASSTHRU_MSG -> option PASSTHRU_MSG -> Z)
    (ch : ChannelISO15765) (mask0 pattern0 fc0 buf : PASSTHRU_MSG)
    (is_it : MessageFilterISO15765 -> bool) mf ch' :
  startMsgFilter mChannel_startMsgFilter ch FLOW_CONTROL_FILTER
                 (Some mask0) (Some pattern0) (Some fc0) buf
  = inr (OwnFilter mf, ch') ->
  is_it mf = true ->
  (forall f, In f (mMessageFilters ch) -> is_it f = false) ->
  stopMsgFilter ch' is_it = (ch, false).
Proof.
  unfold startMsgFilter. rewrite Z.eqb_refl. intros [= <- <-] Hmf Hold.
  unfold stopMsgFilter. cbn [mMessageFilters]. rewrite find_if_app.
  assert (Hnone : find_if is_it (mMessageFilters ch) = None).
  { clear Hmf. induction (mMessageFilters ch) as [| a l IH]; [reflexivity |].
    cbn [find_if]. rewrite (Hold a (or_introl eq_refl)).
    rewrite IH; [reflexivity |]. intros f Hf. apply Hold. now right. }
  rewrite Hnone. cbn [find_if]. rewrite Hmf. cbn [option_map].
  rewrite Nat.add_0_r. f_equal. destruct ch as [l]. cbn [mMessageFilters]. f_equal.
  clear. induction l as [| a l IH]; [reflexivity |].
  cbn [app length erase_at]. now rewrite IH.
Qed.
End MsgFilterProps.

(** ** The further properties at the scenarios *)

Example transfer_reassembling_fields :
  fields transfer_reassembling = (BLOCK_STATE, 10, 1, 0, 0).
Proof. vm_compute. reflexivity. Qed.

Lemma readMsg_single_frame_witness :
  exists t' out',
    @readMsg sae_j2534 transfer_7E0 sf_A blank_msg world_single
    = (true, t', out', world_single, []) /\
    DataSize out' = 6.
Proof.
  destruct (@readMsg_single_frame sae_j2534 transfer_7E0 sf_A blank_msg world_single)
    as (t' & out' & Hrun & _ & _ & _ & _ & Hsz & _).
  - reflexivity.
  - vm_compute. discriminate.
  - reflexivity.
  - reflexivity.
  - exists t', out'. split; [exact Hrun | exact Hsz].
Defined.


Lemma lookups_first_match_witness :
  getTransferByPattern channel_7E0 sf_A = Some 0%nat /\
  getTransferByFlowControl channel_7E0 msg_single = None.
Proof.
  destruct (lookups_first_match channel_7E0 sf_A) as (Hp & _).
  destruct (lookups_first_match channel_7E0 msg_single) as (_ & _ & _ & Hf).
  split.
  - apply Hp. exists (mkFilter 1 transfer_7E0).
    split; [reflexivity |]. split; [reflexivity |]. intros j g Hj. lia.
  - apply Hf. intros f [<- | []]. vm_compute. discriminate.
Defined.

Lemma writeMsgs_returns_witness :
  exists r ch' count w' evs,
    @writeMsgs sae_j2534 channel_7E0 [msg_20] 1 world_20 = Some (r, ch', count, w', evs) /\
    0 <= count <= 1.
Proof.
  destruct (@writeMsgs_returns sae_j2534 channel_7E0 [msg_20] 1 world_20)
    as (r & ch' & count & w' & evs & Hrun & Hc & _).
  - intros m [<- | []]. vm_compute. reflexivity.
  - lia.
  - exists r, ch', count, w', evs. split; [exact Hrun | exact Hc].
Defined.

Lemma writeMsgs_unrouted_witness :
  exists w',
    @writeMsgs sae_j2534 channel_7E0 [msg_single; msg_short] 2 world_single
    = Some (Returned true, channel_7E0, 0, w', []).
Proof.
  apply (@writeMsgs_unrouted sae_j2534 channel_7E0 [msg_single; msg_short] 2 world_single).
  intros m [<- | [<- | []]]; reflexivity.
Defined.


Lemma readMsgs_returns_witness :
  exists ch' pMsg' count w' evs,
    @readMsgs sae_j2534 3 channel_7E0 [slot_marker; slot_marker] 2 world_two_frames
    = Some (ch', pMsg', count, w', evs) /\
    0 <= count <= 2 /\ tl pMsg' = [slot_marker].
Proof.
  destruct (@readMsgs_returns sae_j2534 channel_7E0 [slot_marker; slot_marker] 2
              world_two_frames 2)
    as (ch' & pMsg' & count & w' & evs & Hrun & Hc & _ & Htl & _).
  - lia.
  - vm_compute. discriminate.
  - exists ch', pMsg', count, w', evs. split; [exact Hrun |]. split; [exact Hc | exact Htl].
Defined.

Lemma readMsgs_unrouted_witness :
  exists w' evs,
    @readMsgs sae_j2534 3 channel_7E0 [slot_marker] 1 world_strays
    = Some (channel_7E0, [slot_marker], 0, w', evs) /\
    written evs = [] /\ reads w' = 3%nat.
Proof.
  destruct (@readMsgs_unrouted sae_j2534 channel_7E0 [slot_marker] 1 world_strays 2)
    as (w' & evs & Hrun & Hev & Hreads).
  - intros [| [| j]] Hj; [reflexivity | reflexivity | lia].
  - vm_compute. discriminate.
  - exists w', evs. split; [exact Hrun |]. split; [exact Hev |].
    apply Hreads.
    + lia.
    + intros n. vm_compute. discriminate.
    + intros [| [| j]] Hj; [reflexivity | reflexivity | lia].
Defined.

Lemma start_then_stop_witness :
  stopMsgFilter (mkChannel [mkFilter 1 transfer_7E0; mkFilter 7 transfer_ecu]) (handle_is 7)
  = (channel_7E0, false).
Proof.
  apply (@start_then_stop sae_j2534 sae_j2534_filter (fun _ _ _ _ => 7) channel_7E0
           (msg_of 6 0 [0; 0; 0xFF; 0xFF]) (msg_of 6 0 [0; 0; 0x07; 0xE0])
           (msg_of 6 0 [0; 0; 0x07; 0xE8]) blank_msg (handle_is 7)
           (mkFilter 7 transfer_ecu)).
  - reflexivity.
  - reflexivity.
  - intros f [<- | []]. reflexivity.
Defined.

(** ** A channel whose filters have been cleared *)

Section Cleared.
Context {K : J2534}.

(** X20. After [clearMessageFilters] the channel carries no traffic: [writeMsgs]
    passes every message over without writing, and [readMsgs] drops every
    frame it reads and stores nothing, both reporting 0. *)
Theorem cleared_channel_carries_nothing (ch : ChannelISO15765)
    (out_msgs in_slots : list PASSTHRU_MSG) (NumMsgs : Z) (w : World) (k : nat) :
  fst (rx w (reads w + k)%nat) <> 1 ->
  (exists w',
     writeMsgs (snd (clearMessageFilters ch)) out_msgs NumMsgs w
     = Some (Returned true, mkChannel [], 0, w', [])) /\
  (exists w' evs,
     readMsgs (S k) (snd (clearMessageFilters ch)) in_slots NumMsgs w
     = Some (mkChannel [], in_slots, 0, w', evs) /\
     written evs = []).
Proof.
  intros Hdry. unfold clearMessageFilters, writeMsgs, readMsgs. cbn [snd]. split.
  - exact (writeMsgs_loop_unrouted (mkChannel []) out_msgs (fun m _ => eq_refl)
             NumMsgs 0 0 w).
  - destruct (readMsgs_loop_unrouted (mkChannel []) NumMsgs k in_slots 0 0 w
                (fun j _ => eq_refl) Hdry) as (w' & evs & Hrun & Hev & _).
    exists w', evs. split; [exact Hrun | exact Hev].
Qed.
End Cleared.

Lemma cleared_channel_carries_nothing_witness :
  exists w' evs,
    @readMsgs sae_j2534 3 (snd (clearMessageFilters channel_7E0)) [slot_marker] 1
      world_two_frames
    = Some (mkChannel [], [slot_marker], 0, w', evs) /\
    written evs = [].
Proof.
  assert (H : fst (rx world_two_frames (reads world_two_frames + 2)%nat) <> 1)
    by (vm_compute; discriminate).
  destruct (@cleared_channel_carries_nothing sae_j2534 channel_7E0 [msg_20]
              [slot_marker] 1 world_two_frames 2 H) as (_ & w' & evs & Hrun & Hev).
  exists w', evs. split; [exact Hrun | exact Hev].
Defined.
